(** * Orchard engine fetcher: a shallow embedding of [orchard/engine/fetch.py]

    The module installs a versioned engine binary under [~/.orchard]:
    [get_engine_path] resolves the binary (local override, fast path,
    double-checked install under a file lock), [download_engine] fetches the
    release manifest, resolves a version, downloads, checks the SHA-256 digest,
    unpacks the archive and records the version, and [get_installed_version] /
    [check_for_updates] read the recorded version back.

    Everything outside the process is explicit here: the environment
    variables, the network, the archive decoder and the other processes that
    compete for the lock are fields of [Env]; the file system, the lock and
    the log of externally visible events are fields of [State].  Python
    exceptions are values of [exn], and a function of the module is a
    computation [M A] that returns either a value or a raised exception
    together with the state it leaves behind.  Text is held as UTF-8, the
    library functions are those of CPython 3.11 on a POSIX system. *)

From Stdlib Require Import ZArith Ascii String List Bool Lia.
From Stdlib Require Strings.Byte.
From stdpp Require Import base option list strings gmap fin_maps.

Local Open Scope Z_scope.

(** ** Python text *)

Module PyStr.

(** A Python string is held as its UTF-8 bytes, one [ascii] per byte: text
    files are read and written in UTF-8, the encoding of the locale, with
    strict error handling.  A [string] that is not well-formed UTF-8 stands
    for a Python string with lone surrogates, which cannot be encoded. *)
Definition code (c : ascii) : N := N_of_ascii c.

Definition between (lo hi : N) (c : ascii) : bool :=
  ((lo <=? code c) && (code c <=? hi))%N.

Definition is_byte (n : N) (c : ascii) : bool := (code c =? n)%N.

(** [str.isspace] on the characters of one byte: TAB..CR, FS..US, SPACE. *)
Definition isspace (c : ascii) : bool := between 9 13 c || between 28 32 c.

(** The white space of two bytes: U+0085 and U+00A0. *)
Definition isspace2 (c1 c2 : ascii) : bool :=
  is_byte 0xC2 c1 && (is_byte 0x85 c2 || is_byte 0xA0 c2).

(** The white space of three bytes: U+1680, U+2000..U+200A, U+2028, U+2029,
    U+202F, U+205F and U+3000. *)
Definition isspace3 (c1 c2 c3 : ascii) : bool :=
  is_byte 0xE1 c1 && is_byte 0x9A c2 && is_byte 0x80 c3
  || is_byte 0xE2 c1 && is_byte 0x80 c2
     && (between 0x80 0x8A c3 || is_byte 0xA8 c3 || is_byte 0xA9 c3 || is_byte 0xAF c3)
  || is_byte 0xE2 c1 && is_byte 0x81 c2 && is_byte 0x9F c3
  || is_byte 0xE3 c1 && is_byte 0x80 c2 && is_byte 0x80 c3.

(** The number of bytes of the white-space character a string starts with,
    0 when it starts with none. *)
Definition space_prefix (s : string) : nat :=
  match s with
  | EmptyString => 0
  | String c1 r1 =>
      if isspace c1 then 1
      else
        match r1 with
        | EmptyString => 0
        | String c2 r2 =>
            if isspace2 c1 c2 then 2
            else
              match r2 with
              | EmptyString => 0
              | String c3 _ => if isspace3 c1 c2 c3 then 3 else 0
              end
        end
  end%nat.

(** The string without its first [n] bytes. *)
Fixpoint after (n : nat) (s : string) : string :=
  match n, s with
  | S n', String _ s' => after n' s'
  | _, _ => s
  end.

Definition starts_with_space (s : string) : bool :=
  negb (Nat.eqb (space_prefix s) 0).

(** [s] is exactly one white-space character. *)
Definition is_space_char (s : string) : bool :=
  negb (Nat.eqb (space_prefix s) 0) && Nat.eqb (space_prefix s) (String.length s).

Fixpoint ends_with_space (s : string) : bool :=
  match s with
  | EmptyString => false
  | String _ s' => is_space_char s || ends_with_space s'
  end.

(** [bool(s)]: a string is truthy when it is not empty. *)
Definition truthy (s : string) : bool :=
  match s with
  | EmptyString => false
  | String _ _ => true
  end.

(** [a or b] on strings. *)
Definition or_ (a b : string) : string := if truthy a then a else b.

(** [bool(x)] for [x : str | None]. *)
Definition opt_truthy (x : option string) : bool :=
  match x with
  | Some s => truthy s
  | None => false
  end.

Fixpoint lstrip (s : string) : string :=
  match s with
  | EmptyString => EmptyString
  | String c1 r1 =>
      if isspace c1 then lstrip r1
      else
        match r1 with
        | EmptyString => s
        | String c2 r2 =>
            if isspace2 c1 c2 then lstrip r2
            else
              match r2 with
              | EmptyString => s
              | String c3 r3 => if isspace3 c1 c2 c3 then lstrip r3 else s
              end
        end
  end.

(** The string consists of white space only. *)
Fixpoint all_space (s : string) : bool :=
  match s with
  | EmptyString => true
  | String c1 r1 =>
      if isspace c1 then all_space r1
      else
        match r1 with
        | EmptyString => false
        | String c2 r2 =>
            if isspace2 c1 c2 then all_space r2
            else
              match r2 with
              | EmptyString => false
              | String c3 r3 => if isspace3 c1 c2 c3 then all_space r3 else false
              end
        end
  end.

Fixpoint rstrip (s : string) : string :=
  match s with
  | EmptyString => EmptyString
  | String c s' => if all_space s then EmptyString else String c (rstrip s')
  end.

(** [s.strip()] *)
Definition strip (s : string) : string := rstrip (lstrip s).

(** First and last byte of a string, when it has one. *)
Definition head (s : string) : option ascii :=
  match s with
  | EmptyString => None
  | String c _ => Some c
  end.

Fixpoint last (s : string) : option ascii :=
  match s with
  | EmptyString => None
  | String c EmptyString => Some c
  | String _ s' => last s'
  end.

Definition CR : ascii := ascii_of_N 13.
Definition LF : ascii := ascii_of_N 10.

(** Reading a file in text mode with [newline=None]: ["\r\n"] and a lone
    ["\r"] both come back as ["\n"]. *)
Fixpoint universal_newlines (s : string) : string :=
  match s with
  | EmptyString => EmptyString
  | String c s' =>
      if Ascii.eqb c CR then
        match s' with
        | String c' s'' =>
            if Ascii.eqb c' LF then String LF (universal_newlines s'')
            else String LF (universal_newlines s')
        | EmptyString => String LF EmptyString
        end
      else String c (universal_newlines s')
  end.

Fixpoint has_CR (s : string) : bool :=
  match s with
  | EmptyString => false
  | String c s' => Ascii.eqb c CR || has_CR s'
  end.

(** All characters are ASCII. *)
Fixpoint is_ascii (s : string) : bool :=
  match s with
  | EmptyString => true
  | String c s' => between 0 127 c && is_ascii s'
  end.

(** [s.lower()] on ASCII letters. *)
Definition lower_char (c : ascii) : ascii :=
  let n := N_of_ascii c in
  if ((65 <=? n) && (n <=? 90))%N then ascii_of_N (n + 32) else c.

Fixpoint lower (s : string) : string :=
  match s with
  | EmptyString => EmptyString
  | String c s' => String (lower_char c) (lower s')
  end.

(** Well-formed UTF-8 (Unicode, table 3-7): no overlong form, no surrogate,
    nothing above U+10FFFF. *)
Definition cont (c : ascii) : bool := between 0x80 0xBF c.

Definition lead3 (c1 c2 : ascii) : bool :=
  is_byte 0xE0 c1 && between 0xA0 0xBF c2
  || between 0xE1 0xEC c1 && cont c2
  || is_byte 0xED c1 && between 0x80 0x9F c2
  || between 0xEE 0xEF c1 && cont c2.

Definition lead4 (c1 c2 : ascii) : bool :=
  is_byte 0xF0 c1 && between 0x90 0xBF c2
  || between 0xF1 0xF3 c1 && cont c2
  || is_byte 0xF4 c1 && between 0x80 0x8F c2.

Fixpoint utf8_valid (s : string) : bool :=
  match s with
  | EmptyString => true
  | String c1 r1 =>
      if between 0 0x7F c1 then utf8_valid r1
      else
        match r1 with
        | EmptyString => false
        | String c2 r2 =>
            if between 0xC2 0xDF c1 && cont c2 then utf8_valid r2
            else
              match r2 with
              | EmptyString => false
              | String c3 r3 =>
                  if lead3 c1 c2 && cont c3 then utf8_valid r3
                  else
                    match r3 with
                    | EmptyString => false
                    | String c4 r4 =>
                        if lead4 c1 c2 && cont c3 && cont c4 then utf8_valid r4
                        else false
                    end
              end
        end
  end.

(** The string of the bytes with the given codes. *)
Definition text_of (codes : list N) : string :=
  fold_right (fun n s => String (ascii_of_N n) s) EmptyString codes.

(** The bytes that hold a string. *)
Definition bytes_of (s : string) : list Byte.byte := String.list_byte_of_string s.

(** [s.encode("utf-8")]: [None] stands for [UnicodeEncodeError]. *)
Definition encode (s : string) : option (list Byte.byte) :=
  if utf8_valid s then Some (bytes_of s) else None.

(** [b.decode("utf-8")]: [None] stands for [UnicodeDecodeError]. *)
Definition decode (b : list Byte.byte) : option string :=
  let s := String.string_of_list_byte b in
  if utf8_valid s then Some s else None.

End PyStr.

(** ** pathlib *)

(** A path is its tuple of parts, as [PurePosixPath.parts] gives it: an
    absolute path starts with the part ["/"] (or ["//"]). *)
Abbreviation path := (list string).

Module Pathlib.

Definition slash : ascii := ascii_of_N 47.
Definition dot : ascii := ascii_of_N 46.

(** Split at slashes; [cur] is the component read so far, reversed. *)
Fixpoint split_go (cur : string) (s : string) : list string :=
  match s with
  | EmptyString => [String.rev cur]
  | String c s' =>
      if Ascii.eqb c slash then String.rev cur :: split_go EmptyString s'
      else split_go (String c cur) s'
  end.

Definition keep_part (p : string) : bool :=
  negb (String.eqb p EmptyString) && negb (String.eqb p (String dot EmptyString)).

(** The anchor of a POSIX path: exactly two leading slashes are kept, any
    other number of leading slashes collapses to one. *)
Definition anchor (s : string) : list string :=
  match s with
  | String c1 (String c2 (String c3 _)) =>
      if Ascii.eqb c1 slash then
        if Ascii.eqb c2 slash then
          if Ascii.eqb c3 slash then ["/"] else ["//"]
        else ["/"]
      else []
  | String c1 (String c2 EmptyString) =>
      if Ascii.eqb c1 slash then
        if Ascii.eqb c2 slash then ["//"] else ["/"]
      else []
  | String c1 EmptyString => if Ascii.eqb c1 slash then ["/"] else []
  | EmptyString => []
  end.

(** [Path(s)] *)
Definition Path (s : string) : path :=
  anchor s ++ filter (fun p => Is_true (keep_part p)) (split_go EmptyString s).

(** [p / name] for a single relative component [name]. *)
Definition joinpath (p : path) (name : string) : path := p ++ [name].

Fixpoint join_parts (ps : list string) : string :=
  match ps with
  | [] => EmptyString
  | [p] => p
  | p :: ps' => p +:+ "/" +:+ join_parts ps'
  end.

Definition is_anchor (p : string) : bool :=
  String.eqb p "/" || String.eqb p "//".

(** [str(p)] *)
Definition path_str (p : path) : string :=
  match p with
  | [] => "."
  | a :: rest => if is_anchor a then a +:+ join_parts rest else join_parts p
  end.

End Pathlib.

Infix "//" := Pathlib.joinpath (at level 40, left associativity).

(** ** hashlib.sha256 *)

(** SHA-256 (FIPS 180-4) on 32-bit words held in [Z], the wrap-around written
    out with [w32]. *)
Module SHA256.

Definition w32 (x : Z) : Z := x mod 2 ^ 32.
Definition add32 (x y : Z) : Z := w32 (x + y).
Definition rotr (n x : Z) : Z :=
  Z.lor (Z.shiftr x n) (w32 (Z.shiftl x (32 - n))).

Definition Ch (x y z : Z) : Z := Z.lxor (Z.land x y) (Z.ldiff z x).
Definition Maj (x y z : Z) : Z :=
  Z.lxor (Z.lxor (Z.land x y) (Z.land x z)) (Z.land y z).
Definition Sigma0 (x : Z) : Z := Z.lxor (Z.lxor (rotr 2 x) (rotr 13 x)) (rotr 22 x).
Definition Sigma1 (x : Z) : Z := Z.lxor (Z.lxor (rotr 6 x) (rotr 11 x)) (rotr 25 x).
Definition sigma0 (x : Z) : Z := Z.lxor (Z.lxor (rotr 7 x) (rotr 18 x)) (Z.shiftr x 3).
Definition sigma1 (x : Z) : Z := Z.lxor (Z.lxor (rotr 17 x) (rotr 19 x)) (Z.shiftr x 10).

(** The round constants are the first 32 bits of the fractional parts of the
    cube roots of the first 64 primes, the initial hash value those of the
    square roots of the first 8 primes. *)
Definition is_prime (n : nat) : bool :=
  forallb (fun d => negb (Nat.eqb (Nat.modulo n d) 0)) (seq 2 (n - 2)).

Definition primes (count : nat) : list Z :=
  map Z.of_nat (firstn count (List.filter is_prime (seq 2 310))).

(** The integer cube root of [x], found bit by bit from bit [bits - 1] down. *)
Fixpoint cbrt_bits (bits : nat) (r x : Z) : Z :=
  match bits with
  | O => r
  | S b =>
      let c := r + 2 ^ Z.of_nat b in
      if c * c * c <=? x then cbrt_bits b c x else cbrt_bits b r x
  end.

Definition frac_cbrt32 (p : Z) : Z := w32 (cbrt_bits 40 0 (p * 2 ^ 96)).
Definition frac_sqrt32 (p : Z) : Z := w32 (Z.sqrt (p * 2 ^ 64)).

Definition K : list Z := Eval vm_compute in map frac_cbrt32 (primes 64).
Definition H0 : list Z := Eval vm_compute in map frac_sqrt32 (primes 8).

(** Padding: a 1 bit, zeros up to 56 mod 64 bytes, the bit length on 8 bytes. *)
Definition be_bytes (n : nat) (x : Z) : list Z :=
  map (fun i => Z.land (Z.shiftr x (8 * Z.of_nat i)) 255) (rev (seq 0 n)).

Definition pad (msg : list Z) : list Z :=
  let len := Z.of_nat (length msg) in
  let zeros := Z.to_nat ((55 - len) mod 64) in
  msg ++ [128] ++ repeat 0 zeros ++ be_bytes 8 (8 * len).

(** Big-endian words of a block. *)
Fixpoint words (fuel : nat) (bs : list Z) : list Z :=
  match fuel, bs with
  | S fuel', b0 :: b1 :: b2 :: b3 :: rest =>
      (Z.shiftl b0 24 + Z.shiftl b1 16 + Z.shiftl b2 8 + b3) :: words fuel' rest
  | _, _ => []
  end.

(** The message schedule, most recent word first. *)
Fixpoint schedule (n : nat) (ws : list Z) : list Z :=
  match n with
  | O => ws
  | S n' =>
      let w := add32 (add32 (sigma1 (nth 1 ws 0)) (nth 6 ws 0))
                     (add32 (sigma0 (nth 14 ws 0)) (nth 15 ws 0)) in
      schedule n' (w :: ws)
  end.

Definition round (st : list Z) (kw : Z * Z) : list Z :=
  match st with
  | [a; b; c; d; e; f; g; h] =>
      let t1 := add32 (add32 (add32 h (Sigma1 e)) (add32 (Ch e f g) (fst kw))) (snd kw) in
      let t2 := add32 (Sigma0 a) (Maj a b c) in
      [add32 t1 t2; a; b; c; add32 d t1; e; f; g]
  | _ => st
  end.

Definition zip_with_Z (f : Z -> Z -> Z) (xs ys : list Z) : list Z :=
  map (fun p => f (fst p) (snd p)) (combine xs ys).

Definition compress (h : list Z) (block : list Z) : list Z :=
  let ws := rev (schedule 48 (rev (words 16 block))) in
  zip_with_Z add32 h (fold_left round (combine K ws) h).

Fixpoint blocks (fuel : nat) (h : list Z) (bs : list Z) : list Z :=
  match fuel with
  | O => h
  | S fuel' =>
      match bs with
      | [] => h
      | _ => blocks fuel' (compress h (firstn 64 bs)) (skipn 64 bs)
      end
  end.

Definition digest (msg : list Byte.byte) : list Z :=
  let bs := pad (map (fun b => Z.of_N (Byte.to_N b)) msg) in
  flat_map (be_bytes 4) (blocks (length bs) H0 bs).

Definition hex_digit (n : Z) : ascii :=
  if n <? 10 then ascii_of_N (Z.to_N (48 + n)) else ascii_of_N (Z.to_N (87 + n)).

Fixpoint hex (bs : list Z) : string :=
  match bs with
  | [] => EmptyString
  | b :: bs' => String (hex_digit (Z.shiftr b 4)) (String (hex_digit (Z.land b 15)) (hex bs'))
  end.

(** [hashlib.sha256(content).hexdigest()] *)
Definition hexdigest (content : list Byte.byte) : string := hex (digest content).

End SHA256.


(** ** Exceptions, files, events *)

#[global] Instance byte_eq_dec : EqDecision Byte.byte := Byte.byte_eq_dec.

(** The exceptions the module can surface, by their exact Python class. *)
Inductive exn : Type :=
| FileNotFoundError (msg : string)
| FileExistsError (p : path)
| NotADirectoryError (p : path)
| IsADirectoryError (p : path)
| Timeout (lock_file : string)              (* filelock.Timeout *)
| ConnectionError (url : string)            (* requests.ConnectionError *)
| HTTPError (status : Z) (url : string)     (* requests.HTTPError *)
| JSONDecodeError
| KeyError (key : string)
| ValueError (msg : string)
| RuntimeError (msg : string)
| ReadError                                 (* tarfile.ReadError *)
| EOFError
| ZlibError                                 (* zlib.error *)
| BadGzipFile                               (* gzip.BadGzipFile *)
| UnicodeDecodeError
| UnicodeEncodeError.

Inductive exn_class : Type :=
| CFileNotFoundError | CFileExistsError | CNotADirectoryError
| CIsADirectoryError | CTimeout | CConnectionError | CHTTPError
| CJSONDecodeError | CKeyError | CValueError | CRuntimeError | CReadError
| CEOFError | CZlibError | CBadGzipFile | CUnicodeDecodeError
| CUnicodeEncodeError.

(** [type(e)] *)
Definition class_of (e : exn) : exn_class :=
  match e with
  | FileNotFoundError _ => CFileNotFoundError
  | FileExistsError _ => CFileExistsError
  | NotADirectoryError _ => CNotADirectoryError
  | IsADirectoryError _ => CIsADirectoryError
  | Timeout _ => CTimeout
  | ConnectionError _ => CConnectionError
  | HTTPError _ _ => CHTTPError
  | JSONDecodeError => CJSONDecodeError
  | KeyError _ => CKeyError
  | ValueError _ => CValueError
  | RuntimeError _ => CRuntimeError
  | ReadError => CReadError
  | EOFError => CEOFError
  | ZlibError => CZlibError
  | BadGzipFile => CBadGzipFile
  | UnicodeDecodeError => CUnicodeDecodeError
  | UnicodeEncodeError => CUnicodeEncodeError
  end.

Inductive result (A : Type) : Type :=
| Ok (a : A)
| Raise (e : exn).
Arguments Ok {A} a.
Arguments Raise {A} e.

(** A file system maps the paths that exist to what is there.  Symbolic links,
    permission checks, the modes of directories and the working directory are
    outside the model (a relative path is looked up as it stands), and a map
    is not required to hold a directory for the parent of each of its
    entries. *)
Inductive node : Type :=
| File (data : list Byte.byte) (mode : Z)
| Dir.

Abbreviation FS := (gmap path node).

(** What the module does that the outside can see, in order. *)
Inductive event : Type :=
| EvPrint (line : string)
| EvGet (url : string) (params : list (string * string))
| EvLockAcquire (lock_file : string)
| EvLockRelease (lock_file : string).

Record State : Type := mkState {
  fs : FS;
  lock_held : bool;        (* this process holds the install lock *)
  log : list event
}.

(** ** The release manifest, the network, archives *)

(** An artifact descriptor is the JSON object of one version: its string
    fields by key, any of which the server may have left out. *)
Abbreviation Descriptor := (gmap string string).

(** The JSON document [{"latest": ..., "versions": {...}}]. *)
Record Manifest : Type := mkManifest {
  latest : string;
  versions : gmap string Descriptor
}.

Record Response : Type := mkResponse {
  status_code : Z;
  resp_url : string;
  content : list Byte.byte;
  json : option Manifest       (* [resp.json()]; [None]: the body is not JSON *)
}.

Inductive http_outcome : Type :=
| NoResponse
| Responded (r : Response).

(** The members of an archive that are regular files or directories, under
    their names relative to the root of the archive.  Links, devices and
    FIFOs, absolute names and names with [..] are outside the model. *)
Inductive tar_member : Type :=
| TarFile (name : path) (data : list Byte.byte) (mode : Z)
| TarDir (name : path) (mode : Z).

(** What reading a damaged stream raises: [tarfile.ReadError] (not a gzip
    stream, not a tar archive, a damaged header, member data that stop
    short), [EOFError] (the gzip stream is cut short), [zlib.error] (corrupt
    compressed data in the data of a member) or [gzip.BadGzipFile] (a check
    of the gzip trailer fails). *)
Inductive tar_error : Type :=
| TarReadError | TarEOFError | TarZlibError | TarBadGzipFile.

Definition tar_exn (err : tar_error) : exn :=
  match err with
  | TarReadError => ReadError
  | TarEOFError => EOFError
  | TarZlibError => ZlibError
  | TarBadGzipFile => BadGzipFile
  end.

(** [tarfile.open] reads the first header, and reports a gzip error or
    corrupt compressed data it meets there as [ReadError]; only the end of a
    stream that is cut short comes through, as [EOFError]. *)
Definition open_exn (err : tar_error) : exn :=
  match err with
  | TarEOFError => EOFError
  | _ => ReadError
  end.

(** How the stream of an archive ends: intact, or damaged at some point
    after the members it yields, possibly in the data of a further regular
    file, of which [cut] gives the name and the part that is written before
    the error shows. *)
Inductive tar_ending : Type :=
| Intact
| Damaged (err : tar_error) (cut : option (path * list Byte.byte)).

(** What [tarfile.open(..., mode="r:gz")] makes of a byte string: an error
    at once, or the members it yields in order and how the stream ends.
    Members are read as they are extracted, so a stream damaged after some
    members fails only once those members are on disk. *)
Inductive tar_outcome : Type :=
| TarUnreadable (err : tar_error)
| TarStream (members : list tar_member) (ending : tar_ending).

(** Everything the module reads from outside the process. *)
Record Env : Type := mkEnv {
  environ : gmap string string;                              (* os.environ *)
  home : path;                                               (* Path.home() *)
  umask : Z;
  http : string -> list (string * string) -> http_outcome;   (* requests.get *)
  tarfile_open : list Byte.byte -> tar_outcome;
  (** Waiting for the install lock with a timeout, from a given file system:
      [None] when the lock is not obtained in time, else the file system as
      the other processes left it when the lock is granted. *)
  lock_wait : Z -> FS -> option FS
}.

(** ** Computations *)

Definition M (A : Type) : Type := State -> result A * State.

Definition ret {A} (a : A) : M A := fun st => (Ok a, st).
Definition raise {A} (e : exn) : M A := fun st => (Raise e, st).
Definition bind {A B} (m : M A) (k : A -> M B) : M B :=
  fun st =>
    match m st with
    | (Ok a, st') => k a st'
    | (Raise e, st') => (Raise e, st')
    end.

Notation "x <- m ;; k" := (bind m (fun x => k))
  (at level 100, m at next level, right associativity).
Notation "m ;; k" := (bind m (fun _ => k))
  (at level 100, right associativity).

Definition emit (ev : event) : M unit :=
  fun st => (Ok tt, mkState (fs st) (lock_held st) (log st ++ [ev])).

(** [print(line)]; standard output is taken to accept every line. *)
Definition print (line : string) : M unit := emit (EvPrint line).

(** Run a file-system operation on the current file system. *)
Definition on_fs {A} (op : FS -> result A * FS) : M A :=
  fun st =>
    let (r, f) := op (fs st) in
    (r, mkState f (lock_held st) (log st)).

(** ** File-system operations *)

Module Fs.

Definition exists_ (f : FS) (p : path) : bool :=
  match f !! p with
  | Some _ => true
  | None => false
  end.

Definition parent (p : path) : path := removelast p.

Definition is_file (f : FS) (p : path) : bool :=
  match f !! p with
  | Some (File _ _) => true
  | _ => false
  end.

(** A regular file sits where [p] needs a directory. *)
Definition file_above (f : FS) (p : path) : bool :=
  existsb (fun n => is_file f (take n p)) (seq 0 (length p)).

Definition no_such_file (p : path) : exn :=
  FileNotFoundError ("[Errno 2] No such file or directory: '" +:+ Pathlib.path_str p +:+ "'").

(** The error of reaching for a path that is not there: [ENOTDIR] when a
    regular file is in the way, [ENOENT] otherwise. *)
Definition missing (f : FS) (p : path) : exn :=
  if file_above f p then NotADirectoryError p else no_such_file p.

(** Create the directories [made ++ [c1]], [made ++ [c1; c2]], ... that are
    missing.  A regular file in the way raises [at_last] when it sits at the
    last of them, and [before q] when it sits above the directory [q]. *)
Fixpoint makedirs (at_last : exn) (before : path -> exn) (made todo : path) (f : FS)
    : result unit * FS :=
  match todo with
  | [] => (Ok tt, f)
  | c :: todo' =>
      let q := made ++ [c] in
      match f !! q with
      | None => makedirs at_last before q todo' (<[q := Dir]> f)
      | Some Dir => makedirs at_last before q todo' f
      | Some (File _ _) =>
          match todo' with
          | [] => (Raise at_last, f)
          | c' :: _ => (Raise (before (q ++ [c'])), f)
          end
      end
  end.

(** [p.mkdir(parents=True, exist_ok=True)]: the first [os.mkdir(p)] fails
    with [ENOTDIR] for [p] when a file is above it. *)
Definition mkdir (p : path) (f : FS) : result unit * FS :=
  makedirs (FileExistsError p) (fun _ => NotADirectoryError p) [] p f.

(** [p.chmod(mode)] *)
Definition chmod (p : path) (mode : Z) (f : FS) : result unit * FS :=
  match f !! p with
  | None => (Raise (missing f p), f)
  | Some (File data _) => (Ok tt, <[p := File data mode]> f)
  | Some Dir => (Ok tt, f)
  end.

(** The file at [p] once it is open for writing, and the text written to
    it: the file is empty when the text cannot be encoded. *)
Definition store (p : path) (mode : Z) (text : string) (f : FS) : result unit * FS :=
  match PyStr.encode text with
  | Some data => (Ok tt, <[p := File data mode]> f)
  | None => (Raise UnicodeEncodeError, <[p := File [] mode]> f)
  end.

(** [p.write_text(text)]: the file is created with the mode the umask
    leaves of 0o666 (438), or overwritten in place. *)
Definition write_text (umask : Z) (p : path) (text : string) (f : FS) : result unit * FS :=
  match f !! p with
  | Some Dir => (Raise (IsADirectoryError p), f)
  | Some (File _ mode) => store p mode text f
  | None =>
      match f !! parent p with
      | Some Dir => store p (Z.ldiff 438 umask) text f
      | _ => (Raise (missing f p), f)
      end
  end.

(** [p.read_text()] *)
Definition read_text (p : path) (f : FS) : result string * FS :=
  match f !! p with
  | Some (File data _) =>
      match PyStr.decode data with
      | Some text => (Ok (PyStr.universal_newlines text), f)
      | None => (Raise UnicodeDecodeError, f)
      end
  | Some Dir => (Raise (IsADirectoryError p), f)
  | None => (Raise (missing f p), f)
  end.

(** [os.makedirs] of the directory that is to hold the member at [t], when
    it does not exist: a file above it raises [ENOTDIR] for the first
    directory that cannot be made, a file in its place shows when [t] itself
    is reached for. *)
Definition upper_dirs (t : path) (f : FS) : result unit * FS :=
  makedirs (NotADirectoryError t) NotADirectoryError [] (parent t) f.

(** Extraction of one archive member below [root] ([TarFile.extract]): a
    regular file is written over what is there and given its mode; a
    directory is made unless something is there already, be it a file
    ([makedir] passes over [FileExistsError]). *)
Definition extract_member (root : path) (m : tar_member) (f : FS) : result unit * FS :=
  match m with
  | TarFile name data mode =>
      let t := root ++ name in
      match upper_dirs t f with
      | (Ok _, f1) =>
          match f1 !! t with
          | Some Dir => (Raise (IsADirectoryError t), f1)
          | _ => (Ok tt, <[t := File data mode]> f1)
          end
      | (Raise e, f1) => (Raise e, f1)
      end
  | TarDir name _ =>
      let t := root ++ name in
      match upper_dirs t f with
      | (Ok _, f1) =>
          match f1 !! t with
          | None => (Ok tt, <[t := Dir]> f1)
          | Some _ => (Ok tt, f1)
          end
      | (Raise e, f1) => (Raise e, f1)
      end
  end.

Fixpoint extract_members (root : path) (ms : list tar_member) (f : FS) : result unit * FS :=
  match ms with
  | [] => (Ok tt, f)
  | m :: ms' =>
      match extract_member root m f with
      | (Ok _, f1) => extract_members root ms' f1
      | (Raise e, f1) => (Raise e, f1)
      end
  end.

(** The modes of the directory members are set once all members are out:
    a regular file that holds the place of a directory member gets the mode
    of that member. *)
Definition set_dir_mode (root : path) (m : tar_member) (f : FS) : FS :=
  match m with
  | TarDir name mode =>
      match f !! (root ++ name) with
      | Some (File data _) => <[root ++ name := File data mode]> f
      | _ => f
      end
  | TarFile _ _ _ => f
  end.

(** Directory members are gone through in the reverse order of their names;
    of two members with one name the one listed first comes last. *)
Definition set_dir_modes (root : path) (ms : list tar_member) (f : FS) : FS :=
  foldr (set_dir_mode root) f ms.

(** The part of a regular file that is written before a damaged stream
    shows: the file is opened for writing, so it keeps the mode it had or
    gets the one the umask leaves of 0o666. *)
Definition write_cut (umask : Z) (t : path) (data : list Byte.byte) (f : FS)
    : result unit * FS :=
  match upper_dirs t f with
  | (Ok _, f1) =>
      match f1 !! t with
      | Some Dir => (Raise (IsADirectoryError t), f1)
      | Some (File _ mode) => (Ok tt, <[t := File data mode]> f1)
      | None => (Ok tt, <[t := File data (Z.ldiff 438 umask)]> f1)
      end
  | (Raise e, f1) => (Raise e, f1)
  end.

(** [tar.extractall(root)] on an opened stream. *)
Definition extractall (umask : Z) (root : path) (ms : list tar_member)
    (ending : tar_ending) (f : FS) : result unit * FS :=
  match extract_members root ms f with
  | (Ok _, f1) =>
      match ending with
      | Intact => (Ok tt, set_dir_modes root ms f1)
      | Damaged err None => (Raise (tar_exn err), f1)
      | Damaged err (Some (name, data)) =>
          match write_cut umask (root ++ name) data f1 with
          | (Ok _, f2) => (Raise (tar_exn err), f2)
          | (Raise e, f2) => (Raise e, f2)
          end
      end
  | (Raise e, f1) => (Raise e, f1)
  end.

End Fs.

(** ** The module [orchard.engine.fetch] *)

Definition MANIFEST_URL : string :=
  "https://prod.proxy.ing/functions/v1/get-release-manifest".
Definition DEFAULT_CHANNEL : string := "stable".

Definition nl : string := String PyStr.LF EmptyString.

(** The texts of the exceptions the module raises itself. *)
Definition override_missing_msg (local_path : path) : string :=
  "PIE_LOCAL_BUILD set but binary not found: " +:+ Pathlib.path_str local_path.
Definition version_not_found_msg (version channel : string) : string :=
  "Version " +:+ version +:+ " not found in " +:+ channel +:+ " channel".
Definition sha256_mismatch_msg (expected actual : string) : string :=
  "SHA256 mismatch!" +:+ nl +:+
  "  Expected: " +:+ expected +:+ nl +:+
  "  Got:      " +:+ actual.
Definition binary_missing_msg : string :=
  "Download completed but binary not found".

(** Lines 61-68 of [download_engine]: the version to install and its entry in
    the manifest. *)
Definition resolve_version (manifest : Manifest) (channel : string)
    (version : option string) : result (string * Descriptor) :=
  let version :=
    match version with
    | None => latest manifest
    | Some v => v
    end in
  match versions manifest !! version with
  | None => Raise (ValueError (version_not_found_msg version channel))
  | Some info => Ok (version, info)
  end.

(** Lines 79-86 of [download_engine]: the digest check. *)
Definition verify_sha256 (content : list Byte.byte) (expected_sha256 : string)
    : result unit :=
  let actual_sha256 := SHA256.hexdigest content in
  if PyStr.truthy expected_sha256 && negb (String.eqb actual_sha256 expected_sha256)
  then Raise (RuntimeError (sha256_mismatch_msg expected_sha256 actual_sha256))
  else Ok tt.

Definition lift {A} (r : result A) : M A :=
  match r with
  | Ok a => ret a
  | Raise e => raise e
  end.

(** [d[key]] on a JSON object. *)
Definition getitem (d : Descriptor) (key : string) : M string :=
  match d !! key with
  | Some v => ret v
  | None => raise (KeyError key)
  end.

Section Fetch.

Context (env : Env).

Definition ORCHARD_HOME : path := home env // ".orchard".
Definition binary_path : path := ORCHARD_HOME // "bin" // "proxy_inference_engine".
Definition version_file : path := ORCHARD_HOME // "version.txt".
Definition lock_path : path := ORCHARD_HOME // "install.lock".

(** [requests.get(url, params=params)] *)
Definition requests_get (url : string) (params : list (string * string)) : M Response :=
  emit (EvGet url params) ;;
  match http env url params with
  | NoResponse => raise (ConnectionError url)
  | Responded r => ret r
  end.

(** [resp.raise_for_status()] *)
Definition raise_for_status (resp : Response) : M unit :=
  if (400 <=? status_code resp) && (status_code resp <? 600)
  then raise (HTTPError (status_code resp) (resp_url resp))
  else ret tt.

(** [resp.json()] *)
Definition resp_json (resp : Response) : M Manifest :=
  match json resp with
  | Some manifest => ret manifest
  | None => raise JSONDecodeError
  end.

(** [p.exists()] *)
Definition path_exists (p : path) : M bool :=
  fun st => (Ok (Fs.exists_ (fs st) p), st).

(** [with tarfile.open(fileobj=io.BytesIO(content), mode="r:gz") as tar:
       tar.extractall(root)] *)
Definition untar (content : list Byte.byte) (root : path) : M unit :=
  match tarfile_open env content with
  | TarUnreadable err => raise (open_exn err)
  | TarStream members ending => on_fs (Fs.extractall (umask env) root members ending)
  end.

(** [with FileLock(str(lock_file), timeout=timeout): body].  The lock is
    given up when the block is left, whether by its end, by a [return] or
    by an exception.  The lock file itself is not kept track of in the file
    system of the model. *)
Definition with_FileLock {A} (lock_file : path) (timeout : Z) (body : M A) : M A :=
  fun st =>
    match lock_wait env timeout (fs st) with
    | None => (Raise (Timeout (Pathlib.path_str lock_file)), st)
    | Some f =>
        let acquired :=
          mkState f true (log st ++ [EvLockAcquire (Pathlib.path_str lock_file)]) in
        let (r, st') := body acquired in
        (r, mkState (fs st') false
              (log st' ++ [EvLockRelease (Pathlib.path_str lock_file)]))
    end.

Definition download_engine (channel : string) (version : option string) : M unit :=
  (* 1. Fetch manifest *)
  resp <- requests_get MANIFEST_URL [("channel", channel)] ;;
  raise_for_status resp ;;
  manifest <- resp_json resp ;;
  (* 2. Resolve version *)
  resolved <- lift (resolve_version manifest channel version) ;;
  let version := fst resolved in
  let info := snd resolved in
  url <- getitem info "url" ;;
  expected_sha256 <- getitem info "sha256" ;;
  print ("Downloading Orchard engine " +:+ version +:+ "...") ;;
  (* 3. Download *)
  resp <- requests_get url [] ;;
  raise_for_status resp ;;
  let content := content resp in
  (* 4. Verify SHA256 *)
  lift (verify_sha256 content expected_sha256) ;;
  (* 5. Extract to ~/.orchard/ *)
  on_fs (Fs.mkdir ORCHARD_HOME) ;;
  untar content ORCHARD_HOME ;;
  (* 6. Make binary executable *)
  on_fs (Fs.chmod binary_path 493) ;;
  (* 7. Write version file *)
  on_fs (Fs.write_text (umask env) version_file (PyStr.or_ version "")) ;;
  print ("Orchard engine " +:+ version +:+ " installed to "
         +:+ Pathlib.path_str ORCHARD_HOME).

Definition get_engine_path : M path :=
  (* Check for local dev override first (always wins) *)
  let local_build := environ env !! "PIE_LOCAL_BUILD" in
  if PyStr.opt_truthy local_build then
    let local_path :=
      Pathlib.Path (default "" local_build) // "bin" // "proxy_inference_engine" in
    found <- path_exists local_path ;;
    if found then ret local_path
    else raise (FileNotFoundError (override_missing_msg local_path))
  else
    (* Fast path: already installed *)
    found <- path_exists binary_path ;;
    if found then ret binary_path
    else
      (* Need to download - use lock to prevent concurrent downloads *)
      on_fs (Fs.mkdir ORCHARD_HOME) ;;
      early <- with_FileLock lock_path 300
        ((* Double-check: another process may have installed while we waited *)
         found <- path_exists binary_path ;;
         if found then ret (Some binary_path)
         else
           print "Orchard engine not found. Downloading..." ;;
           download_engine DEFAULT_CHANNEL None ;;
           ret None) ;;
      match early with
      | Some p => ret p
      | None =>
          found <- path_exists binary_path ;;
          if found then ret binary_path
          else raise (RuntimeError binary_missing_msg)
      end.

Definition get_installed_version : M (option string) :=
  found <- path_exists version_file ;;
  if found then
    text <- on_fs (Fs.read_text version_file) ;;
    ret (Some (PyStr.strip text))
  else ret None.

Definition check_for_updates (channel : string) : M (option string) :=
  installed <- get_installed_version ;;
  if negb (PyStr.opt_truthy installed) then ret None
  else
    let installed := default "" installed in
    resp <- requests_get MANIFEST_URL [("channel", channel)] ;;
    raise_for_status resp ;;
    manifest <- resp_json resp ;;
    let latest := latest manifest in
    if negb (String.eqb latest installed) then ret (Some latest)
    else ret None.

(** The two halves of [download_engine], named for the proofs: steps 1-4
    (lines 56-86), which only talk to the network, and steps 5-7 (lines
    88-102), which write to the install root. *)
Definition fetch_verified (channel : string) (version : option string)
    : M (string * list Byte.byte) :=
  resp <- requests_get MANIFEST_URL [("channel", channel)] ;;
  raise_for_status resp ;;
  manifest <- resp_json resp ;;
  resolved <- lift (resolve_version manifest channel version) ;;
  let version := fst resolved in
  let info := snd resolved in
  url <- getitem info "url" ;;
  expected_sha256 <- getitem info "sha256" ;;
  print ("Downloading Orchard engine " +:+ version +:+ "...") ;;
  resp <- requests_get url [] ;;
  raise_for_status resp ;;
  let content := content resp in
  lift (verify_sha256 content expected_sha256) ;;
  ret (version, content).

Definition install_steps (version : string) (content : list Byte.byte) : M unit :=
  on_fs (Fs.mkdir ORCHARD_HOME) ;;
  untar content ORCHARD_HOME ;;
  on_fs (Fs.chmod binary_path 493) ;;
  on_fs (Fs.write_text (umask env) version_file (PyStr.or_ version "")) ;;
  print ("Orchard engine " +:+ version +:+ " installed to "
         +:+ Pathlib.path_str ORCHARD_HOME).

(** The critical section of [get_engine_path] (lines 40-45) and its managed
    branch (lines 29-50), named for the proofs. *)
Definition critical_section : M (option path) :=
  found <- path_exists binary_path ;;
  if found then ret (Some binary_path)
  else
    print "Orchard engine not found. Downloading..." ;;
    download_engine DEFAULT_CHANNEL None ;;
    ret None.

Definition managed : M path :=
  found <- path_exists binary_path ;;
  if found then ret binary_path
  else
    on_fs (Fs.mkdir ORCHARD_HOME) ;;
    early <- with_FileLock lock_path 300 critical_section ;;
    match early with
    | Some p => ret p
    | None =>
        found <- path_exists binary_path ;;
        if found then ret binary_path
        else raise (RuntimeError binary_missing_msg)
    end.

End Fetch.

(** ** Vocabulary of the specifications *)

(** [m] leaves the file system and the lock as they are. *)
Definition keeps_files {A} (m : M A) : Prop :=
  forall st, fs (snd (m st)) = fs st /\ lock_held (snd (m st)) = lock_held st.

(** Every exception [m] raises satisfies [P]. *)
Definition raises_only {A} (P : exn -> Prop) (m : M A) : Prop :=
  forall st e, fst (m st) = Raise e -> P e.

(** The network requests among the events of a log. *)
Definition is_request (ev : event) : bool :=
  match ev with
  | EvGet _ _ => true
  | _ => false
  end.
Definition requests (evs : list event) : list event := List.filter is_request evs.

(** The statuses on which [raise_for_status] raises. *)
Definition bad_status (resp : Response) : bool :=
  (400 <=? status_code resp) && (status_code resp <? 600).

(** The classes of the exceptions of steps 1-4 of [download_engine]. *)
Definition is_fetch_error (e : exn) : bool :=
  match class_of e with
  | CConnectionError | CHTTPError | CJSONDecodeError
  | CValueError | CKeyError | CRuntimeError => true
  | _ => false
  end.

(** The same exceptions with the texts the module gives them. *)
Definition is_fetch_failure (e : exn) : Prop :=
  match e with
  | ConnectionError _ | HTTPError _ _ | JSONDecodeError | KeyError _ => True
  | ValueError msg => exists version channel, msg = version_not_found_msg version channel
  | RuntimeError msg => exists expected actual, msg = sha256_mismatch_msg expected actual
  | _ => False
  end.

(** The exceptions of steps 5-7: a file or directory in the way, a damaged
    archive, a file that is not there, a version id that cannot be encoded. *)
Definition is_install_error (e : exn) : Prop :=
  match e with
  | FileExistsError _ | NotADirectoryError _ | IsADirectoryError _
  | ReadError | EOFError | ZlibError | BadGzipFile | UnicodeEncodeError => True
  | FileNotFoundError msg => exists p, msg = "[Errno 2] No such file or directory: '"
                                            +:+ Pathlib.path_str p +:+ "'"
  | _ => False
  end.

(** Every exception of the managed branch of [get_engine_path]. *)
Definition is_managed_error (e : exn) : Prop :=
  is_fetch_error e = true \/ is_install_error e \/ class_of e = CTimeout.

(** The failure modes the specification tells apart. *)
Inductive failure_mode : Type :=
| Configuration | LockTimeout | ManifestFetch | VersionNotFound
| Download | Integrity | InstallIncomplete.

(** The path the override variable designates. *)
Definition override_path (dir : string) : path :=
  Pathlib.Path dir // "bin" // "proxy_inference_engine".

(** The state in which [get_engine_path] calls [download_engine] once the
    lock has been granted on file system [f2]. *)
Definition entered (env : Env) (st : State) (f2 : FS) : State :=
  mkState f2 true
    (log st ++ [EvLockAcquire (Pathlib.path_str (lock_path env));
                EvPrint "Orchard engine not found. Downloading..."]).

(** [get_engine_path] started in [st] goes as far as the install: no
    override is in force, the binary is missing, the install root is in
    place, and the lock is granted on a file system [f2] in which the binary
    is still missing. *)
Definition installing (env : Env) (st : State) (f2 : FS) : Prop :=
  PyStr.opt_truthy (environ env !! "PIE_LOCAL_BUILD") = false /\
  Fs.exists_ (fs st) (binary_path env) = false /\
  exists f1,
    Fs.mkdir (ORCHARD_HOME env) (fs st) = (Ok tt, f1) /\
    lock_wait env 300 f1 = Some f2 /\
    Fs.exists_ f2 (binary_path env) = false.

(** The manifest of the default channel is served. *)
Definition manifest_served (env : Env) (manifest : Manifest) : Prop :=
  exists resp,
    http env MANIFEST_URL [("channel", DEFAULT_CHANNEL)] = Responded resp /\
    bad_status resp = false /\
    json resp = Some manifest.

(** The manifest names the artifact of its latest version. *)
Definition artifact_named (manifest : Manifest) (url expected : string) : Prop :=
  exists info,
    versions manifest !! latest manifest = Some info /\
    info !! "url" = Some url /\
    info !! "sha256" = Some expected.

(** What it takes for a call of [get_engine_path] to fail in each mode, in
    terms of what the call finds: the override without a binary; the lock
    not granted in time; the manifest request unanswered, answered with an
    error status or with a body that is not JSON; the latest version missing
    from the manifest; the download unanswered or answered with an error
    status; a body whose digest differs from the expected one; and an install
    that has returned without leaving the binary. *)
Inductive fails_in (env : Env) (st : State) : failure_mode -> Prop :=
| fails_configuration dir :
    environ env !! "PIE_LOCAL_BUILD" = Some dir ->
    dir <> EmptyString ->
    Fs.exists_ (fs st) (override_path dir) = false ->
    fails_in env st Configuration
| fails_lock_timeout f1 :
    PyStr.opt_truthy (environ env !! "PIE_LOCAL_BUILD") = false ->
    Fs.exists_ (fs st) (binary_path env) = false ->
    Fs.mkdir (ORCHARD_HOME env) (fs st) = (Ok tt, f1) ->
    lock_wait env 300 f1 = None ->
    fails_in env st LockTimeout
| fails_manifest_unanswered f2 :
    installing env st f2 ->
    http env MANIFEST_URL [("channel", DEFAULT_CHANNEL)] = NoResponse ->
    fails_in env st ManifestFetch
| fails_manifest_status f2 resp :
    installing env st f2 ->
    http env MANIFEST_URL [("channel", DEFAULT_CHANNEL)] = Responded resp ->
    bad_status resp = true ->
    fails_in env st ManifestFetch
| fails_manifest_body f2 resp :
    installing env st f2 ->
    http env MANIFEST_URL [("channel", DEFAULT_CHANNEL)] = Responded resp ->
    bad_status resp = false ->
    json resp = None ->
    fails_in env st ManifestFetch
| fails_version_not_found f2 manifest :
    installing env st f2 ->
    manifest_served env manifest ->
    versions manifest !! latest manifest = None ->
    fails_in env st VersionNotFound
| fails_download_unanswered f2 manifest url expected :
    installing env st f2 ->
    manifest_served env manifest ->
    artifact_named manifest url expected ->
    http env url [] = NoResponse ->
    fails_in env st Download
| fails_download_status f2 manifest url expected resp :
    installing env st f2 ->
    manifest_served env manifest ->
    artifact_named manifest url expected ->
    http env url [] = Responded resp ->
    bad_status resp = true ->
    fails_in env st Download
| fails_integrity f2 manifest url expected resp :
    installing env st f2 ->
    manifest_served env manifest ->
    artifact_named manifest url expected ->
    http env url [] = Responded resp ->
    bad_status resp = false ->
    expected <> EmptyString ->
    expected <> SHA256.hexdigest (content resp) ->
    fails_in env st Integrity
| fails_install_incomplete f2 st1 :
    installing env st f2 ->
    download_engine env DEFAULT_CHANNEL None (entered env st f2) = (Ok tt, st1) ->
    Fs.exists_ (fs st1) (binary_path env) = false ->
    fails_in env st InstallIncomplete.

(** The classes of the exceptions the failure modes are found to raise. *)
Definition raised_as (m : failure_mode) (c : exn_class) : bool :=
  match m, c with
  | Configuration, CFileNotFoundError
  | LockTimeout, CTimeout
  | ManifestFetch, (CConnectionError | CHTTPError | CJSONDecodeError)
  | VersionNotFound, CValueError
  | Download, (CConnectionError | CHTTPError)
  | Integrity, CRuntimeError => true
  | _, _ => false
  end.

(** The events about the install lock. *)
Definition is_lock_event (ev : event) : bool :=
  match ev with
  | EvLockAcquire _ | EvLockRelease _ => true
  | _ => false
  end.

(** [m] only appends to the log, and every event it appends satisfies [P]. *)
Definition emits_only {A} (P : event -> Prop) (m : M A) : Prop :=
  forall st, exists evs, log (snd (m st)) = log st ++ evs /\ Forall P evs.

(** The events of a call that took [before] to [after]. *)
Definition new_events (before after : State) : list event :=
  drop (length (log before)) (log after).

(** The requests of [download_engine env channel version] all succeed: the
    manifest is served and resolves to version [V] with a descriptor that has
    both keys, the artifact at [url] is served with body [bytes], and the
    digest check passes. *)
Definition fetches (env : Env) (channel : string) (version : option string)
    (V url : string) (bytes : list Byte.byte) : Prop :=
  exists resp manifest info expected resp2,
    http env MANIFEST_URL [("channel", channel)] = Responded resp /\
    bad_status resp = false /\
    json resp = Some manifest /\
    V = default (latest manifest) version /\
    versions manifest !! V = Some info /\
    info !! "url" = Some url /\
    info !! "sha256" = Some expected /\
    http env url [] = Responded resp2 /\
    bad_status resp2 = false /\
    bytes = content resp2 /\
    verify_sha256 bytes expected = Ok tt.

(** The events of [download_engine] up to and including the download. *)
Definition fetch_events (channel V url : string) : list event :=
  [EvGet MANIFEST_URL [("channel", channel)];
   EvPrint ("Downloading Orchard engine " +:+ V +:+ "...");
   EvGet url []].

(** The characters [0-9a-f], and the strings made of them. *)
Definition is_lower_hex (c : ascii) : bool :=
  let n := N_of_ascii c in
  ((48 <=? n) && (n <=? 57) || (97 <=? n) && (n <=? 102))%N.

Fixpoint all_lower_hex (s : string) : bool :=
  match s with
  | EmptyString => true
  | String c s' => is_lower_hex c && all_lower_hex s'
  end.

(** ** A worked installation *)

Module Scenario.

Definition home_dir : path := ["/"; "home"; "dev"].

Definition engine_bytes : list Byte.byte := PyStr.bytes_of "ENGINE".
Definition tarball : list Byte.byte := PyStr.bytes_of "tarball-1.2.0".

Definition members : list tar_member :=
  [ TarDir ["bin"] 493;
    TarFile ["bin"; "proxy_inference_engine"] engine_bytes 420;
    TarFile ["lib"; "libengine.so"] (PyStr.bytes_of "LIB") 420 ].

Definition artifact_url : string := "https://x/a.tgz".

Definition descriptor (sha : string) : Descriptor :=
  {[ "url" := artifact_url; "sha256" := sha ]}.

Definition manifest (sha : string) : Manifest :=
  mkManifest "1.2.0" {[ "1.2.0" := descriptor sha ]}.

Definition descriptor_without_sha : Descriptor := {[ "url" := artifact_url ]}.

Definition manifest_without_sha : Manifest :=
  mkManifest "1.2.0" {[ "1.2.0" := descriptor_without_sha ]}.

Definition serve (m : Manifest) (url : string) (params : list (string * string))
    : http_outcome :=
  if String.eqb url MANIFEST_URL then
    Responded (mkResponse 200 (MANIFEST_URL +:+ "?channel=stable") [] (Some m))
  else if String.eqb url artifact_url then
    Responded (mkResponse 200 artifact_url tarball None)
  else Responded (mkResponse 404 url [] None).

(** The decoder knows the one archive; a stream that is not intact is
    damaged beyond its members. *)
Definition open_tar (ms : list tar_member) (intact : bool) (b : list Byte.byte)
    : tar_outcome :=
  if decide (b = tarball)
  then TarStream ms (if intact then Intact else Damaged TarReadError None)
  else TarUnreadable TarReadError.

Definition env (m : Manifest) (ms : list tar_member) (intact : bool) : Env :=
  mkEnv ∅ home_dir 18 (serve m) (open_tar ms intact) (fun _ f => Some f).

Definition fresh : State :=
  mkState {[ ["/"] := Dir; ["/"; "home"] := Dir; home_dir := Dir ]} false [].

Definition managed_binary : path :=
  home_dir ++ [".orchard"; "bin"; "proxy_inference_engine"].

(** A state in which the managed binary is already installed. *)
Definition installed : State :=
  mkState (<[ managed_binary := File engine_bytes 493 ]> (fs fresh)) false [].

(** A manifest whose version id starts with a space. *)
Definition padded_manifest : Manifest :=
  mkManifest " 1.2.0" {[ " 1.2.0" := descriptor "" ]}.

(** A manifest that has moved on to a later release. *)
Definition later_manifest : Manifest :=
  mkManifest "1.3.0" {[ "1.3.0" := descriptor "" ]}.

(** The manifest service answers 500. *)
Definition manifest_endpoint : string := MANIFEST_URL +:+ "?channel=stable".

Definition outage_env : Env :=
  mkEnv ∅ home_dir 18
    (fun _ _ => Responded (mkResponse 500 manifest_endpoint [] None))
    (open_tar members true) (fun _ f => Some f).

(** The manifest is served, and points at an artifact URL that answers 500. *)
Definition dangling_manifest : Manifest :=
  mkManifest "1.2.0" {[ "1.2.0" := {[ "url" := manifest_endpoint; "sha256" := "" ]} ]}.

Definition broken_artifact_env : Env :=
  mkEnv ∅ home_dir 18
    (fun url params =>
       match params with
       | [] => Responded (mkResponse 500 url [] None)
       | _ => Responded (mkResponse 200 manifest_endpoint [] (Some dangling_manifest))
       end)
    (open_tar members true) (fun _ f => Some f).

(** A state in which the local build tree holds a binary. *)
Definition local_build : State :=
  mkState (<[ ["/"; "opt"; "pie"; "bin"; "proxy_inference_engine"] := File engine_bytes 493 ]>
             (fs installed)) false [].

(** An environment in which the install lock is never granted. *)
Definition contended_env : Env :=
  mkEnv ∅ home_dir 18 (serve (manifest "")) (open_tar members true) (fun _ _ => None).

(** A state whose version file holds only white space: a space, a
    no-break space (U+00A0), an em space (U+2003), CR, LF and a tab. *)
Definition blank_text : list Byte.byte :=
  PyStr.bytes_of (PyStr.text_of [0x20; 0xC2; 0xA0; 0xE2; 0x80; 0x83; 0x0D; 0x0A; 0x09]%N).
Definition blank_version : State :=
  mkState (<[ home_dir ++ [".orchard"; "version.txt"] := File blank_text 420 ]> (fs installed))
    false [].

(** An environment with the override pointing at an empty build tree. *)
Definition override_env : Env :=
  mkEnv {[ "PIE_LOCAL_BUILD" := "/opt/pie" ]} home_dir 18
    (serve (manifest "")) (open_tar members true) (fun _ f => Some f).

(** An environment in which another process finishes the installation
    while this one waits for the lock. *)
Definition racing_env : Env :=
  mkEnv ∅ home_dir 18 (serve (manifest "")) (open_tar members true)
    (fun _ f => Some (<[ managed_binary := File engine_bytes 493 ]> f)).

(** An environment whose archive decoder rejects every body, and one in
    which every body is a gzip stream cut short. *)
Definition garbage_env : Env :=
  mkEnv ∅ home_dir 18 (serve (manifest "")) (fun _ => TarUnreadable TarReadError)
    (fun _ f => Some f).

Definition cut_short_env : Env :=
  mkEnv ∅ home_dir 18 (serve (manifest "")) (fun _ => TarUnreadable TarEOFError)
    (fun _ f => Some f).

(** The install root is a regular file. *)
Definition blocked : State :=
  mkState (<[ home_dir ++ [".orchard"] := File [] 420 ]> (fs fresh)) false [].

(** The install root holds a regular file where the archive has the
    directory [bin]. *)
Definition bin_is_file : State :=
  mkState (<[ home_dir ++ [".orchard"; "bin"] := File [] 420 ]>
             (<[ home_dir ++ [".orchard"] := Dir ]> (fs fresh))) false [].

(** An installed state whose version file holds the one byte 0xA0: a
    no-break space in Latin-1, and no text at all in UTF-8. *)
Definition latin1_version : State :=
  mkState (<[ home_dir ++ [".orchard"; "version.txt"] := File [Byte.xa0] 420 ]>
             (fs installed)) false [].

(** An installed state whose version file holds [text]. *)
Definition recorded (text : string) : State :=
  mkState (<[ home_dir ++ [".orchard"; "version.txt"] := File (PyStr.bytes_of text) 420 ]>
             (fs installed)) false [].

Definition manifest_response (m : Manifest) : Response :=
  mkResponse 200 (MANIFEST_URL +:+ "?channel=stable") [] (Some m).

Definition artifact_response : Response :=
  mkResponse 200 artifact_url tarball None.

End Scenario.

(** ** The digest on the standard test vectors *)

Example sha256_of_nothing :
  SHA256.hexdigest []
  = "e3b0c44298fc1c149afbf4c8996fb92427ae41e4649b934ca495991b7852b855".
Proof. vm_compute. reflexivity. Qed.

Example sha256_of_abc :
  SHA256.hexdigest (PyStr.bytes_of "abc")
  = "ba7816bf8f01cfea414140de5dae2223b00361a396177a9cb410ff61f20015ad".
Proof. vm_compute. reflexivity. Qed.

Example sha256_of_two_blocks :
  SHA256.hexdigest
    (PyStr.bytes_of "abcdbcdecdefdefgefghfghighijhijkijkljklmklmnlmnomnopnopq")
  = "248d6a61d20638b8e5c026930c3e6039a33ce45964ff2167f6ecedd419db06c1".
Proof. vm_compute. reflexivity. Qed.

(** ** Reasoning about computations *)

Lemma run_bind {A B} (m : M A) (k : A -> M B) (st : State) :
  bind m k st =
  match m st with
  | (Ok a, st') => k a st'
  | (Raise e, st') => (Raise e, st')
  end.
Proof. reflexivity. Qed.

Lemma bind_Ok_inv {A B} (m : M A) (k : A -> M B) st b st2 :
  bind m k st = (Ok b, st2) ->
  exists a st1, m st = (Ok a, st1) /\ k a st1 = (Ok b, st2).
Proof.
  rewrite run_bind. destruct (m st) as [[a|e] st1]; intros H.
  - exists a, st1. split; [reflexivity | exact H].
  - discriminate H.
Qed.

Lemma path_exists_run p st :
  path_exists p st = (Ok (Fs.exists_ (fs st) p), st).
Proof. reflexivity. Qed.

Lemma State_eta st : mkState (fs st) (lock_held st) (log st) = st.
Proof. destruct st; reflexivity. Qed.

(** ** Text lemmas *)

Module PyStrFacts.
Import PyStr.

Lemma truthy_false s : truthy s = false <-> s = EmptyString.
Proof. destruct s; simpl; split; congruence. Qed.

Lemma truthy_true s : truthy s = true <-> s <> EmptyString.
Proof. destruct s; simpl; split; congruence. Qed.

Lemma or_empty s : or_ s EmptyString = s.
Proof. destruct s; reflexivity. Qed.

(** *** Bytes *)

Lemma ascii_eqb_code a b : Ascii.eqb a b = (code a =? code b)%N.
Proof.
  unfold code. destruct (Ascii.eqb a b) eqn:E.
  - apply Ascii.eqb_eq in E as ->. by rewrite N.eqb_refl.
  - symmetry. apply N.eqb_neq. intros H. apply Ascii.eqb_neq in E. apply E.
    by rewrite <- (ascii_N_embedding a), <- (ascii_N_embedding b), H.
Qed.

(** Turn the byte tests of the context and the goal into arithmetic. *)
Ltac bytes :=
  unfold isspace, isspace2, isspace3, between, is_byte, CR, LF in *;
  rewrite ?ascii_eqb_code in *;
  change (code (ascii_of_N 13)) with 13%N in *;
  change (code (ascii_of_N 10)) with 10%N in *;
  repeat match goal with
  | H : _ && _ = true |- _ => apply andb_prop in H as [? ?]
  | H : _ || _ = true |- _ => apply orb_prop in H as [?|?]
  | H : _ || _ = false |- _ => apply orb_false_elim in H as [? ?]
  | H : (_ <=? _)%N = true |- _ => apply N.leb_le in H
  | H : (_ <=? _)%N = false |- _ => apply N.leb_gt in H
  | H : (_ =? _)%N = true |- _ => apply N.eqb_eq in H
  | H : (_ =? _)%N = false |- _ => apply N.eqb_neq in H
  end.

Lemma isspace_is_ascii c : isspace c = true -> (code c < 128)%N.
Proof. intros H. bytes; lia. Qed.

Lemma isspace2_high c1 c2 :
  isspace2 c1 c2 = true -> (128 <= code c1)%N /\ (128 <= code c2)%N.
Proof. intros H. bytes; lia. Qed.

Lemma isspace3_high c1 c2 c3 :
  isspace3 c1 c2 c3 = true ->
  (128 <= code c1)%N /\ (128 <= code c2)%N /\ (128 <= code c3)%N.
Proof. intros H. bytes; lia. Qed.

Lemma high_not_CR c : (128 <= code c)%N -> Ascii.eqb c CR = false.
Proof. intros H. rewrite ascii_eqb_code. apply N.eqb_neq. change (code CR) with 13%N. lia. Qed.

Lemma high_not_space c : (128 <= code c)%N -> isspace c = false.
Proof.
  intros H. destruct (isspace c) eqn:E; [|reflexivity].
  apply isspace_is_ascii in E. lia.
Qed.

Lemma ascii_isspace2 c1 c2 : between 0 127 c1 = true -> isspace2 c1 c2 = false.
Proof.
  intros H. destruct (isspace2 c1 c2) eqn:E; [|reflexivity].
  apply isspace2_high in E. bytes; lia.
Qed.

Lemma ascii_isspace3 c1 c2 c3 : between 0 127 c1 = true -> isspace3 c1 c2 c3 = false.
Proof.
  intros H. destruct (isspace3 c1 c2 c3) eqn:E; [|reflexivity].
  apply isspace3_high in E. bytes; lia.
Qed.

(** *** The leading white-space character *)

Lemma String_length_after k s : String.length (after k s) = (String.length s - k)%nat.
Proof.
  revert s. induction k as [|k IH]; intros [|c s]; cbn [after String.length]; try lia.
  apply IH.
Qed.

Lemma space_prefix_length s : (space_prefix s <= String.length s)%nat.
Proof.
  destruct s as [|c1 [|c2 [|c3 r]]]; cbn [space_prefix String.length];
    repeat match goal with |- context [if ?b then _ else _] => destruct b end; lia.
Qed.

Lemma lstrip_unfold s :
  lstrip s = match space_prefix s with
             | O => s
             | k => lstrip (after k s)
             end.
Proof.
  destruct s as [|c1 r1]; [reflexivity|]. cbn [lstrip space_prefix].
  destruct (isspace c1); [reflexivity|].
  destruct r1 as [|c2 r2]; [reflexivity|].
  destruct (isspace2 c1 c2); [reflexivity|].
  destruct r2 as [|c3 r3]; [reflexivity|].
  destruct (isspace3 c1 c2 c3); reflexivity.
Qed.

Lemma all_space_unfold s :
  all_space s = match s with
                | EmptyString => true
                | _ => match space_prefix s with
                       | O => false
                       | k => all_space (after k s)
                       end
                end.
Proof.
  destruct s as [|c1 r1]; [reflexivity|]. cbn [all_space space_prefix].
  destruct (isspace c1); [reflexivity|].
  destruct r1 as [|c2 r2]; [reflexivity|].
  destruct (isspace2 c1 c2); [reflexivity|].
  destruct r2 as [|c3 r3]; [reflexivity|].
  destruct (isspace3 c1 c2 c3); reflexivity.
Qed.

(** Induction on the length of a string. *)
Lemma string_length_ind (P : string -> Prop) :
  (forall s, (forall t, (String.length t < String.length s)%nat -> P t) -> P s) ->
  forall s, P s.
Proof.
  intros Hstep s. remember (String.length s) as n eqn:Hn. revert s Hn.
  induction (lt_wf n) as [n _ IH]. intros s ->. apply Hstep.
  intros t Ht. by apply (IH (String.length t)).
Qed.

Lemma after_shorter k s :
  k <> O -> s <> EmptyString -> (String.length (after k s) < String.length s)%nat.
Proof.
  intros Hk Hs. rewrite String_length_after. destruct s; [done|]. cbn. lia.
Qed.

Lemma space_prefix_nonempty s : space_prefix s <> O -> s <> EmptyString.
Proof. by destruct s. Qed.

(** *** Blank text *)

Lemma lstrip_all_space s : all_space s = true -> lstrip s = EmptyString.
Proof.
  induction s as [s IH] using string_length_ind. intros Hs.
  rewrite all_space_unfold in Hs. rewrite lstrip_unfold.
  destruct s as [|c r]; [reflexivity|].
  destruct (space_prefix (String c r)) as [|k] eqn:Hk; [discriminate|].
  apply IH; [|exact Hs]. by apply after_shorter.
Qed.

Lemma rstrip_all_space s : all_space s = true -> rstrip s = EmptyString.
Proof. destruct s as [|c r]; [reflexivity|]. cbn [rstrip]. by intros ->. Qed.

Lemma strip_all_space s : all_space s = true -> strip s = EmptyString.
Proof. intros H. unfold strip. by rewrite lstrip_all_space. Qed.

Lemma universal_newlines_cons c s :
  Ascii.eqb c CR = false -> universal_newlines (String c s) = String c (universal_newlines s).
Proof. intros H. cbn [universal_newlines]. by rewrite H. Qed.

Lemma all_space_cons c s : isspace c = true -> all_space (String c s) = all_space s.
Proof. intros H. cbn [all_space]. by rewrite H. Qed.

(** Newline translation keeps blank text blank. *)
Lemma universal_newlines_all_space s :
  all_space s = true -> all_space (universal_newlines s) = true.
Proof.
  induction s as [s IH] using string_length_ind. intros Hs.
  destruct s as [|c1 r1]; [reflexivity|].
  cbn [all_space] in Hs. destruct (isspace c1) eqn:H1.
  - (* one byte *)
    cbn [universal_newlines]. destruct (Ascii.eqb c1 CR) eqn:Ecr.
    + destruct r1 as [|c2 r2]; [reflexivity|].
      destruct (Ascii.eqb c2 LF) eqn:Elf.
      * rewrite all_space_cons by reflexivity.
        apply IH; [cbn; lia|].
        apply Ascii.eqb_eq in Elf as ->. by rewrite all_space_cons in Hs.
      * rewrite all_space_cons by reflexivity. apply IH; [cbn; lia | exact Hs].
    + rewrite all_space_cons by exact H1. apply IH; [cbn; lia | exact Hs].
  - destruct r1 as [|c2 r2]; [discriminate|].
    destruct (isspace2 c1 c2) eqn:H2.
    + (* two bytes *)
      destruct (isspace2_high c1 c2 H2) as [Hc1 Hc2].
      rewrite universal_newlines_cons by (by apply high_not_CR).
      rewrite universal_newlines_cons by (by apply high_not_CR).
      cbn [all_space]. rewrite H1, H2. apply IH; [cbn; lia | exact Hs].
    + destruct r2 as [|c3 r3]; [discriminate|].
      destruct (isspace3 c1 c2 c3) eqn:H3; [|discriminate].
      (* three bytes *)
      destruct (isspace3_high c1 c2 c3 H3) as (Hc1 & Hc2 & Hc3).
      rewrite universal_newlines_cons by (by apply high_not_CR).
      rewrite universal_newlines_cons by (by apply high_not_CR).
      rewrite universal_newlines_cons by (by apply high_not_CR).
      cbn [all_space]. rewrite H1, H2, H3. apply IH; [cbn; lia | exact Hs].
Qed.

Lemma universal_newlines_no_CR s :
  has_CR s = false -> universal_newlines s = s.
Proof.
  induction s as [|c s IH]; [reflexivity|].
  simpl. intros [Hc Hs]%orb_false_elim. rewrite Hc. f_equal. auto.
Qed.

Lemma append_cons a s t : String a s +:+ t = String a (s +:+ t).
Proof. reflexivity. Qed.

Lemma append_nil_l s : EmptyString +:+ s = s.
Proof. reflexivity. Qed.

Lemma universal_newlines_append s t :
  has_CR s = false -> universal_newlines (s +:+ t) = s +:+ universal_newlines t.
Proof.
  induction s as [|a s IH]; [reflexivity|].
  cbn [has_CR]. intros [Ha Hs]%orb_false_elim.
  rewrite !append_cons. cbn [universal_newlines]. rewrite Ha, (IH Hs). reflexivity.
Qed.

(** *** Stripping *)

Lemma lstrip_id s : starts_with_space s = false -> lstrip s = s.
Proof.
  unfold starts_with_space. intros H. rewrite lstrip_unfold.
  destruct (space_prefix s); [reflexivity | discriminate].
Qed.

Lemma ends_with_space_after k s :
  ends_with_space (after k s) = true -> ends_with_space s = true.
Proof.
  revert s. induction k as [|k IH]; intros [|c s]; cbn [after]; try done.
  intros H. cbn [ends_with_space]. rewrite (IH s H). apply orb_true_r.
Qed.

(** Blank text that is not empty ends with a white-space character. *)
Lemma all_space_ends s :
  all_space s = true -> s <> EmptyString -> ends_with_space s = true.
Proof.
  induction s as [s IH] using string_length_ind. intros Hs Hne.
  rewrite all_space_unfold in Hs. destruct s as [|c r]; [done|].
  destruct (space_prefix (String c r)) as [|k] eqn:Hk; [discriminate|].
  destruct (after (S k) (String c r)) as [|c' r'] eqn:Hrest.
  - (* the string is that one character *)
    cbn [ends_with_space]. apply orb_true_intro. left.
    unfold is_space_char. rewrite Hk.
    apply andb_true_intro. split; [reflexivity|]. apply Nat.eqb_eq.
    pose proof (String_length_after (S k) (String c r)) as Hlen.
    rewrite Hrest in Hlen. cbn [String.length] in Hlen.
    pose proof (space_prefix_length (String c r)) as Hle. rewrite Hk in Hle.
    cbn [String.length] in *. lia.
  - apply (ends_with_space_after (S k)). rewrite Hrest.
    apply IH; [|exact Hs|done].
    rewrite <- Hrest. by apply after_shorter.
Qed.

Lemma rstrip_id s : ends_with_space s = false -> rstrip s = s.
Proof.
  induction s as [|c s IH]; [reflexivity|].
  cbn [ends_with_space]. intros [Hchar Hends]%orb_false_elim.
  cbn [rstrip]. destruct (all_space (String c s)) eqn:Hall.
  - apply all_space_ends in Hall; [|done].
    cbn [ends_with_space] in Hall. rewrite Hchar, Hends in Hall. discriminate.
  - by rewrite IH.
Qed.

Lemma lstrip_starts s : starts_with_space (lstrip s) = false.
Proof.
  induction s as [s IH] using string_length_ind.
  rewrite lstrip_unfold. destruct (space_prefix s) as [|k] eqn:Hk.
  - unfold starts_with_space. by rewrite Hk.
  - apply IH. apply after_shorter; [done|]. apply space_prefix_nonempty. by rewrite Hk.
Qed.

(** What [rstrip] removes is blank. *)
Lemma rstrip_split s : exists t, s = rstrip s +:+ t /\ all_space t = true.
Proof.
  induction s as [|c s (t & Hs & Ht)].
  - by exists EmptyString.
  - cbn [rstrip]. destruct (all_space (String c s)) eqn:Hall.
    + by exists (String c s).
    + exists t. split; [|exact Ht]. rewrite append_cons. by rewrite <- Hs.
Qed.

(** A white-space character in front does not change whether a text is
    blank. *)
Lemma all_space_after_char w t :
  is_space_char w = true -> all_space (w +:+ t) = all_space t.
Proof.
  unfold is_space_char.
  destruct w as [|c1 [|c2 [|c3 [|c4 r]]]]; cbn [space_prefix String.length];
    rewrite ?append_cons; cbn [all_space];
    repeat match goal with |- context [if ?b then _ else _] => destruct b end;
    cbn; try discriminate; reflexivity.
Qed.

Lemma space_prefix_append p t :
  space_prefix p <> O -> space_prefix (p +:+ t) = space_prefix p.
Proof.
  destruct p as [|c1 [|c2 [|c3 r]]]; rewrite ?append_cons; cbn [space_prefix];
    repeat match goal with |- context [if ?b then _ else _] => destruct b end;
    try done.
  all: destruct t as [|d1 [|d2 t]]; cbn [String.append space_prefix];
    repeat match goal with |- context [if ?b then _ else _] => destruct b end;
    done.
Qed.

Lemma rstrip_ends s : ends_with_space (rstrip s) = false.
Proof.
  induction s as [|c s IH]; [reflexivity|].
  cbn [rstrip]. destruct (all_space (String c s)) eqn:Hall; [reflexivity|].
  cbn [ends_with_space]. rewrite IH, orb_false_r.
  destruct (is_space_char (String c (rstrip s))) eqn:Hchar; [|reflexivity].
  destruct (rstrip_split s) as (t & Hs & Ht).
  rewrite Hs, <- append_cons, (all_space_after_char _ t Hchar), Ht in Hall.
  discriminate.
Qed.

Lemma rstrip_starts s :
  starts_with_space s = false -> starts_with_space (rstrip s) = false.
Proof.
  intros Hs. destruct (starts_with_space (rstrip s)) eqn:Hr; [|reflexivity].
  destruct (rstrip_split s) as (t & Heq & _).
  unfold starts_with_space in *. rewrite Heq, space_prefix_append in Hs.
  - congruence.
  - intros H0. rewrite H0 in Hr. discriminate.
Qed.

(** What [strip] returns has no white space at either end. *)
Lemma strip_ends s :
  starts_with_space (strip s) = false /\ ends_with_space (strip s) = false.
Proof.
  unfold strip. split; [|apply rstrip_ends]. apply rstrip_starts, lstrip_starts.
Qed.

(** A text that neither starts nor ends with white space is its own strip. *)
Lemma strip_clean s :
  starts_with_space s = false -> ends_with_space s = false -> strip s = s.
Proof. intros H1 H2. unfold strip. rewrite (lstrip_id s H1). by apply rstrip_id. Qed.

Lemma strip_idempotent s : strip (strip s) = strip s.
Proof. destruct (strip_ends s). by apply strip_clean. Qed.

(** *** First and last byte *)

Lemma head_space s c : head s = Some c -> isspace c = true -> starts_with_space s = true.
Proof.
  destruct s as [|a r]; [discriminate|]. intros [= ->] Hc.
  unfold starts_with_space. cbn [space_prefix]. by rewrite Hc.
Qed.

Lemma last_space s c : last s = Some c -> isspace c = true -> ends_with_space s = true.
Proof.
  induction s as [|a r IH]; [discriminate|]. intros Hl Hc.
  cbn [ends_with_space]. destruct r as [|b r'].
  - injection Hl as ->. unfold is_space_char. cbn [space_prefix]. by rewrite Hc.
  - rewrite (IH Hl Hc). apply orb_true_r.
Qed.

Lemma strip_head s c : head (strip s) = Some c -> isspace c = false.
Proof.
  intros Hh. destruct (isspace c) eqn:Hc; [|reflexivity].
  pose proof (proj1 (strip_ends s)) as Hs.
  rewrite (head_space _ _ Hh Hc) in Hs. discriminate.
Qed.

Lemma strip_last s c : last (strip s) = Some c -> isspace c = false.
Proof.
  intros Hl. destruct (isspace c) eqn:Hc; [|reflexivity].
  pose proof (proj2 (strip_ends s)) as Hs.
  rewrite (last_space _ _ Hl Hc) in Hs. discriminate.
Qed.

(** *** ASCII text *)

Lemma ascii_space_prefix c r :
  between 0 127 c = true ->
  space_prefix (String c r) = if isspace c then 1%nat else 0%nat.
Proof.
  intros Hc. cbn [space_prefix]. destruct (isspace c); [reflexivity|].
  destruct r as [|c2 r2]; [reflexivity|]. rewrite (ascii_isspace2 c c2 Hc).
  destruct r2 as [|c3 r3]; [reflexivity|]. by rewrite (ascii_isspace3 c c2 c3 Hc).
Qed.

(** In ASCII text only the first and the last byte decide whether it starts
    or ends with white space. *)
Lemma ascii_starts s c :
  is_ascii s = true -> head s = Some c -> isspace c = false ->
  starts_with_space s = false.
Proof.
  destruct s as [|a r]; [discriminate|]. cbn [is_ascii head].
  intros [Ha _]%andb_prop [= <-] Hc.
  unfold starts_with_space. by rewrite (ascii_space_prefix a r Ha), Hc.
Qed.

Lemma ascii_ends s c :
  is_ascii s = true -> last s = Some c -> isspace c = false ->
  ends_with_space s = false.
Proof.
  induction s as [|a r IH]; [discriminate|]. cbn [is_ascii].
  intros [Ha Hr]%andb_prop Hl Hc. cbn [ends_with_space].
  unfold is_space_char. rewrite (ascii_space_prefix a r Ha).
  destruct r as [|b r'].
  - injection Hl as ->. by rewrite Hc.
  - rewrite (IH Hr Hl Hc), orb_false_r. destruct (isspace a); reflexivity.
Qed.

(** *** Text followed by blank text *)

(** Blank text starts with a byte that continues no character. *)
Lemma blank_head c r :
  all_space (String c r) = true -> (code c < 128 \/ 192 <= code c)%N.
Proof.
  cbn [all_space]. destruct (isspace c) eqn:H1.
  { intros _. left. by apply isspace_is_ascii. }
  destruct r as [|c2 r2]; [discriminate|].
  destruct (isspace2 c c2) eqn:H2.
  { intros _. right. bytes; lia. }
  destruct r2 as [|c3 r3]; [discriminate|].
  destruct (isspace3 c c2 c3) eqn:H3; [|discriminate].
  intros _. right. bytes; lia.
Qed.

Lemma isspace2_blank c1 d r :
  all_space (String d r) = true -> isspace2 c1 d = false.
Proof.
  intros Hb%blank_head. destruct (isspace2 c1 d) eqn:H; [|reflexivity].
  bytes; lia.
Qed.

Lemma isspace3_blank2 c1 d c3 r :
  all_space (String d r) = true -> isspace3 c1 d c3 = false.
Proof.
  intros Hb%blank_head. destruct (isspace3 c1 d c3) eqn:H; [|reflexivity].
  bytes; lia.
Qed.

Lemma isspace3_blank3 c1 c2 d r :
  all_space (String d r) = true -> isspace3 c1 c2 d = false.
Proof.
  intros Hb%blank_head. destruct (isspace3 c1 c2 d) eqn:H; [|reflexivity].
  bytes; lia.
Qed.

(** No white-space character straddles the end of a text and the start of
    the blank text that follows it. *)
Lemma all_space_append_inv v blank :
  all_space blank = true -> all_space (v +:+ blank) = true -> all_space v = true.
Proof.
  intros Hb. induction v as [v IH] using string_length_ind.
  destruct v as [|c1 r1]; [reflexivity|].
  rewrite append_cons. cbn [all_space]. destruct (isspace c1).
  { apply IH. cbn. lia. }
  destruct r1 as [|c2 r2].
  - destruct blank as [|d rb]; rewrite append_nil_l; cbv iota; [discriminate|].
    rewrite (isspace2_blank c1 d rb Hb).
    destruct rb as [|d2 rb2]; [discriminate|].
    by rewrite (isspace3_blank2 c1 d d2 _ Hb).
  - rewrite append_cons. destruct (isspace2 c1 c2).
    { apply IH. cbn. lia. }
    destruct r2 as [|c3 r3].
    + destruct blank as [|d rb]; rewrite append_nil_l; cbv iota; [discriminate|].
      by rewrite (isspace3_blank3 c1 c2 d rb Hb).
    + rewrite append_cons. destruct (isspace3 c1 c2 c3); [|discriminate].
      apply IH. cbn. lia.
Qed.

Lemma space_prefix_append_blank v blank :
  v <> EmptyString -> space_prefix v = O -> all_space blank = true ->
  space_prefix (v +:+ blank) = O.
Proof.
  intros Hne Hv Hb. destruct v as [|c1 r1]; [done|].
  rewrite append_cons. cbn [space_prefix] in *. destruct (isspace c1); [discriminate|].
  destruct r1 as [|c2 r2].
  - destruct blank as [|d rb]; rewrite append_nil_l; cbv iota; [reflexivity|].
    rewrite (isspace2_blank c1 d rb Hb).
    destruct rb as [|d2 rb2]; [reflexivity|].
    by rewrite (isspace3_blank2 c1 d d2 _ Hb).
  - rewrite append_cons. destruct (isspace2 c1 c2); [discriminate|].
    destruct r2 as [|c3 r3].
    + destruct blank as [|d rb]; rewrite append_nil_l; cbv iota; [reflexivity|].
      by rewrite (isspace3_blank3 c1 c2 d rb Hb).
    + rewrite append_cons. by destruct (isspace3 c1 c2 c3).
Qed.

Lemma rstrip_append_blank v blank :
  ends_with_space v = false -> all_space blank = true ->
  rstrip (v +:+ blank) = v.
Proof.
  intros Hv Hb. induction v as [|c r IH]; [by apply rstrip_all_space|].
  cbn [ends_with_space] in Hv. apply orb_false_elim in Hv as [Hchar Hends].
  rewrite append_cons. cbn [rstrip]. rewrite <- append_cons.
  destruct (all_space (String c r +:+ blank)) eqn:Hall.
  - apply (all_space_append_inv _ blank Hb) in Hall.
    apply all_space_ends in Hall; [|done].
    cbn [ends_with_space] in Hall. rewrite Hchar, Hends in Hall. discriminate.
  - by rewrite (IH Hends).
Qed.

(** Blank text after a text that neither starts nor ends with white space
    is stripped, and nothing else. *)
Lemma strip_append_blank v blank :
  starts_with_space v = false -> ends_with_space v = false ->
  all_space blank = true ->
  strip (v +:+ blank) = v.
Proof.
  intros Hstart Hend Hb. destruct (decide (v = EmptyString)) as [->|Hne].
  { by apply strip_all_space. }
  assert (Hv : space_prefix v = O).
  { unfold starts_with_space in Hstart. by destruct (space_prefix v). }
  unfold strip. rewrite lstrip_id.
  - by apply rstrip_append_blank.
  - unfold starts_with_space. by rewrite space_prefix_append_blank.
Qed.

(** *** Encoding *)

Lemma encode_Some s b : encode s = Some b -> utf8_valid s = true /\ b = bytes_of s.
Proof. unfold encode. destruct (utf8_valid s); [|discriminate]. by intros [= <-]. Qed.

Lemma decode_bytes_of s : utf8_valid s = true -> decode (bytes_of s) = Some s.
Proof.
  intros H. unfold decode, bytes_of.
  by rewrite String.string_of_list_byte_of_string, H.
Qed.

(** What was written is what is read. *)
Lemma decode_encode s b : encode s = Some b -> decode b = Some s.
Proof. intros [H ->]%encode_Some. by apply decode_bytes_of. Qed.

Lemma decode_Some b s : decode b = Some s -> utf8_valid s = true /\ bytes_of s = b.
Proof.
  unfold decode, bytes_of.
  destruct (utf8_valid (String.string_of_list_byte b)) eqn:H; [|discriminate].
  intros [= <-]. split; [exact H|]. apply String.list_byte_of_string_of_list_byte.
Qed.

End PyStrFacts.

(** ** Path resolution *)

Section PathResolution.

Context (env : Env).

Let override (dir : string) : path :=
  Pathlib.Path dir // "bin" // "proxy_inference_engine".

Lemma get_engine_path_override dir st :
  environ env !! "PIE_LOCAL_BUILD" = Some dir ->
  PyStr.truthy dir = true ->
  get_engine_path env st =
    if Fs.exists_ (fs st) (override dir) then (Ok (override dir), st)
    else (Raise (FileNotFoundError (override_missing_msg (override dir))), st).
Proof.
  intros Hvar Hdir. unfold get_engine_path. rewrite Hvar. cbn [PyStr.opt_truthy].
  rewrite Hdir. cbn [from_option id]. rewrite run_bind, path_exists_run.
  subst override. cbn beta.
  destruct (Fs.exists_ (fs st) _); reflexivity.
Qed.

Lemma get_engine_path_managed st :
  PyStr.opt_truthy (environ env !! "PIE_LOCAL_BUILD") = false ->
  get_engine_path env st = managed env st.
Proof. intros H. unfold get_engine_path. rewrite H. reflexivity. Qed.

Lemma managed_fast_path st :
  Fs.exists_ (fs st) (binary_path env) = true ->
  managed env st = (Ok (binary_path env), st).
Proof.
  intros H. unfold managed. rewrite run_bind, path_exists_run, H. reflexivity.
Qed.

(** The managed branch once the fast path has missed, the install root is
    in place and the lock has been granted on file system [f2]. *)
Lemma managed_locked st f1 f2 :
  Fs.exists_ (fs st) (binary_path env) = false ->
  Fs.mkdir (ORCHARD_HOME env) (fs st) = (Ok tt, f1) ->
  lock_wait env 300 f1 = Some f2 ->
  let lf := Pathlib.path_str (lock_path env) in
  let acquired := mkState f2 true (log st ++ [EvLockAcquire lf]) in
  let body := critical_section env in
  let released := mkState (fs (snd (body acquired))) false
                    (log (snd (body acquired)) ++ [EvLockRelease lf]) in
  managed env st =
    match fst (body acquired) with
    | Ok (Some p) => (Ok p, released)
    | Ok None =>
        if Fs.exists_ (fs released) (binary_path env)
        then (Ok (binary_path env), released)
        else (Raise (RuntimeError binary_missing_msg), released)
    | Raise e => (Raise e, released)
    end.
Proof.
  intros Hmiss Hmk Hlock lf acquired body released.
  unfold managed. rewrite run_bind, path_exists_run, Hmiss.
  rewrite run_bind. unfold on_fs at 1. rewrite Hmk. cbn [fs lock_held log].
  rewrite run_bind. unfold with_FileLock at 1. cbn [fs lock_held log].
  rewrite Hlock. fold lf. fold acquired. fold (critical_section env). fold body.
  subst released. destruct (body acquired) as [[[p|]|e] st']; cbn [fst snd].
  - reflexivity.
  - rewrite run_bind, path_exists_run. cbn [fs].
    destruct (Fs.exists_ (fs st') (binary_path env)); reflexivity.
  - reflexivity.
Qed.

Lemma managed_mkdir_fails st e f1 :
  Fs.exists_ (fs st) (binary_path env) = false ->
  Fs.mkdir (ORCHARD_HOME env) (fs st) = (Raise e, f1) ->
  managed env st = (Raise e, mkState f1 (lock_held st) (log st)).
Proof.
  intros Hmiss Hmk. unfold managed. rewrite run_bind, path_exists_run, Hmiss.
  rewrite run_bind. unfold on_fs at 1. rewrite Hmk. reflexivity.
Qed.

Lemma managed_lock_timeout st f1 :
  Fs.exists_ (fs st) (binary_path env) = false ->
  Fs.mkdir (ORCHARD_HOME env) (fs st) = (Ok tt, f1) ->
  lock_wait env 300 f1 = None ->
  managed env st =
    (Raise (Timeout (Pathlib.path_str (lock_path env))),
     mkState f1 (lock_held st) (log st)).
Proof.
  intros Hmiss Hmk Hlock. unfold managed. rewrite run_bind, path_exists_run, Hmiss.
  rewrite run_bind. unfold on_fs at 1. rewrite Hmk. cbn [fs lock_held log].
  rewrite run_bind. unfold with_FileLock at 1. cbn [fs lock_held log].
  rewrite Hlock. reflexivity.
Qed.

End PathResolution.

(** C6. When [PIE_LOCAL_BUILD] names a non-empty directory under which
    [bin/proxy_inference_engine] does not exist, [get_engine_path] raises the
    configuration error ([FileNotFoundError] naming the missing path) and
    leaves the state untouched: it neither looks at nor installs the managed
    binary, whatever the managed install root holds. *)
Theorem override_without_binary_fails env st dir :
  environ env !! "PIE_LOCAL_BUILD" = Some dir ->
  dir <> EmptyString ->
  Fs.exists_ (fs st) (Pathlib.Path dir // "bin" // "proxy_inference_engine") = false ->
  get_engine_path env st =
    (Raise (FileNotFoundError
              (override_missing_msg
                 (Pathlib.Path dir // "bin" // "proxy_inference_engine"))), st).
Proof.
  intros Hvar Hdir Hmiss.
  rewrite (get_engine_path_override env dir st Hvar).
  - rewrite Hmiss. reflexivity.
  - apply PyStrFacts.truthy_true. exact Hdir.
Qed.

Lemma override_without_binary_fails_witness :
  Fs.exists_ (fs Scenario.installed) (binary_path Scenario.override_env) = true /\
  get_engine_path Scenario.override_env Scenario.installed =
    (Raise (FileNotFoundError
       "PIE_LOCAL_BUILD set but binary not found: /opt/pie/bin/proxy_inference_engine"),
     Scenario.installed).
Proof.
  split; [reflexivity|].
  apply (override_without_binary_fails Scenario.override_env Scenario.installed "/opt/pie").
  - reflexivity.
  - discriminate.
  - reflexivity.
Defined.

(** C7. With no override in force, a binary that is already at the canonical
    path is returned without any installation work.  At entry (fast path) the
    state is returned as it was: no lock, no request, no write.  On the
    re-check under the lock the result is the path, the file system is the one
    the lock was granted on, and the only events are the acquisition and the
    release of the lock: no manifest fetch, no download, no extraction. *)
Theorem installed_binary_is_returned env st :
  PyStr.opt_truthy (environ env !! "PIE_LOCAL_BUILD") = false ->
  (Fs.exists_ (fs st) (binary_path env) = true ->
   get_engine_path env st = (Ok (binary_path env), st)) /\
  (forall f1 f2,
     Fs.exists_ (fs st) (binary_path env) = false ->
     Fs.mkdir (ORCHARD_HOME env) (fs st) = (Ok tt, f1) ->
     lock_wait env 300 f1 = Some f2 ->
     Fs.exists_ f2 (binary_path env) = true ->
     get_engine_path env st =
       (Ok (binary_path env),
        mkState f2 false
          (log st ++ [EvLockAcquire (Pathlib.path_str (lock_path env));
                      EvLockRelease (Pathlib.path_str (lock_path env))]))).
Proof.
  intros Hno. split.
  - intros Hhit. rewrite (get_engine_path_managed env st Hno).
    apply managed_fast_path. exact Hhit.
  - intros f1 f2 Hmiss Hmk Hlock Hhit.
    rewrite (get_engine_path_managed env st Hno).
    rewrite (managed_locked env st f1 f2 Hmiss Hmk Hlock).
    unfold critical_section. rewrite run_bind, path_exists_run. cbn [fs].
    rewrite Hhit. cbn [ret fst snd fs log]. rewrite <- app_assoc. reflexivity.
Qed.

Lemma installed_binary_is_returned_witness :
  get_engine_path (Scenario.env (Scenario.manifest "") Scenario.members true)
    Scenario.installed
    = (Ok Scenario.managed_binary, Scenario.installed) /\
  fst (get_engine_path Scenario.racing_env Scenario.fresh) = Ok Scenario.managed_binary /\
  log (snd (get_engine_path Scenario.racing_env Scenario.fresh)) =
    [EvLockAcquire "/home/dev/.orchard/install.lock";
     EvLockRelease "/home/dev/.orchard/install.lock"].
Proof.
  split.
  - apply (proj1 (installed_binary_is_returned
                    (Scenario.env (Scenario.manifest "") Scenario.members true)
                    Scenario.installed eq_refl)).
    reflexivity.
  - pose proof (proj2 (installed_binary_is_returned Scenario.racing_env Scenario.fresh eq_refl)
                  (<[ Scenario.home_dir ++ [".orchard"] := Dir ]> (fs Scenario.fresh))
                  (<[ Scenario.managed_binary := File Scenario.engine_bytes 493 ]>
                     (<[ Scenario.home_dir ++ [".orchard"] := Dir ]> (fs Scenario.fresh))))
      as H.
    rewrite H; [split; reflexivity | reflexivity | vm_compute; reflexivity
               | reflexivity | reflexivity].
Defined.

(** C8. Whenever a call of [get_engine_path] has entered the critical
    section (the acquisition of the install lock is among the events of the
    call), the lock is not held when the call is over and the last event of the
    call is the release of that lock; this holds for every outcome, a returned
    path as well as any exception raised inside the critical section. *)
Theorem lock_released_on_every_exit env st r st' :
  get_engine_path env st = (r, st') ->
  EvLockAcquire (Pathlib.path_str (lock_path env)) ∈ drop (length (log st)) (log st') ->
  lock_held st' = false /\
  last (log st') = Some (EvLockRelease (Pathlib.path_str (lock_path env))).
Proof.
  intros Hrun Hin.
  assert (Hsame : log st' = log st -> False).
  { intros E. rewrite E, drop_all in Hin. by apply elem_of_nil in Hin. }
  destruct (PyStr.opt_truthy (environ env !! "PIE_LOCAL_BUILD")) eqn:Hov.
  - destruct (environ env !! "PIE_LOCAL_BUILD") as [dir|] eqn:Hvar; [|discriminate].
    rewrite (get_engine_path_override env dir st Hvar Hov) in Hrun.
    destruct (Fs.exists_ _ _); injection Hrun as <- <-; exfalso; by apply Hsame.
  - rewrite (get_engine_path_managed env st Hov) in Hrun.
    destruct (Fs.exists_ (fs st) (binary_path env)) eqn:Hhit.
    { rewrite (managed_fast_path env st Hhit) in Hrun.
      injection Hrun as <- <-. exfalso; by apply Hsame. }
    destruct (Fs.mkdir (ORCHARD_HOME env) (fs st)) as [[[]|e] f1] eqn:Hmk.
    2:{ rewrite (managed_mkdir_fails env st e f1 Hhit Hmk) in Hrun.
        injection Hrun as <- <-. exfalso; by apply Hsame. }
    destruct (lock_wait env 300 f1) as [f2|] eqn:Hlock.
    2:{ rewrite (managed_lock_timeout env st f1 Hhit Hmk Hlock) in Hrun.
        injection Hrun as <- <-. exfalso; by apply Hsame. }
    rewrite (managed_locked env st f1 f2 Hhit Hmk Hlock) in Hrun.
    cbv zeta in Hrun.
    destruct (fst (critical_section env _)) as [[p|]|e].
    + injection Hrun as <- <-. cbn [lock_held log]. split; [reflexivity | apply last_snoc].
    + destruct (Fs.exists_ _ _); injection Hrun as <- <-; cbn [lock_held log];
        (split; [reflexivity | apply last_snoc]).
    + injection Hrun as <- <-. cbn [lock_held log]. split; [reflexivity | apply last_snoc].
Qed.

Lemma lock_released_on_every_exit_witness :
  fst (get_engine_path (Scenario.env (Scenario.manifest "00") Scenario.members true)
         Scenario.fresh)
    = Raise (RuntimeError (sha256_mismatch_msg "00" (SHA256.hexdigest Scenario.tarball))) /\
  lock_held (snd (get_engine_path (Scenario.env (Scenario.manifest "00") Scenario.members true)
                    Scenario.fresh)) = false /\
  last (log (snd (get_engine_path (Scenario.env (Scenario.manifest "00") Scenario.members true)
                    Scenario.fresh)))
    = Some (EvLockRelease "/home/dev/.orchard/install.lock").
Proof.
  split; [vm_compute; reflexivity|].
  apply (lock_released_on_every_exit
           (Scenario.env (Scenario.manifest "00") Scenario.members true)
           Scenario.fresh
           (fst (get_engine_path (Scenario.env (Scenario.manifest "00") Scenario.members true)
                   Scenario.fresh))).
  - apply surjective_pairing.
  - vm_compute. apply list_elem_of_here.
Defined.

(** ** The recorded version *)

Lemma get_installed_version_file env st data mode text :
  fs st !! version_file env = Some (File data mode) ->
  PyStr.decode data = Some text ->
  get_installed_version env st =
    (Ok (Some (PyStr.strip (PyStr.universal_newlines text))), st).
Proof.
  intros Hfile Htext. unfold get_installed_version.
  rewrite run_bind, path_exists_run. unfold Fs.exists_. rewrite Hfile.
  rewrite run_bind. unfold on_fs, Fs.read_text. rewrite Hfile, Htext.
  cbn [ret]. rewrite State_eta. reflexivity.
Qed.

Lemma get_installed_version_undecodable env st data mode :
  fs st !! version_file env = Some (File data mode) ->
  PyStr.decode data = None ->
  get_installed_version env st = (Raise UnicodeDecodeError, st).
Proof.
  intros Hfile Htext. unfold get_installed_version.
  rewrite run_bind, path_exists_run. unfold Fs.exists_. rewrite Hfile.
  rewrite run_bind. unfold on_fs, Fs.read_text. rewrite Hfile, Htext.
  rewrite State_eta. reflexivity.
Qed.

Lemma get_installed_version_absent env st :
  fs st !! version_file env = None ->
  get_installed_version env st = (Ok None, st).
Proof.
  intros Hnone. unfold get_installed_version.
  rewrite run_bind, path_exists_run. unfold Fs.exists_. rewrite Hnone. reflexivity.
Qed.

Lemma check_for_updates_falsy env channel st installed :
  get_installed_version env st = (Ok installed, st) ->
  PyStr.opt_truthy installed = false ->
  check_for_updates env channel st = (Ok None, st).
Proof.
  intros Hget Hfalsy. unfold check_for_updates.
  rewrite run_bind, Hget, Hfalsy. reflexivity.
Qed.

(** C10. When [version.txt] is a file holding nothing but white space (or
    nothing at all) - its bytes are the UTF-8 encoding of a text made of
    white-space characters only, those of Unicode included -
    [get_installed_version] returns the empty string and [check_for_updates]
    returns [None] with the state untouched, so without any request to the
    manifest service; that is also what [check_for_updates] returns when
    there is no version file. *)
Theorem blank_version_file env st data mode text channel :
  fs st !! version_file env = Some (File data mode) ->
  PyStr.decode data = Some text ->
  PyStr.all_space text = true ->
  get_installed_version env st = (Ok (Some EmptyString), st) /\
  check_for_updates env channel st = (Ok None, st) /\
  (forall st0, fs st0 !! version_file env = None ->
     check_for_updates env channel st0 = (Ok None, st0)).
Proof.
  intros Hfile Htext Hblank.
  assert (Hget : get_installed_version env st = (Ok (Some EmptyString), st)).
  { rewrite (get_installed_version_file env st data mode text Hfile Htext).
    rewrite PyStrFacts.strip_all_space; [reflexivity|].
    apply PyStrFacts.universal_newlines_all_space. exact Hblank. }
  split; [exact Hget|]. split.
  - apply (check_for_updates_falsy env channel st (Some EmptyString) Hget). reflexivity.
  - intros st0 Hnone.
    apply (check_for_updates_falsy env channel st0 None); [|reflexivity].
    apply get_installed_version_absent. exact Hnone.
Qed.

Lemma blank_version_file_witness :
  get_installed_version (Scenario.env (Scenario.manifest "") Scenario.members true)
    Scenario.blank_version
    = (Ok (Some EmptyString), Scenario.blank_version) /\
  check_for_updates (Scenario.env (Scenario.manifest "") Scenario.members true) "stable"
    Scenario.blank_version
    = (Ok None, Scenario.blank_version).
Proof.
  pose proof (blank_version_file
                (Scenario.env (Scenario.manifest "") Scenario.members true)
                Scenario.blank_version Scenario.blank_text 420
                (PyStr.text_of [0x20; 0xC2; 0xA0; 0xE2; 0x80; 0x83; 0x0D; 0x0A; 0x09]%N)
                "stable" eq_refl eq_refl eq_refl) as [H1 [H2 _]].
  split; [exact H1 | exact H2].
Defined.

(** ** Version resolution and the digest check *)

(** C4. With no requested version, resolution returns the manifest's latest
    version together with its descriptor [versions[latest]]; a requested
    version that is not a key of [versions] fails with the version-not-found
    error ([ValueError]) whose text names the requested version and the
    channel. *)
Theorem resolve_version_spec (manifest : Manifest) (channel : string) :
  (forall info,
     versions manifest !! latest manifest = Some info ->
     resolve_version manifest channel None = Ok (latest manifest, info)) /\
  (forall requested,
     versions manifest !! requested = None ->
     resolve_version manifest channel (Some requested) =
       Raise (ValueError
                ("Version " +:+ requested +:+ " not found in " +:+ channel +:+ " channel"))).
Proof.
  split.
  - intros info Hinfo. unfold resolve_version. rewrite Hinfo. reflexivity.
  - intros requested Hnone. unfold resolve_version. rewrite Hnone. reflexivity.
Qed.

Lemma resolve_version_spec_witness :
  resolve_version (Scenario.manifest "") "stable" None
    = Ok ("1.2.0", Scenario.descriptor "") /\
  resolve_version (Scenario.manifest "") "stable" (Some "9.9.9")
    = Raise (ValueError "Version 9.9.9 not found in stable channel").
Proof.
  destruct (resolve_version_spec (Scenario.manifest "") "stable") as [Hlatest Hmissing].
  split.
  - apply Hlatest. reflexivity.
  - apply (Hmissing "9.9.9"). reflexivity.
Defined.

(** C2 (as amended). The digest check raises exactly when the expected hash is
    a non-empty string that differs, character for character, from the
    lower-case hex SHA-256 digest of the content; the error is a
    [RuntimeError] whose text gives the expected and the actual digest.  With
    an empty expected hash, or an equal one, the check does nothing. *)
Theorem verify_sha256_spec (content : list Byte.byte) (expected : string) :
  (verify_sha256 content expected =
     Raise (RuntimeError
              ("SHA256 mismatch!" +:+ nl +:+
               "  Expected: " +:+ expected +:+ nl +:+
               "  Got:      " +:+ SHA256.hexdigest content))
   <-> expected <> EmptyString /\ expected <> SHA256.hexdigest content) /\
  (verify_sha256 content expected = Ok tt
   <-> expected = EmptyString \/ expected = SHA256.hexdigest content) /\
  (forall e, verify_sha256 content expected = Raise e -> class_of e = CRuntimeError).
Proof.
  unfold verify_sha256.
  destruct expected as [|c rest] eqn:E.
  - cbn [PyStr.truthy andb]. repeat split; try congruence.
    + intros [H _]. congruence.
    + intros _. by left.
  - cbn [PyStr.truthy andb].
    destruct (String.eqb (SHA256.hexdigest content) (String c rest)) eqn:Heq.
    + apply String.eqb_eq in Heq. cbn [negb]. repeat split; try congruence.
      * intros [_ H]. congruence.
      * intros _. right. congruence.
    + apply String.eqb_neq in Heq. cbn [negb]. repeat split; try congruence.
      * intros [H|H]; congruence.
      * intros e [= <-]. reflexivity.
Qed.

(** C2 fails as stated: the comparison is case-sensitive, so an expected hash
    that equals the digest of the content up to letter case is rejected; and a
    manifest entry without a ["sha256"] key stops the install with [KeyError]
    instead of skipping the check. *)
Lemma verify_sha256_counterexample :
  PyStr.lower "E3B0C44298FC1C149AFBF4C8996FB92427AE41E4649B934CA495991B7852B855"
    = PyStr.lower (SHA256.hexdigest []) /\
  verify_sha256 [] "E3B0C44298FC1C149AFBF4C8996FB92427AE41E4649B934CA495991B7852B855"
    = Raise (RuntimeError
        (sha256_mismatch_msg
           "E3B0C44298FC1C149AFBF4C8996FB92427AE41E4649B934CA495991B7852B855"
           "e3b0c44298fc1c149afbf4c8996fb92427ae41e4649b934ca495991b7852b855")) /\
  Scenario.descriptor_without_sha !! "sha256" = None /\
  fst (download_engine
         (Scenario.env Scenario.manifest_without_sha Scenario.members true)
         "stable" None Scenario.fresh)
    = Raise (KeyError "sha256").
Proof. repeat split; vm_compute; reflexivity. Qed.

(** ** What a computation may touch and raise *)

Section Frames.

Context {A B : Type}.

Lemma keeps_files_ret (a : A) : keeps_files (ret a).
Proof. intros st. split; reflexivity. Qed.

Lemma keeps_files_raise (e : exn) : keeps_files (@raise A e).
Proof. intros st. split; reflexivity. Qed.

Lemma keeps_files_lift (r : result A) : keeps_files (lift r).
Proof. destruct r; [apply keeps_files_ret | apply keeps_files_raise]. Qed.

Lemma keeps_files_bind (m : M A) (k : A -> M B) :
  keeps_files m -> (forall a, keeps_files (k a)) -> keeps_files (bind m k).
Proof.
  intros Hm Hk st. rewrite run_bind. specialize (Hm st).
  destruct (m st) as [[a|e] st1]; cbn [snd] in *.
  - destruct (Hk a st1) as [H1 H2]. destruct Hm as [H3 H4]. split; congruence.
  - exact Hm.
Qed.

Lemma raises_only_ret P (a : A) : raises_only P (ret a).
Proof. intros st e H. discriminate H. Qed.

Lemma raises_only_raise (P : exn -> Prop) (e : exn) : P e -> raises_only P (@raise A e).
Proof. intros He st e' [= <-]. exact He. Qed.

Lemma raises_only_lift (P : exn -> Prop) (r : result A) :
  (forall e, r = Raise e -> P e) -> raises_only P (lift r).
Proof.
  intros Hr. destruct r as [a|e]; [apply raises_only_ret|].
  apply raises_only_raise. by apply Hr.
Qed.

Lemma raises_only_bind P (m : M A) (k : A -> M B) :
  raises_only P m -> (forall a, raises_only P (k a)) -> raises_only P (bind m k).
Proof.
  intros Hm Hk st e. rewrite run_bind. specialize (Hm st).
  destruct (m st) as [[a|e'] st1]; cbn [fst] in *.
  - apply Hk.
  - intros [= <-]. by apply Hm.
Qed.

Lemma raises_only_on_fs (P : exn -> Prop) (op : FS -> result A * FS) :
  (forall f e, fst (op f) = Raise e -> P e) -> raises_only P (on_fs op).
Proof.
  intros Hop st e. unfold on_fs. specialize (Hop (fs st)).
  destruct (op (fs st)) as [r f]. cbn [fst] in *. apply Hop.
Qed.

Lemma raises_only_weaken (P Q : exn -> Prop) (m : M A) :
  (forall e, P e -> Q e) -> raises_only P m -> raises_only Q m.
Proof. intros HPQ Hm st e H. apply HPQ. by apply (Hm st). Qed.

End Frames.

Lemma keeps_files_emit ev : keeps_files (emit ev).
Proof. intros st. split; reflexivity. Qed.

Lemma raises_only_emit P ev : raises_only P (emit ev).
Proof. intros st e H. discriminate H. Qed.

Lemma keeps_files_getitem d key : keeps_files (getitem d key).
Proof. unfold getitem. destruct (d !! key); [apply keeps_files_ret | apply keeps_files_raise]. Qed.

Lemma keeps_files_requests_get env url params : keeps_files (requests_get env url params).
Proof.
  unfold requests_get. apply keeps_files_bind; [apply keeps_files_emit|].
  intros _. destruct (http env url params); [apply keeps_files_raise | apply keeps_files_ret].
Qed.

Lemma keeps_files_raise_for_status resp : keeps_files (raise_for_status resp).
Proof.
  unfold raise_for_status.
  destruct (_ && _); [apply keeps_files_raise | apply keeps_files_ret].
Qed.

Lemma keeps_files_resp_json resp : keeps_files (resp_json resp).
Proof.
  unfold resp_json. destruct (json resp); [apply keeps_files_ret | apply keeps_files_raise].
Qed.

Create HintDb frames.
#[local] Hint Resolve keeps_files_ret keeps_files_raise keeps_files_lift
  keeps_files_emit keeps_files_getitem keeps_files_requests_get
  keeps_files_raise_for_status keeps_files_resp_json : frames.

Ltac frames :=
  repeat first
    [ solve [unfold print; auto with frames]
    | apply keeps_files_bind; [| intros ?] ].

(** Steps 1-4 of [download_engine] write nothing. *)
Lemma fetch_verified_keeps_files env channel version :
  keeps_files (fetch_verified env channel version).
Proof. unfold fetch_verified. frames. Qed.

Lemma raises_only_getitem d key : raises_only is_fetch_failure (getitem d key).
Proof.
  unfold getitem. destruct (d !! key); [apply raises_only_ret|].
  by apply raises_only_raise.
Qed.

Lemma raises_only_requests_get env url params :
  raises_only is_fetch_failure (requests_get env url params).
Proof.
  unfold requests_get. apply raises_only_bind; [apply raises_only_emit|].
  intros _. destruct (http env url params); [|apply raises_only_ret].
  by apply raises_only_raise.
Qed.

Lemma raises_only_raise_for_status resp :
  raises_only is_fetch_failure (raise_for_status resp).
Proof.
  unfold raise_for_status. destruct (_ && _); [|apply raises_only_ret].
  by apply raises_only_raise.
Qed.

Lemma raises_only_resp_json resp : raises_only is_fetch_failure (resp_json resp).
Proof.
  unfold resp_json. destruct (json resp); [apply raises_only_ret|].
  by apply raises_only_raise.
Qed.

Lemma resolve_version_raises manifest channel version e :
  resolve_version manifest channel version = Raise e -> is_fetch_failure e.
Proof.
  unfold resolve_version. destruct (versions manifest !! _); [discriminate|].
  intros [= <-]. cbn. eauto.
Qed.

Lemma verify_sha256_raises content expected e :
  verify_sha256 content expected = Raise e -> is_fetch_failure e.
Proof.
  unfold verify_sha256. destruct (_ && _); [|discriminate].
  intros [= <-]. cbn. eauto.
Qed.

(** Steps 1-4 raise only network, manifest and digest errors. *)
Lemma fetch_verified_failures env channel version :
  raises_only is_fetch_failure (fetch_verified env channel version).
Proof.
  unfold fetch_verified.
  repeat first
    [ apply raises_only_requests_get
    | apply raises_only_raise_for_status
    | apply raises_only_resp_json
    | apply raises_only_getitem
    | apply raises_only_emit
    | apply raises_only_ret
    | apply raises_only_lift; intros ?;
      first [apply resolve_version_raises | apply verify_sha256_raises]
    | apply raises_only_bind; [| intros ?] ].
Qed.

Lemma fetch_failure_class e : is_fetch_failure e -> is_fetch_error e = true.
Proof. destruct e; cbn; intros H; (reflexivity || contradiction). Qed.

Lemma fetch_verified_raises env channel version :
  raises_only (fun e => is_fetch_error e = true) (fetch_verified env channel version).
Proof.
  apply (raises_only_weaken is_fetch_failure); [|apply fetch_verified_failures].
  apply fetch_failure_class.
Qed.

(** [download_engine] is its two halves in sequence. *)
Lemma download_engine_phases env channel version st :
  download_engine env channel version st =
  bind (fetch_verified env channel version)
       (fun vc => install_steps env (fst vc) (snd vc)) st.
Proof.
  unfold download_engine, fetch_verified, install_steps.
  rewrite !run_bind.
  destruct (requests_get env MANIFEST_URL _ st) as [[resp|e] st1]; [|reflexivity].
  rewrite !run_bind.
  destruct (raise_for_status resp st1) as [[[]|e] st2]; [|reflexivity].
  rewrite !run_bind.
  destruct (resp_json resp st2) as [[manifest|e] st3]; [|reflexivity].
  rewrite !run_bind.
  destruct (lift (resolve_version manifest channel version) st3) as [[resolved|e] st4];
    [|reflexivity].
  cbv zeta. rewrite !run_bind.
  destruct (getitem (snd resolved) "url" st4) as [[url|e] st5]; [|reflexivity].
  rewrite !run_bind.
  destruct (getitem (snd resolved) "sha256" st5) as [[expected|e] st6]; [|reflexivity].
  rewrite !run_bind.
  destruct (print _ st6) as [[[]|e] st7]; [|reflexivity].
  rewrite !run_bind.
  destruct (requests_get env url [] st7) as [[resp2|e] st8]; [|reflexivity].
  rewrite !run_bind.
  destruct (raise_for_status resp2 st8) as [[[]|e] st9]; [|reflexivity].
  rewrite !run_bind.
  destruct (lift (verify_sha256 (content resp2) expected) st9) as [[[]|e] st10];
    reflexivity.
Qed.

(** ** File-system facts *)

Module FsFacts.

Lemma no_such_file_is_install_error p : is_install_error (Fs.no_such_file p).
Proof. exists p. reflexivity. Qed.

Lemma missing_is_install_error f p : is_install_error (Fs.missing f p).
Proof.
  unfold Fs.missing. destruct (Fs.file_above f p);
    [exact I | apply no_such_file_is_install_error].
Qed.

Lemma tar_exn_is_install_error err : is_install_error (tar_exn err).
Proof. destruct err; exact I. Qed.

Lemma open_exn_is_install_error err : is_install_error (open_exn err).
Proof. destruct err; exact I. Qed.

Lemma makedirs_raises at_last before made todo f e :
  fst (Fs.makedirs at_last before made todo f) = Raise e ->
  e = at_last \/ exists q, e = before q.
Proof.
  revert made f. induction todo as [|c todo IH]; intros made f; cbn [Fs.makedirs].
  - discriminate.
  - destruct (f !! (made ++ [c])) as [[data mode|]|].
    + destruct todo; intros [= <-]; eauto.
    + apply IH.
    + apply IH.
Qed.

Lemma mkdir_raises p f e :
  fst (Fs.mkdir p f) = Raise e -> is_install_error e.
Proof.
  unfold Fs.mkdir. intros [-> | [q ->]]%makedirs_raises; exact I.
Qed.

Lemma upper_dirs_raises t f e :
  fst (Fs.upper_dirs t f) = Raise e -> is_install_error e.
Proof.
  unfold Fs.upper_dirs. intros [-> | [q ->]]%makedirs_raises; exact I.
Qed.

Lemma extract_member_raises root m f e :
  fst (Fs.extract_member root m f) = Raise e -> is_install_error e.
Proof.
  destruct m as [name data mode|name mode]; cbn [Fs.extract_member];
    pose proof (upper_dirs_raises (root ++ name) f) as Hup;
    destruct (Fs.upper_dirs (root ++ name) f) as [[[]|e'] f1]; cbn [fst] in Hup.
  - destruct (f1 !! (root ++ name)) as [[? ?|]|]; try discriminate.
    intros [= <-]. exact I.
  - intros [= <-]. by apply Hup.
  - destruct (f1 !! (root ++ name)) as [[? ?|]|]; discriminate.
  - intros [= <-]. by apply Hup.
Qed.

Lemma extract_members_raises root ms f e :
  fst (Fs.extract_members root ms f) = Raise e -> is_install_error e.
Proof.
  revert f. induction ms as [|m ms IH]; intros f; cbn [Fs.extract_members].
  - discriminate.
  - destruct (Fs.extract_member root m f) as [[[]|e'] f1] eqn:Hm.
    + apply IH.
    + intros [= <-]. apply (extract_member_raises root m f). rewrite Hm. reflexivity.
Qed.

Lemma write_cut_raises umask t data f e :
  fst (Fs.write_cut umask t data f) = Raise e -> is_install_error e.
Proof.
  unfold Fs.write_cut. pose proof (upper_dirs_raises t f) as Hup.
  destruct (Fs.upper_dirs t f) as [[[]|e'] f1]; cbn [fst] in Hup.
  - destruct (f1 !! t) as [[? ?|]|]; try discriminate. intros [= <-]. exact I.
  - intros [= <-]. by apply Hup.
Qed.

Lemma extractall_raises umask root ms ending f e :
  fst (Fs.extractall umask root ms ending f) = Raise e -> is_install_error e.
Proof.
  unfold Fs.extractall.
  destruct (Fs.extract_members root ms f) as [[[]|e'] f1] eqn:Hms.
  - destruct ending as [|err [[name data]|]]; [discriminate| |].
    + pose proof (write_cut_raises umask (root ++ name) data f1) as Hcut.
      destruct (Fs.write_cut umask (root ++ name) data f1) as [[[]|e'] f2];
        cbn [fst] in *; intros [= <-]; [apply tar_exn_is_install_error | by apply Hcut].
    + intros [= <-]. apply tar_exn_is_install_error.
  - intros [= <-]. apply (extract_members_raises root ms f). rewrite Hms. reflexivity.
Qed.

Lemma chmod_raises p mode f e :
  fst (Fs.chmod p mode f) = Raise e -> is_install_error e.
Proof.
  unfold Fs.chmod. destruct (f !! p) as [[? ?|]|]; try discriminate.
  intros [= <-]. apply missing_is_install_error.
Qed.

Lemma store_raises p mode text f e :
  fst (Fs.store p mode text f) = Raise e -> e = UnicodeEncodeError.
Proof. unfold Fs.store. destruct (PyStr.encode text); [discriminate|]. by intros [= <-]. Qed.

Lemma write_text_raises umask p text f e :
  fst (Fs.write_text umask p text f) = Raise e -> is_install_error e.
Proof.
  unfold Fs.write_text. destruct (f !! p) as [[? ?|]|].
  - by intros ->%store_raises.
  - intros [= <-]. exact I.
  - destruct (f !! Fs.parent p) as [[? ?|]|].
    + intros [= <-]. apply missing_is_install_error.
    + by intros ->%store_raises.
    + intros [= <-]. apply missing_is_install_error.
Qed.

(** A successful [chmod] means the path exists, before and after. *)
Lemma chmod_Ok p mode f f' :
  Fs.chmod p mode f = (Ok tt, f') -> Fs.exists_ f' p = true.
Proof.
  unfold Fs.chmod, Fs.exists_. destruct (f !! p) as [[data m|]|] eqn:Hp.
  - intros [= <-]. by rewrite lookup_insert_eq.
  - intros [= <-]. by rewrite Hp.
  - discriminate.
Qed.

Lemma store_Ok p mode text f f' :
  Fs.store p mode text f = (Ok tt, f') ->
  exists data, PyStr.encode text = Some data /\ f' = <[p := File data mode]> f.
Proof.
  unfold Fs.store. destruct (PyStr.encode text) as [data|]; [|discriminate].
  intros [= <-]. by exists data.
Qed.

(** A successful [write_text] leaves a file with the encoded text and
    touches no other path. *)
Lemma write_text_Ok umask p text f f' :
  Fs.write_text umask p text f = (Ok tt, f') ->
  exists data mode, PyStr.encode text = Some data /\ f' = <[p := File data mode]> f.
Proof.
  unfold Fs.write_text. destruct (f !! p) as [[data0 m|]|].
  - intros (data & Henc & ->)%store_Ok. by exists data, m.
  - discriminate.
  - destruct (f !! Fs.parent p) as [[? ?|]|]; try discriminate.
    intros (data & Henc & ->)%store_Ok. by eexists _, _.
Qed.

Lemma exists_insert (f : FS) p q n :
  Fs.exists_ f p = true -> Fs.exists_ (<[q := n]> f) p = true.
Proof.
  unfold Fs.exists_. intros H. destruct (decide (q = p)) as [->|Hne].
  - by rewrite lookup_insert_eq.
  - by rewrite lookup_insert_ne.
Qed.

End FsFacts.

(** Steps 5-7 of [download_engine] raise only file-system and archive errors. *)
Lemma install_steps_raises env version content :
  raises_only is_install_error (install_steps env version content).
Proof.
  unfold install_steps.
  apply raises_only_bind; [apply raises_only_on_fs, FsFacts.mkdir_raises | intros _].
  apply raises_only_bind.
  { unfold untar. destruct (tarfile_open env content) as [err|ms ending].
    - apply raises_only_raise, FsFacts.open_exn_is_install_error.
    - apply raises_only_on_fs, FsFacts.extractall_raises. }
  intros _.
  apply raises_only_bind; [apply raises_only_on_fs, FsFacts.chmod_raises | intros _].
  apply raises_only_bind; [apply raises_only_on_fs, FsFacts.write_text_raises | intros _].
  apply raises_only_emit.
Qed.

(** When steps 5-7 complete, the binary is at the canonical path and the
    version file holds the encoded version id. *)
Lemma install_steps_Ok env version content st st' :
  install_steps env version content st = (Ok tt, st') ->
  Fs.exists_ (fs st') (binary_path env) = true /\
  exists data mode,
    PyStr.encode version = Some data /\
    fs st' !! version_file env = Some (File data mode).
Proof.
  unfold install_steps. intros H.
  apply bind_Ok_inv in H as ([] & st1 & _ & H).
  apply bind_Ok_inv in H as ([] & st2 & _ & H).
  apply bind_Ok_inv in H as ([] & st3 & Hchmod & H).
  apply bind_Ok_inv in H as ([] & st4 & Hwrite & H).
  unfold print, emit in H. injection H as <-. cbn [fs].
  unfold on_fs in Hchmod, Hwrite.
  destruct (Fs.chmod _ _ (fs st2)) as [r3 f3] eqn:Hc. injection Hchmod as -> <-.
  cbn [fs] in Hwrite.
  destruct (Fs.write_text _ _ _ f3) as [r4 f4] eqn:Hw. injection Hwrite as -> <-.
  cbn [fs].
  apply FsFacts.chmod_Ok in Hc.
  apply FsFacts.write_text_Ok in Hw as (data & mode & Henc & ->).
  rewrite PyStrFacts.or_empty in Henc. split.
  - by apply FsFacts.exists_insert.
  - exists data, mode. split; [exact Henc | by rewrite lookup_insert_eq].
Qed.

(** ** Running the requests *)

Lemma requests_get_run env url params st :
  requests_get env url params st =
    match http env url params with
    | NoResponse =>
        (Raise (ConnectionError url),
         mkState (fs st) (lock_held st) (log st ++ [EvGet url params]))
    | Responded r =>
        (Ok r, mkState (fs st) (lock_held st) (log st ++ [EvGet url params]))
    end.
Proof.
  unfold requests_get. rewrite run_bind. cbn [emit].
  destruct (http env url params); reflexivity.
Qed.

Lemma raise_for_status_run resp st :
  raise_for_status resp st =
    if bad_status resp
    then (Raise (HTTPError (status_code resp) (resp_url resp)), st)
    else (Ok tt, st).
Proof.
  unfold raise_for_status, bad_status. destruct (_ && _); reflexivity.
Qed.

Lemma resp_json_run resp st :
  resp_json resp st =
    match json resp with
    | Some manifest => (Ok manifest, st)
    | None => (Raise JSONDecodeError, st)
    end.
Proof. unfold resp_json. destruct (json resp); reflexivity. Qed.

Lemma lift_run {A} (r : result A) st : lift r st = (r, st).
Proof. destruct r; reflexivity. Qed.

Lemma getitem_run (d : Descriptor) key st :
  getitem d key st =
    match d !! key with
    | Some v => (Ok v, st)
    | None => (Raise (KeyError key), st)
    end.
Proof. unfold getitem. destruct (d !! key); reflexivity. Qed.

(** The manifest request of a run and what it yields. *)
Lemma fetch_verified_manifest env channel version st resp manifest :
  http env MANIFEST_URL [("channel", channel)] = Responded resp ->
  bad_status resp = false ->
  json resp = Some manifest ->
  fetch_verified env channel version st =
    (resolved <- lift (resolve_version manifest channel version) ;;
     url <- getitem (snd resolved) "url" ;;
     expected_sha256 <- getitem (snd resolved) "sha256" ;;
     print ("Downloading Orchard engine " +:+ fst resolved +:+ "...") ;;
     resp <- requests_get env url [] ;;
     raise_for_status resp ;;
     lift (verify_sha256 (content resp) expected_sha256) ;;
     ret (fst resolved, content resp))
      (mkState (fs st) (lock_held st)
         (log st ++ [EvGet MANIFEST_URL [("channel", channel)]])).
Proof.
  intros Hhttp Hstatus Hjson. unfold fetch_verified.
  rewrite run_bind, requests_get_run, Hhttp.
  rewrite run_bind, raise_for_status_run, Hstatus.
  rewrite run_bind, resp_json_run, Hjson. reflexivity.
Qed.

(** What a completed fetch has established. *)
Lemma fetch_verified_Ok env channel version st V bytes st1 resp manifest :
  http env MANIFEST_URL [("channel", channel)] = Responded resp ->
  json resp = Some manifest ->
  fetch_verified env channel version st = (Ok (V, bytes), st1) ->
  V = default (latest manifest) version /\
  exists info, versions manifest !! V = Some info.
Proof.
  intros Hhttp Hjson Hrun.
  destruct (bad_status resp) eqn:Hstatus.
  { unfold fetch_verified in Hrun.
    rewrite run_bind, requests_get_run, Hhttp in Hrun.
    rewrite run_bind, raise_for_status_run, Hstatus in Hrun. discriminate. }
  rewrite (fetch_verified_manifest env channel version st resp manifest Hhttp Hstatus Hjson)
    in Hrun.
  apply bind_Ok_inv in Hrun as ([V' info] & st2 & Hres & Hrun).
  rewrite lift_run in Hres. injection Hres as Hres _.
  cbn [fst snd] in Hrun.
  apply bind_Ok_inv in Hrun as (url & st3 & _ & Hrun).
  apply bind_Ok_inv in Hrun as (expected & st4 & _ & Hrun).
  apply bind_Ok_inv in Hrun as ([] & st5 & _ & Hrun).
  apply bind_Ok_inv in Hrun as (resp2 & st6 & _ & Hrun).
  apply bind_Ok_inv in Hrun as ([] & st7 & _ & Hrun).
  apply bind_Ok_inv in Hrun as ([] & st8 & _ & Hrun).
  injection Hrun as <- _ _.
  unfold resolve_version in Hres.
  destruct version as [v|]; cbn [default from_option id] in *.
  - destruct (versions manifest !! v) as [info'|] eqn:Hv; [|discriminate].
    injection Hres as <- <-. split; [reflexivity | eauto].
  - destruct (versions manifest !! latest manifest) as [info'|] eqn:Hv; [|discriminate].
    injection Hres as <- <-. split; [reflexivity | eauto].
Qed.

(** A completed fetch was served a manifest. *)
Lemma fetch_verified_served env channel version st V bytes st1 :
  fetch_verified env channel version st = (Ok (V, bytes), st1) ->
  exists resp manifest,
    http env MANIFEST_URL [("channel", channel)] = Responded resp /\
    json resp = Some manifest /\
    V = default (latest manifest) version.
Proof.
  intros Hrun.
  destruct (http env MANIFEST_URL [("channel", channel)]) as [|resp] eqn:Hhttp.
  { unfold fetch_verified in Hrun.
    rewrite run_bind, requests_get_run, Hhttp in Hrun. discriminate. }
  destruct (json resp) as [manifest|] eqn:Hjson.
  - exists resp, manifest. split; [reflexivity|]. split; [exact Hjson|].
    by apply (fetch_verified_Ok env channel version st V bytes st1 resp manifest
                Hhttp Hjson) in Hrun as [-> _].
  - unfold fetch_verified in Hrun.
    rewrite run_bind, requests_get_run, Hhttp in Hrun.
    rewrite run_bind, raise_for_status_run in Hrun.
    destruct (bad_status resp); [discriminate|].
    rewrite run_bind, resp_json_run, Hjson in Hrun. discriminate.
Qed.

(** ** Installation *)

(** C1 (as amended). When [download_engine] returns normally, the binary
    exists at the canonical path and the version file holds the installed
    version id - the bytes of the UTF-8 encoding of the version that was
    requested or, when none was, of the latest version of the manifest that
    was served; when it fails while fetching the manifest, resolving the
    version, downloading or checking the digest, the file system is exactly
    as it was.  Nothing is promised after a failure of the later steps: the
    archive is unpacked straight into the install root. *)
Theorem download_engine_install_guarantee env channel version st :
  (fst (download_engine env channel version st) = Ok tt ->
   Fs.exists_ (fs (snd (download_engine env channel version st))) (binary_path env) = true /\
   exists resp manifest data mode,
     http env MANIFEST_URL [("channel", channel)] = Responded resp /\
     json resp = Some manifest /\
     PyStr.encode (default (latest manifest) version) = Some data /\
     fs (snd (download_engine env channel version st)) !! version_file env
       = Some (File data mode)) /\
  (forall e,
     fst (download_engine env channel version st) = Raise e ->
     is_fetch_error e = true ->
     fs (snd (download_engine env channel version st)) = fs st).
Proof.
  rewrite download_engine_phases, run_bind.
  pose proof (fetch_verified_keeps_files env channel version st) as [Hfs _].
  pose proof (fetch_verified_raises env channel version st) as Hraise.
  pose proof (fetch_verified_served env channel version st) as Hserved.
  destruct (fetch_verified env channel version st) as [[[V bytes]|e1] st1];
    cbn [fst snd] in *.
  - split.
    + intros Hok.
      destruct (install_steps env V bytes st1) as [[[]|e2] st2] eqn:Hinst; [|discriminate].
      cbn [fst snd]. apply install_steps_Ok in Hinst as [Hbin (data & mode & Henc & Hver)].
      split; [exact Hbin|].
      destruct (Hserved V bytes st1 eq_refl) as (resp & manifest & Hhttp & Hjson & ->).
      by exists resp, manifest, data, mode.
    + intros e He Hfetch. exfalso.
      apply (install_steps_raises env V bytes st1) in He.
      destruct e; cbn in Hfetch, He; congruence || contradiction.
  - split; [discriminate|]. intros e _ _. exact Hfs.
Qed.

Lemma download_engine_install_guarantee_witness :
  Fs.exists_
    (fs (snd (download_engine (Scenario.env (Scenario.manifest "") Scenario.members true)
                "stable" None Scenario.fresh)))
    Scenario.managed_binary = true /\
  (exists mode,
     fs (snd (download_engine (Scenario.env (Scenario.manifest "") Scenario.members true)
                "stable" None Scenario.fresh))
       !! (Scenario.home_dir ++ [".orchard"; "version.txt"])
     = Some (File (PyStr.bytes_of "1.2.0") mode)) /\
  fs (snd (download_engine (Scenario.env (Scenario.manifest "00") Scenario.members true)
             "stable" None Scenario.fresh))
    = fs Scenario.fresh.
Proof.
  destruct (proj1 (download_engine_install_guarantee
                     (Scenario.env (Scenario.manifest "") Scenario.members true)
                     "stable" None Scenario.fresh))
    as [Hbin (resp & manifest & data & mode & Hhttp & Hjson & Henc & Hfile)].
  { vm_compute. reflexivity. }
  split; [exact Hbin|]. split.
  - exists mode. injection Hhttp as <-. injection Hjson as <-.
    injection Henc as <-. exact Hfile.
  - apply (proj2 (download_engine_install_guarantee
                    (Scenario.env (Scenario.manifest "00") Scenario.members true)
                    "stable" None Scenario.fresh)
             (RuntimeError (sha256_mismatch_msg "00" (SHA256.hexdigest Scenario.tarball)))).
    + vm_compute. reflexivity.
    + reflexivity.
Defined.

(** C1 fails as stated: with an archive whose stream is damaged after the
    binary, the install fails ([ReadError]) and never records a version, yet
    the binary is at the canonical path afterwards, and the next call of
    [get_engine_path] returns it on its fast path. *)
Lemma partial_install_counterexample :
  let env := Scenario.env (Scenario.manifest "") Scenario.members false in
  let failed := download_engine env "stable" None Scenario.fresh in
  Fs.exists_ (fs Scenario.fresh) (binary_path env) = false /\
  fst failed = Raise ReadError /\
  Fs.exists_ (fs (snd failed)) (binary_path env) = true /\
  fs (snd failed) !! version_file env = None /\
  fst (get_engine_path env (snd failed)) = Ok (binary_path env).
Proof. vm_compute. repeat split; reflexivity. Qed.

(** C5 (as amended). After [download_engine] has installed version [V] (the
    requested version, or the manifest's latest when none is requested),
    [get_installed_version] returns [W], which is [V] read back in text mode
    and stripped of surrounding white space; [check_for_updates], run against
    any later manifest for the same install root, returns that manifest's
    latest version when [W] is not empty and differs from it as a string and
    [None] otherwise; and [W] is [V] itself whenever [V] has no carriage
    return and neither starts nor ends with a white-space character - for
    an id of ASCII characters, whenever its first and its last character are
    no white space. *)
Theorem installed_version_after_install env channel version st st1 resp manifest :
  http env MANIFEST_URL [("channel", channel)] = Responded resp ->
  json resp = Some manifest ->
  download_engine env channel version st = (Ok tt, st1) ->
  let V := default (latest manifest) version in
  let W := PyStr.strip (PyStr.universal_newlines V) in
  get_installed_version env st1 = (Ok (Some W), st1) /\
  (forall env2 channel2 resp2 manifest2,
     home env2 = home env ->
     http env2 MANIFEST_URL [("channel", channel2)] = Responded resp2 ->
     bad_status resp2 = false ->
     json resp2 = Some manifest2 ->
     fst (check_for_updates env2 channel2 st1) =
       Ok (if PyStr.truthy W && negb (String.eqb (latest manifest2) W)
           then Some (latest manifest2) else None)) /\
  (PyStr.has_CR V = false ->
   PyStr.starts_with_space V = false ->
   PyStr.ends_with_space V = false ->
   W = V) /\
  (forall c1 c2,
     PyStr.is_ascii V = true ->
     PyStr.has_CR V = false ->
     PyStr.head V = Some c1 -> PyStr.isspace c1 = false ->
     PyStr.last V = Some c2 -> PyStr.isspace c2 = false ->
     W = V).
Proof.
  intros Hhttp Hjson Hrun V W.
  rewrite download_engine_phases in Hrun.
  apply bind_Ok_inv in Hrun as ([V' bytes] & st0 & Hfetch & Hinst).
  cbn [fst snd] in Hinst.
  apply (fetch_verified_Ok env channel version st V' bytes st0 resp manifest Hhttp Hjson)
    in Hfetch as [-> _].
  fold V in Hinst. apply install_steps_Ok in Hinst as [_ (data & mode & Henc & Hver)].
  assert (Hget : forall env2, home env2 = home env ->
            get_installed_version env2 st1 = (Ok (Some W), st1)).
  { intros env2 Hhome.
    assert (Hvf : version_file env2 = version_file env)
      by (unfold version_file, ORCHARD_HOME; by rewrite Hhome).
    apply (get_installed_version_file env2 st1 data mode V); [by rewrite Hvf|].
    by apply PyStrFacts.decode_encode. }
  split; [by apply Hget|]. split.
  - intros env2 channel2 resp2 manifest2 Hhome Hhttp2 Hstatus2 Hjson2.
    unfold check_for_updates. rewrite run_bind, (Hget env2 Hhome).
    cbn [PyStr.opt_truthy from_option id].
    destruct (PyStr.truthy W); cbn [negb andb]; [|reflexivity].
    rewrite run_bind, requests_get_run, Hhttp2.
    rewrite run_bind, raise_for_status_run, Hstatus2.
    rewrite run_bind, resp_json_run, Hjson2.
    destruct (negb (String.eqb (latest manifest2) W)); reflexivity.
  - assert (Hclean : PyStr.has_CR V = false -> PyStr.starts_with_space V = false ->
                     PyStr.ends_with_space V = false -> W = V).
    { intros Hcr Hstart Hend. subst W.
      rewrite (PyStrFacts.universal_newlines_no_CR V Hcr).
      exact (PyStrFacts.strip_clean V Hstart Hend). }
    split; [exact Hclean|].
    intros c1 c2 Hascii Hcr H1 Hc1 H2 Hc2. apply (Hclean Hcr).
    + exact (PyStrFacts.ascii_starts V c1 Hascii H1 Hc1).
    + exact (PyStrFacts.ascii_ends V c2 Hascii H2 Hc2).
Qed.

Lemma installed_version_after_install_witness :
  let env := Scenario.env (Scenario.manifest "") Scenario.members true in
  let st1 := snd (download_engine env "stable" None Scenario.fresh) in
  get_installed_version env st1 = (Ok (Some "1.2.0"), st1) /\
  fst (check_for_updates env "stable" st1) = Ok None /\
  fst (check_for_updates
         (Scenario.env Scenario.later_manifest Scenario.members true) "stable" st1)
    = Ok (Some "1.3.0").
Proof.
  intros env st1.
  pose proof (installed_version_after_install env "stable" None Scenario.fresh st1
                (mkResponse 200 (MANIFEST_URL +:+ "?channel=stable") []
                   (Some (Scenario.manifest "")))
                (Scenario.manifest "") eq_refl eq_refl) as H.
  destruct H as [Hget [Hcheck _]].
  - vm_compute. reflexivity.
  - split; [exact Hget|]. split.
    + exact (Hcheck env "stable" _ (Scenario.manifest "") eq_refl eq_refl eq_refl eq_refl).
    + exact (Hcheck (Scenario.env Scenario.later_manifest Scenario.members true) "stable"
               _ Scenario.later_manifest eq_refl eq_refl eq_refl eq_refl).
Defined.

(** C5 fails as stated: a version id with surrounding white space is recorded
    as it is but read back stripped, so [get_installed_version] does not return
    the installed id and [check_for_updates] reports an update although the
    manifest's latest version is the installed one. *)
Lemma installed_version_counterexample :
  let env := Scenario.env Scenario.padded_manifest Scenario.members true in
  let done := download_engine env "stable" None Scenario.fresh in
  latest Scenario.padded_manifest = " 1.2.0" /\
  fst done = Ok tt /\
  fs (snd done) !! version_file env = Some (File (PyStr.bytes_of " 1.2.0") 420) /\
  fst (get_installed_version env (snd done)) = Ok (Some "1.2.0") /\
  fst (get_installed_version env (snd done)) <> Ok (Some (latest Scenario.padded_manifest)) /\
  fst (check_for_updates env "stable" (snd done)) = Ok (Some " 1.2.0") /\
  fst (check_for_updates env "stable" (snd done)) <> Ok None.
Proof. vm_compute. repeat split; (reflexivity || discriminate). Qed.

(** ** The errors of the managed branch *)

Lemma download_engine_raises env channel version :
  raises_only is_managed_error (download_engine env channel version).
Proof.
  intros st e. rewrite download_engine_phases. revert st e.
  apply raises_only_bind.
  - apply (raises_only_weaken (fun e => is_fetch_error e = true)); [|apply fetch_verified_raises].
    intros e He. by left.
  - intros vc. apply (raises_only_weaken is_install_error); [|apply install_steps_raises].
    intros e He. right. by left.
Qed.

Lemma raises_only_with_FileLock {A} env (P : exn -> Prop) lock_file timeout (body : M A) :
  P (Timeout (Pathlib.path_str lock_file)) ->
  raises_only P body ->
  raises_only P (with_FileLock env lock_file timeout body).
Proof.
  intros Htimeout Hbody st e. unfold with_FileLock.
  destruct (lock_wait env timeout (fs st)) as [f|].
  - set (acquired := mkState f true _). specialize (Hbody acquired).
    destruct (body acquired) as [r st']. cbn [fst] in *. apply Hbody.
  - intros [= <-]. exact Htimeout.
Qed.

Lemma raises_only_path_exists P p : raises_only P (path_exists p).
Proof. intros st e H. discriminate H. Qed.

Lemma managed_raises env : raises_only is_managed_error (managed env).
Proof.
  unfold managed.
  apply raises_only_bind; [apply raises_only_path_exists | intros found].
  destruct found; [apply raises_only_ret|].
  apply raises_only_bind.
  { apply raises_only_on_fs. intros f e He. right. left.
    by apply (FsFacts.mkdir_raises (ORCHARD_HOME env) f). }
  intros _. apply raises_only_bind.
  - apply raises_only_with_FileLock; [by right; right|].
    unfold critical_section.
    apply raises_only_bind; [apply raises_only_path_exists | intros found].
    destruct found; [apply raises_only_ret|].
    apply raises_only_bind; [apply raises_only_emit | intros _].
    apply raises_only_bind; [apply download_engine_raises | intros _].
    apply raises_only_ret.
  - intros [p|]; [apply raises_only_ret|].
    apply raises_only_bind; [apply raises_only_path_exists | intros found].
    destruct found; [apply raises_only_ret|].
    apply raises_only_raise. by left.
Qed.

Lemma override_error_not_managed local_path :
  ~ is_managed_error (FileNotFoundError (override_missing_msg local_path)).
Proof.
  intros [H | [[p H] | H]]; discriminate.
Qed.

(** C9. With [PIE_LOCAL_BUILD] set to the empty string, [get_engine_path]
    does exactly what it does with the variable unset, result and final state
    alike, and it never raises the override configuration error. *)
Theorem empty_override_is_no_override vars h u n t l st :
  get_engine_path (mkEnv (<["PIE_LOCAL_BUILD" := EmptyString]> vars) h u n t l) st =
  get_engine_path (mkEnv (delete "PIE_LOCAL_BUILD" vars) h u n t l) st /\
  forall local_path,
    fst (get_engine_path (mkEnv (<["PIE_LOCAL_BUILD" := EmptyString]> vars) h u n t l) st)
      <> Raise (FileNotFoundError (override_missing_msg local_path)).
Proof.
  assert (Hempty : forall st',
            get_engine_path (mkEnv (<["PIE_LOCAL_BUILD" := EmptyString]> vars) h u n t l) st'
            = managed (mkEnv (<["PIE_LOCAL_BUILD" := EmptyString]> vars) h u n t l) st').
  { intros st'. apply get_engine_path_managed. cbn [environ].
    by rewrite lookup_insert_eq. }
  assert (Hunset : forall st',
            get_engine_path (mkEnv (delete "PIE_LOCAL_BUILD" vars) h u n t l) st'
            = managed (mkEnv (delete "PIE_LOCAL_BUILD" vars) h u n t l) st').
  { intros st'. apply get_engine_path_managed. cbn [environ].
    by rewrite lookup_delete_eq. }
  split.
  - rewrite Hempty, Hunset. reflexivity.
  - intros local_path Hraise. rewrite Hempty in Hraise.
    apply managed_raises in Hraise. by apply override_error_not_managed in Hraise.
Qed.

(** ** The error surface *)

(** Where each failure mode of [download_engine] arises and what it raises. *)
Section ErrorSurface.

Context (env : Env) (channel : string) (version : option string) (st : State).

Lemma manifest_unanswered :
  http env MANIFEST_URL [("channel", channel)] = NoResponse ->
  fst (download_engine env channel version st) = Raise (ConnectionError MANIFEST_URL).
Proof.
  intros Hhttp. rewrite download_engine_phases, run_bind. unfold fetch_verified.
  rewrite run_bind, requests_get_run, Hhttp. reflexivity.
Qed.

Context (resp : Response).
Hypothesis manifest_response :
  http env MANIFEST_URL [("channel", channel)] = Responded resp.

Lemma manifest_fetch_failure :
  bad_status resp = true ->
  fst (download_engine env channel version st)
    = Raise (HTTPError (status_code resp) (resp_url resp)).
Proof.
  intros Hbad. rewrite download_engine_phases, run_bind. unfold fetch_verified.
  rewrite run_bind, requests_get_run, manifest_response.
  rewrite run_bind, raise_for_status_run, Hbad. reflexivity.
Qed.

Lemma manifest_not_json :
  bad_status resp = false ->
  json resp = None ->
  fst (download_engine env channel version st) = Raise JSONDecodeError.
Proof.
  intros Hok Hjson. rewrite download_engine_phases, run_bind. unfold fetch_verified.
  rewrite run_bind, requests_get_run, manifest_response.
  rewrite run_bind, raise_for_status_run, Hok.
  rewrite run_bind, resp_json_run, Hjson. reflexivity.
Qed.

Context (manifest : Manifest).
Hypothesis manifest_ok : bad_status resp = false.
Hypothesis manifest_json : json resp = Some manifest.

Let V : string := default (latest manifest) version.

Lemma resolve_version_default :
  resolve_version manifest channel version =
    match versions manifest !! V with
    | Some info => Ok (V, info)
    | None => Raise (ValueError (version_not_found_msg V channel))
    end.
Proof. subst V. destruct version; reflexivity. Qed.

Lemma version_not_found_failure :
  versions manifest !! V = None ->
  fst (download_engine env channel version st)
    = Raise (ValueError (version_not_found_msg V channel)).
Proof.
  intros Hnone. rewrite download_engine_phases, run_bind.
  rewrite (fetch_verified_manifest env channel version st resp manifest
             manifest_response manifest_ok manifest_json).
  rewrite run_bind, lift_run, resolve_version_default, Hnone. reflexivity.
Qed.

Context (info : Descriptor) (url expected : string).
Hypothesis version_found : versions manifest !! V = Some info.
Hypothesis info_url : info !! "url" = Some url.
Hypothesis info_sha256 : info !! "sha256" = Some expected.

Lemma download_unanswered :
  http env url [] = NoResponse ->
  fst (download_engine env channel version st) = Raise (ConnectionError url).
Proof.
  intros Hhttp. rewrite download_engine_phases, run_bind.
  rewrite (fetch_verified_manifest env channel version st resp manifest
             manifest_response manifest_ok manifest_json).
  rewrite run_bind, lift_run, resolve_version_default, version_found. cbn [fst snd].
  rewrite run_bind, getitem_run, info_url.
  rewrite run_bind, getitem_run, info_sha256.
  rewrite run_bind. cbn [print emit].
  rewrite run_bind, requests_get_run, Hhttp. reflexivity.
Qed.

Context (resp2 : Response).
Hypothesis artifact_response : http env url [] = Responded resp2.

Lemma download_failure :
  bad_status resp2 = true ->
  fst (download_engine env channel version st)
    = Raise (HTTPError (status_code resp2) (resp_url resp2)).
Proof.
  intros Hbad. rewrite download_engine_phases, run_bind.
  rewrite (fetch_verified_manifest env channel version st resp manifest
             manifest_response manifest_ok manifest_json).
  rewrite run_bind, lift_run, resolve_version_default, version_found. cbn [fst snd].
  rewrite run_bind, getitem_run, info_url.
  rewrite run_bind, getitem_run, info_sha256.
  rewrite run_bind. cbn [print emit].
  rewrite run_bind, requests_get_run, artifact_response.
  rewrite run_bind, raise_for_status_run, Hbad. reflexivity.
Qed.

Lemma integrity_failure :
  bad_status resp2 = false ->
  expected <> EmptyString ->
  expected <> SHA256.hexdigest (content resp2) ->
  fst (download_engine env channel version st)
    = Raise (RuntimeError
               (sha256_mismatch_msg expected (SHA256.hexdigest (content resp2)))).
Proof.
  intros Hok Hne Hdiff. rewrite download_engine_phases, run_bind.
  rewrite (fetch_verified_manifest env channel version st resp manifest
             manifest_response manifest_ok manifest_json).
  rewrite run_bind, lift_run, resolve_version_default, version_found. cbn [fst snd].
  rewrite run_bind, getitem_run, info_url.
  rewrite run_bind, getitem_run, info_sha256.
  rewrite run_bind. cbn [print emit].
  rewrite run_bind, requests_get_run, artifact_response.
  rewrite run_bind, raise_for_status_run, Hok.
  rewrite run_bind, lift_run.
  unfold verify_sha256.
  apply PyStrFacts.truthy_true in Hne. rewrite Hne.
  assert (Hneq : String.eqb (SHA256.hexdigest (content resp2)) expected = false)
    by (apply String.eqb_neq; congruence).
  rewrite Hneq. reflexivity.
Qed.

End ErrorSurface.

(** The final existence check of [get_engine_path] (line 47) cannot fail in a
    run of the model: when [download_engine] returns, [chmod] has found the
    binary, and nothing removes it afterwards.  An archive without the binary
    fails earlier, at [chmod], with [FileNotFoundError]. *)
Lemma download_engine_Ok env channel version st st' :
  download_engine env channel version st = (Ok tt, st') ->
  Fs.exists_ (fs st') (binary_path env) = true.
Proof.
  intros Hdl. rewrite download_engine_phases in Hdl.
  apply bind_Ok_inv in Hdl as ([V bytes] & st0 & _ & Hinst).
  by apply install_steps_Ok in Hinst as [Hbin _].
Qed.

Lemma critical_section_None env st st' :
  critical_section env st = (Ok None, st') ->
  Fs.exists_ (fs st') (binary_path env) = true.
Proof.
  unfold critical_section. rewrite run_bind, path_exists_run.
  destruct (Fs.exists_ (fs st) (binary_path env)); [discriminate|].
  intros H.
  apply bind_Ok_inv in H as ([] & st1 & _ & H).
  apply bind_Ok_inv in H as ([] & st2 & Hdl & H).
  injection H as <-. by apply download_engine_Ok in Hdl.
Qed.

Lemma critical_section_raises env :
  raises_only (fun e => is_fetch_failure e \/ is_install_error e) (critical_section env).
Proof.
  unfold critical_section.
  apply raises_only_bind; [apply raises_only_path_exists | intros found].
  destruct found; [apply raises_only_ret|].
  apply raises_only_bind; [apply raises_only_emit | intros _].
  apply raises_only_bind; [|intros _; apply raises_only_ret].
  intros st e. rewrite download_engine_phases. revert st e.
  apply raises_only_bind.
  - apply (raises_only_weaken is_fetch_failure); [|apply fetch_verified_failures].
    intros e He. by left.
  - intros vc. apply (raises_only_weaken is_install_error); [|apply install_steps_raises].
    intros e He. by right.
Qed.

Lemma install_error_class e : is_install_error e -> class_of e <> CRuntimeError.
Proof. destruct e; cbn; intros H; (contradiction || discriminate). Qed.

(** Every [RuntimeError] of the managed branch is the digest mismatch. *)
Lemma managed_runtime_error env st e :
  fst (managed env st) = Raise e ->
  class_of e = CRuntimeError ->
  exists expected actual, e = RuntimeError (sha256_mismatch_msg expected actual).
Proof.
  destruct (Fs.exists_ (fs st) (binary_path env)) eqn:Hhit.
  { by rewrite (managed_fast_path env st Hhit). }
  destruct (Fs.mkdir (ORCHARD_HOME env) (fs st)) as [[[]|e0] f1] eqn:Hmk.
  2:{ rewrite (managed_mkdir_fails env st e0 f1 Hhit Hmk). cbn [fst]. intros [= ->] Hclass.
      assert (H : fst (Fs.mkdir (ORCHARD_HOME env) (fs st)) = Raise e) by (by rewrite Hmk).
      by apply FsFacts.mkdir_raises, install_error_class in H. }
  destruct (lock_wait env 300 f1) as [f2|] eqn:Hlock.
  2:{ rewrite (managed_lock_timeout env st f1 Hhit Hmk Hlock). by intros [= <-]. }
  rewrite (managed_locked env st f1 f2 Hhit Hmk Hlock). cbv zeta.
  set (acquired := mkState f2 true _).
  pose proof (critical_section_None env acquired) as Hnone.
  pose proof (critical_section_raises env acquired) as Hraise.
  destruct (critical_section env acquired) as [[[p|]|e0] st']; cbn [fst snd fs] in *.
  - discriminate.
  - by rewrite (Hnone st' eq_refl).
  - intros [= ->] Hclass. destruct (Hraise e eq_refl) as [Hfetch | Hinst].
    + destruct e; try discriminate Hclass.
      destruct Hfetch as (expected & actual & ->). by exists expected, actual.
    + by apply install_error_class in Hinst.
Qed.

Lemma install_incomplete_unreachable env st :
  fst (managed env st) <> Raise (RuntimeError binary_missing_msg).
Proof.
  intros H. apply managed_runtime_error in H as (expected & actual & H); [|reflexivity].
  discriminate H.
Qed.

Example archive_without_binary :
  fst (get_engine_path
         (Scenario.env (Scenario.manifest "") [TarDir ["bin"] 493] true) Scenario.fresh)
  = Raise (FileNotFoundError
      "[Errno 2] No such file or directory: '/home/dev/.orchard/bin/proxy_inference_engine'").
Proof. vm_compute. reflexivity. Qed.

Lemma critical_section_miss env st :
  Fs.exists_ (fs st) (binary_path env) = false ->
  critical_section env st =
    match download_engine env DEFAULT_CHANNEL None
            (mkState (fs st) (lock_held st)
               (log st ++ [EvPrint "Orchard engine not found. Downloading..."])) with
    | (Ok _, st1) => (Ok None, st1)
    | (Raise e, st1) => (Raise e, st1)
    end.
Proof.
  intros Hmiss. unfold critical_section.
  rewrite run_bind, path_exists_run, Hmiss.
  rewrite run_bind. cbn [print emit]. rewrite run_bind.
  destruct (download_engine env DEFAULT_CHANNEL None _) as [[[]|e] st1]; reflexivity.
Qed.

(** A call that goes as far as the install runs [download_engine] in the
    state [entered] and releases the lock whatever comes of it. *)
Lemma get_engine_path_installing env st f2 :
  installing env st f2 ->
  get_engine_path env st =
    match download_engine env DEFAULT_CHANNEL None (entered env st f2) with
    | (Ok _, st1) =>
        if Fs.exists_ (fs st1) (binary_path env)
        then (Ok (binary_path env),
              mkState (fs st1) false
                (log st1 ++ [EvLockRelease (Pathlib.path_str (lock_path env))]))
        else (Raise (RuntimeError binary_missing_msg),
              mkState (fs st1) false
                (log st1 ++ [EvLockRelease (Pathlib.path_str (lock_path env))]))
    | (Raise e, st1) =>
        (Raise e,
         mkState (fs st1) false
           (log st1 ++ [EvLockRelease (Pathlib.path_str (lock_path env))]))
    end.
Proof.
  intros (Hno & Hmiss & f1 & Hmk & Hlock & Hmiss2). unfold entered.
  rewrite (get_engine_path_managed env st Hno).
  rewrite (managed_locked env st f1 f2 Hmiss Hmk Hlock). cbv zeta.
  rewrite (critical_section_miss env
             (mkState f2 true (log st ++ [EvLockAcquire (Pathlib.path_str (lock_path env))]))
             Hmiss2).
  cbn [fs lock_held log]. rewrite <- app_assoc. cbn [app].
  destruct (download_engine env DEFAULT_CHANNEL None _) as [[[]|e] st1]; reflexivity.
Qed.

Lemma installing_raises env st f2 e :
  installing env st f2 ->
  fst (download_engine env DEFAULT_CHANNEL None (entered env st f2)) = Raise e ->
  fst (get_engine_path env st) = Raise e.
Proof.
  intros Hin Hdl. rewrite (get_engine_path_installing env st f2 Hin).
  destruct (download_engine env DEFAULT_CHANNEL None (entered env st f2)) as [[[]|e'] st1];
    cbn [fst] in *; [discriminate | congruence].
Qed.

(** Each failure mode raises, and raises an exception of its classes. *)
Lemma fails_in_raises env st m :
  fails_in env st m ->
  exists e, fst (get_engine_path env st) = Raise e /\ raised_as m (class_of e) = true.
Proof.
  intros H.
  destruct H as [dir Hvar Hdir Hmiss
                | f1 Hno Hmiss Hmk Hlock
                | f2 Hin Hhttp
                | f2 resp Hin Hhttp Hbad
                | f2 resp Hin Hhttp Hok Hjson
                | f2 manifest Hin (resp & Hhttp & Hok & Hjson) Hnone
                | f2 manifest url expected Hin (resp & Hhttp & Hok & Hjson)
                    (info & Hinfo & Hurl & Hsha) Hhttp2
                | f2 manifest url expected resp2 Hin (resp & Hhttp & Hok & Hjson)
                    (info & Hinfo & Hurl & Hsha) Hhttp2 Hbad
                | f2 manifest url expected resp2 Hin (resp & Hhttp & Hok & Hjson)
                    (info & Hinfo & Hurl & Hsha) Hhttp2 Hok2 Hne Hdiff
                | f2 st1 Hin Hrun Hmiss].
  - eexists. split.
    + rewrite (get_engine_path_override env dir st Hvar)
        by (by apply PyStrFacts.truthy_true).
      unfold override_path in Hmiss. by rewrite Hmiss.
    + reflexivity.
  - eexists. split.
    + by rewrite (get_engine_path_managed env st Hno),
        (managed_lock_timeout env st f1 Hmiss Hmk Hlock).
    + reflexivity.
  - eexists. split.
    + apply (installing_raises env st f2 _ Hin). by apply manifest_unanswered.
    + reflexivity.
  - eexists. split.
    + apply (installing_raises env st f2 _ Hin). by apply manifest_fetch_failure.
    + reflexivity.
  - eexists. split.
    + apply (installing_raises env st f2 _ Hin).
      by apply (manifest_not_json env DEFAULT_CHANNEL None (entered env st f2) resp).
    + reflexivity.
  - eexists. split.
    + apply (installing_raises env st f2 _ Hin).
      by apply (version_not_found_failure env DEFAULT_CHANNEL None (entered env st f2) resp Hhttp manifest Hok Hjson).
    + reflexivity.
  - eexists. split.
    + apply (installing_raises env st f2 _ Hin).
      by apply (download_unanswered env DEFAULT_CHANNEL None (entered env st f2) resp Hhttp manifest Hok Hjson info url expected).
    + reflexivity.
  - eexists. split.
    + apply (installing_raises env st f2 _ Hin).
      by apply (download_failure env DEFAULT_CHANNEL None (entered env st f2) resp Hhttp manifest Hok Hjson info url expected
                  Hinfo Hurl Hsha resp2).
    + reflexivity.
  - eexists. split.
    + apply (installing_raises env st f2 _ Hin).
      by apply (integrity_failure env DEFAULT_CHANNEL None (entered env st f2) resp Hhttp manifest Hok Hjson info url expected
                  Hinfo Hurl Hsha resp2).
    + reflexivity.
  - apply download_engine_Ok in Hrun. congruence.
Qed.

(** C3 (as amended). A call of [get_engine_path] that fails in one of the
    modes configuration, lock-timeout, manifest-fetch, version-not-found,
    download or integrity raises an exception of the classes of that mode:
    [FileNotFoundError]; [filelock.Timeout]; [ConnectionError], [HTTPError]
    or [JSONDecodeError]; [ValueError]; [ConnectionError] or [HTTPError];
    [RuntimeError].  Two calls that fail in different modes raise exceptions
    of different classes, unless the modes are manifest-fetch and download.
    Every [RuntimeError] a call raises is the digest mismatch with both
    digests in its text; no call fails in the install-incomplete mode: the
    check of line 47 never fails after an install that has returned, as long
    as nothing but the call touches the install root while it holds the
    lock. *)
Theorem failure_modes_by_class :
  (forall env1 st1 m1 env2 st2 m2,
     fails_in env1 st1 m1 -> fails_in env2 st2 m2 -> m1 <> m2 ->
     exists e1 e2,
       fst (get_engine_path env1 st1) = Raise e1 /\
       fst (get_engine_path env2 st2) = Raise e2 /\
       raised_as m1 (class_of e1) = true /\
       raised_as m2 (class_of e2) = true /\
       (class_of e1 = class_of e2 ->
        (m1 = ManifestFetch /\ m2 = Download) \/ (m1 = Download /\ m2 = ManifestFetch))) /\
  (forall env st e,
     fst (get_engine_path env st) = Raise e ->
     class_of e = CRuntimeError ->
     exists expected actual, e = RuntimeError (sha256_mismatch_msg expected actual)) /\
  (forall env st, ~ fails_in env st InstallIncomplete).
Proof.
  split; [|split].
  - intros env1 st1 m1 env2 st2 m2 H1 H2 Hne.
    destruct (fails_in_raises env1 st1 m1 H1) as (e1 & Hrun1 & Hc1).
    destruct (fails_in_raises env2 st2 m2 H2) as (e2 & Hrun2 & Hc2).
    exists e1, e2. repeat (split; [assumption|]).
    intros Hclass. rewrite Hclass in Hc1.
    destruct m1, m2; try (exfalso; by apply Hne); auto;
      destruct (class_of e2); discriminate.
  - intros env st e Hrun Hclass.
    destruct (PyStr.opt_truthy (environ env !! "PIE_LOCAL_BUILD")) eqn:Hov.
    + destruct (environ env !! "PIE_LOCAL_BUILD") as [dir|] eqn:Hvar; [|discriminate].
      rewrite (get_engine_path_override env dir st Hvar Hov) in Hrun.
      destruct (Fs.exists_ _ _); [discriminate|].
      injection Hrun as <-. discriminate Hclass.
    + rewrite (get_engine_path_managed env st Hov) in Hrun.
      by apply (managed_runtime_error env st).
  - intros env st H. inversion H as [| | | | | | | | |f2 st1 Hin Hrun Hmiss].
    apply download_engine_Ok in Hrun. congruence.
Qed.

Lemma failure_modes_by_class_witness :
  exists e1 e2,
    fst (get_engine_path Scenario.override_env Scenario.installed) = Raise e1 /\
    fst (get_engine_path (Scenario.env (Scenario.manifest "00") Scenario.members true)
           Scenario.fresh) = Raise e2 /\
    class_of e1 = CFileNotFoundError /\
    class_of e2 = CRuntimeError.
Proof.
  destruct (proj1 failure_modes_by_class
              Scenario.override_env Scenario.installed Configuration
              (Scenario.env (Scenario.manifest "00") Scenario.members true)
              Scenario.fresh Integrity)
    as (e1 & e2 & H1 & H2 & Hc1 & Hc2 & _).
  - apply (fails_configuration _ _ "/opt/pie"); [reflexivity | discriminate | reflexivity].
  - apply (fails_integrity _ _
             (<[ Scenario.home_dir ++ [".orchard"] := Dir ]> (fs Scenario.fresh))
             (Scenario.manifest "00") Scenario.artifact_url "00"
             Scenario.artifact_response).
    + split; [reflexivity|]. split; [reflexivity|].
      exists (<[ Scenario.home_dir ++ [".orchard"] := Dir ]> (fs Scenario.fresh)).
      split; [reflexivity|]. split; reflexivity.
    + exists (Scenario.manifest_response (Scenario.manifest "00")).
      split; [reflexivity|]. split; reflexivity.
    + exists (Scenario.descriptor "00"). split; [reflexivity|]. split; reflexivity.
    + reflexivity.
    + reflexivity.
    + discriminate.
    + vm_compute. discriminate.
  - discriminate.
  - exists e1, e2. split; [exact H1|]. split; [exact H2|].
    split; [by destruct (class_of e1) | by destruct (class_of e2)].
Defined.

(** C3 fails as stated: a failed manifest fetch and a failed download surface
    as the same exception, class and contents alike.  In the first run the
    manifest service answers 500 (one request is made); in the second the
    manifest is served and the artifact URL answers 500 (two requests are
    made); both runs end in the same [HTTPError]. *)
Lemma failure_modes_counterexample :
  let failed_fetch := get_engine_path Scenario.outage_env Scenario.fresh in
  let failed_download := get_engine_path Scenario.broken_artifact_env Scenario.fresh in
  fst failed_fetch = Raise (HTTPError 500 Scenario.manifest_endpoint) /\
  fst failed_download = Raise (HTTPError 500 Scenario.manifest_endpoint) /\
  length (requests (log (snd failed_fetch))) = 1%nat /\
  length (requests (log (snd failed_download))) = 2%nat /\
  fails_in Scenario.outage_env Scenario.fresh ManifestFetch /\
  fails_in Scenario.broken_artifact_env Scenario.fresh Download /\
  ManifestFetch <> Download.
Proof.
  assert (Hin : forall env,
            environ env = ∅ -> home env = Scenario.home_dir ->
            lock_wait env = (fun _ f => Some f) ->
            installing env Scenario.fresh
              (<[ Scenario.home_dir ++ [".orchard"] := Dir ]> (fs Scenario.fresh))).
  { intros env Hvars Hhome Hlock. unfold installing, binary_path, ORCHARD_HOME.
    rewrite Hvars, Hhome, Hlock. split; [reflexivity|]. split; [reflexivity|].
    eexists. split; [reflexivity|]. split; reflexivity. }
  cbv zeta. repeat split; try (vm_compute; reflexivity).
  - apply (fails_manifest_status _ _ _ (mkResponse 500 Scenario.manifest_endpoint [] None)
             (Hin Scenario.outage_env eq_refl eq_refl eq_refl)); reflexivity.
  - apply (fails_download_status _ _ _ Scenario.dangling_manifest Scenario.manifest_endpoint
             EmptyString (mkResponse 500 Scenario.manifest_endpoint [] None)
             (Hin Scenario.broken_artifact_env eq_refl eq_refl eq_refl)).
    + exists (mkResponse 200 Scenario.manifest_endpoint [] (Some Scenario.dangling_manifest)).
      split; [reflexivity|]. split; reflexivity.
    + eexists. split; [reflexivity|]. split; reflexivity.
    + reflexivity.
    + reflexivity.
  - discriminate.
Qed.

(** * Further properties of the module *)

(** A run is its result and the state it leaves. *)
Lemma run_result {A} (x : result A * State) (r : result A) :
  fst x = r -> x = (r, snd x).
Proof. intros <-. apply surjective_pairing. Qed.

(** The requests of the worked installation succeed, whatever the archive
    decoder and the lock do. *)
Lemma scenario_fetches opener waiter :
  fetches (mkEnv ∅ Scenario.home_dir 18 (Scenario.serve (Scenario.manifest "")) opener waiter)
    "stable" None "1.2.0" Scenario.artifact_url Scenario.tarball.
Proof.
  exists (Scenario.manifest_response (Scenario.manifest "")), (Scenario.manifest ""),
    (Scenario.descriptor ""), EmptyString, Scenario.artifact_response.
  repeat split; reflexivity.
Qed.

(** ** What [get_engine_path] returns *)

(** X1. A binary under the override directory wins: with [PIE_LOCAL_BUILD]
    set to a non-empty directory that holds [bin/proxy_inference_engine],
    [get_engine_path] returns that path and leaves the state as it was - no
    lock, no request, no look at the managed install root. *)
Theorem override_binary_wins env st dir :
  environ env !! "PIE_LOCAL_BUILD" = Some dir ->
  dir <> EmptyString ->
  Fs.exists_ (fs st) (override_path dir) = true ->
  get_engine_path env st = (Ok (override_path dir), st).
Proof.
  intros Hvar Hdir Hhit.
  rewrite (get_engine_path_override env dir st Hvar).
  - unfold override_path in Hhit. rewrite Hhit. reflexivity.
  - apply PyStrFacts.truthy_true. exact Hdir.
Qed.

Lemma override_binary_wins_witness :
  get_engine_path Scenario.override_env Scenario.local_build
  = (Ok ["/"; "opt"; "pie"; "bin"; "proxy_inference_engine"], Scenario.local_build).
Proof.
  apply (override_binary_wins Scenario.override_env Scenario.local_build "/opt/pie").
  - reflexivity.
  - discriminate.
  - reflexivity.
Defined.

Lemma makedirs_Ok at_last before made todo f f' :
  Fs.makedirs at_last before made todo f = (Ok tt, f') ->
  todo <> [] ->
  f' !! (made ++ todo) = Some Dir.
Proof.
  revert made f. induction todo as [|c todo IH]; intros made f Hrun Hne; [congruence|].
  cbn [Fs.makedirs] in Hrun.
  assert (Hlast : forall g, g !! (made ++ [c]) = Some Dir ->
            Fs.makedirs at_last before (made ++ [c]) todo g = (Ok tt, f') ->
            f' !! (made ++ c :: todo) = Some Dir).
  { intros g Hg Hgo. destruct todo as [|c' todo'].
    - cbn in Hgo. injection Hgo as <-. exact Hg.
    - replace (made ++ c :: c' :: todo') with ((made ++ [c]) ++ c' :: todo')
        by (by rewrite <- app_assoc).
      by apply (IH (made ++ [c]) g). }
  destruct (f !! (made ++ [c])) as [[data mode|]|] eqn:Hq.
  - destruct todo; discriminate.
  - by apply (Hlast f).
  - apply (Hlast (<[made ++ [c] := Dir]> f)); [by rewrite lookup_insert_eq | exact Hrun].
Qed.

(** X2. When the install lock is not obtained within the 300 seconds,
    [get_engine_path] raises [filelock.Timeout] naming the lock file; by then
    the install root has been created as a directory, but nothing else has
    happened: no request, no event, and the lock is as it was - not held
    after the call when it was not held before. *)
Theorem lock_timeout_fails_before_any_request env st f1 :
  PyStr.opt_truthy (environ env !! "PIE_LOCAL_BUILD") = false ->
  Fs.exists_ (fs st) (binary_path env) = false ->
  Fs.mkdir (ORCHARD_HOME env) (fs st) = (Ok tt, f1) ->
  lock_wait env 300 f1 = None ->
  get_engine_path env st =
    (Raise (Timeout (Pathlib.path_str (lock_path env))),
     mkState f1 (lock_held st) (log st)) /\
  f1 !! ORCHARD_HOME env = Some Dir /\
  (lock_held st = false -> lock_held (snd (get_engine_path env st)) = false) /\
  new_events st (snd (get_engine_path env st)) = [].
Proof.
  intros Hno Hmiss Hmk Hlock.
  assert (Hrun : get_engine_path env st =
            (Raise (Timeout (Pathlib.path_str (lock_path env))),
             mkState f1 (lock_held st) (log st))).
  { rewrite (get_engine_path_managed env st Hno).
    exact (managed_lock_timeout env st f1 Hmiss Hmk Hlock). }
  split; [exact Hrun|]. split; [|split].
  - unfold Fs.mkdir in Hmk.
    apply (makedirs_Ok _ _ [] (ORCHARD_HOME env) (fs st) f1 Hmk).
    unfold ORCHARD_HOME, Pathlib.joinpath. by destruct (home env).
  - intros Hfree. by rewrite Hrun.
  - rewrite Hrun. unfold new_events. cbn [snd log]. apply drop_all.
Qed.

Lemma lock_timeout_fails_before_any_request_witness :
  get_engine_path Scenario.contended_env Scenario.fresh =
    (Raise (Timeout "/home/dev/.orchard/install.lock"),
     mkState (<[ Scenario.home_dir ++ [".orchard"] := Dir ]> (fs Scenario.fresh)) false []) /\
  lock_held (snd (get_engine_path Scenario.contended_env Scenario.fresh)) = false.
Proof.
  destruct (lock_timeout_fails_before_any_request Scenario.contended_env Scenario.fresh
              (<[ Scenario.home_dir ++ [".orchard"] := Dir ]> (fs Scenario.fresh))
              eq_refl eq_refl eq_refl eq_refl) as (Hrun & _ & Hlock & _).
  split; [exact Hrun | by apply Hlock].
Defined.

Lemma critical_section_Some env st p st1 :
  critical_section env st = (Ok (Some p), st1) ->
  p = binary_path env /\ st1 = st /\ Fs.exists_ (fs st) (binary_path env) = true.
Proof.
  unfold critical_section. rewrite run_bind, path_exists_run.
  destruct (Fs.exists_ (fs st) (binary_path env)).
  - intros [= <- <-]. done.
  - intros H.
    apply bind_Ok_inv in H as ([] & st2 & _ & H).
    apply bind_Ok_inv in H as ([] & st3 & _ & H).
    discriminate H.
Qed.

(** Every path [get_engine_path] returns exists when it returns, and is the
    one its branch designates. *)
Lemma get_engine_path_Ok env st p st' :
  get_engine_path env st = (Ok p, st') ->
  Fs.exists_ (fs st') p = true /\
  ((PyStr.opt_truthy (environ env !! "PIE_LOCAL_BUILD") = false /\ p = binary_path env) \/
   (exists dir, environ env !! "PIE_LOCAL_BUILD" = Some dir /\
                PyStr.truthy dir = true /\ p = override_path dir)).
Proof.
  intros Hrun.
  destruct (PyStr.opt_truthy (environ env !! "PIE_LOCAL_BUILD")) eqn:Hov.
  - destruct (environ env !! "PIE_LOCAL_BUILD") as [dir|] eqn:Hvar; [|discriminate].
    rewrite (get_engine_path_override env dir st Hvar Hov) in Hrun.
    destruct (Fs.exists_ (fs st) _) eqn:Hhit; [|discriminate].
    injection Hrun as <- <-. split; [exact Hhit|]. right. by exists dir.
  - rewrite (get_engine_path_managed env st Hov) in Hrun.
    assert (Hgoal : Fs.exists_ (fs st') p = true /\ p = binary_path env);
      [|destruct Hgoal; split; [done | by left]].
    destruct (Fs.exists_ (fs st) (binary_path env)) eqn:Hhit.
    { rewrite (managed_fast_path env st Hhit) in Hrun. by injection Hrun as <- <-. }
    destruct (Fs.mkdir (ORCHARD_HOME env) (fs st)) as [[[]|e] f1] eqn:Hmk.
    2:{ by rewrite (managed_mkdir_fails env st e f1 Hhit Hmk) in Hrun. }
    destruct (lock_wait env 300 f1) as [f2|] eqn:Hlock.
    2:{ by rewrite (managed_lock_timeout env st f1 Hhit Hmk Hlock) in Hrun. }
    rewrite (managed_locked env st f1 f2 Hhit Hmk Hlock) in Hrun. cbv zeta in Hrun.
    set (acquired := mkState f2 true _) in Hrun.
    destruct (critical_section env acquired) as [[[p'|]|e] st1] eqn:Hcs;
      cbn [fst snd fs] in Hrun.
    + injection Hrun as <- <-. cbn [fs].
      apply critical_section_Some in Hcs as (-> & -> & Hex). done.
    + destruct (Fs.exists_ (fs st1) (binary_path env)) eqn:Hex; [|discriminate].
      injection Hrun as <- <-. done.
    + discriminate.
Qed.

(** X3. A path returned by [get_engine_path] exists in the file system the
    call leaves behind, and it is the override path when a non-empty override
    is set and the managed binary path otherwise. *)
Theorem returned_path_exists env st p st' :
  get_engine_path env st = (Ok p, st') ->
  Fs.exists_ (fs st') p = true /\
  p = match environ env !! "PIE_LOCAL_BUILD" with
      | Some dir => if PyStr.truthy dir then override_path dir else binary_path env
      | None => binary_path env
      end.
Proof.
  intros Hrun. apply get_engine_path_Ok in Hrun as [Hex Hp]. split; [exact Hex|].
  destruct Hp as [[Hov ->] | (dir & Hvar & Hdir & ->)].
  - destruct (environ env !! "PIE_LOCAL_BUILD") as [dir|]; [|reflexivity].
    cbn in Hov. by rewrite Hov.
  - by rewrite Hvar, Hdir.
Qed.

Lemma returned_path_exists_witness :
  Fs.exists_
    (fs (snd (get_engine_path (Scenario.env (Scenario.manifest "") Scenario.members true)
                Scenario.fresh)))
    Scenario.managed_binary = true.
Proof.
  apply (returned_path_exists
           (Scenario.env (Scenario.manifest "") Scenario.members true)
           Scenario.fresh Scenario.managed_binary
           (snd (get_engine_path (Scenario.env (Scenario.manifest "") Scenario.members true)
                   Scenario.fresh))).
  apply (run_result
           (get_engine_path (Scenario.env (Scenario.manifest "") Scenario.members true)
              Scenario.fresh) (Ok Scenario.managed_binary)).
  vm_compute. reflexivity.
Defined.

(** X4. Once [get_engine_path] has returned a path, calling it again in the
    state it left returns the same path and changes nothing: no lock is taken
    and no request is made the second time. *)
Theorem second_call_changes_nothing env st p st' :
  get_engine_path env st = (Ok p, st') ->
  get_engine_path env st' = (Ok p, st').
Proof.
  intros Hrun.
  apply get_engine_path_Ok in Hrun as [Hex [[Hov ->] | (dir & Hvar & Hdir & ->)]].
  - rewrite (get_engine_path_managed env st' Hov). by apply managed_fast_path.
  - rewrite (get_engine_path_override env dir st' Hvar Hdir).
    unfold override_path in Hex. by rewrite Hex.
Qed.

Lemma second_call_changes_nothing_witness :
  let env := Scenario.env (Scenario.manifest "") Scenario.members true in
  let st' := snd (get_engine_path env Scenario.fresh) in
  get_engine_path env st' = (Ok Scenario.managed_binary, st').
Proof.
  intros env st'.
  apply (second_call_changes_nothing env Scenario.fresh Scenario.managed_binary st').
  apply (run_result (get_engine_path env Scenario.fresh) (Ok Scenario.managed_binary)).
  vm_compute. reflexivity.
Defined.

(** ** What a computation logs *)

Section Emits.

Context {A B : Type} (P : event -> Prop).

Lemma emits_only_ret (a : A) : emits_only P (ret a).
Proof. intros st. exists []. by rewrite app_nil_r. Qed.

Lemma emits_only_raise (e : exn) : emits_only P (@raise A e).
Proof. intros st. exists []. by rewrite app_nil_r. Qed.

Lemma emits_only_lift (r : result A) : emits_only P (lift r).
Proof. destruct r; [apply emits_only_ret | apply emits_only_raise]. Qed.

Lemma emits_only_bind (m : M A) (k : A -> M B) :
  emits_only P m -> (forall a, emits_only P (k a)) -> emits_only P (bind m k).
Proof.
  intros Hm Hk st. rewrite run_bind. destruct (Hm st) as (evs1 & Hlog1 & HP1).
  destruct (m st) as [[a|e] st1]; cbn [snd] in *.
  - destruct (Hk a st1) as (evs2 & Hlog2 & HP2).
    exists (evs1 ++ evs2). rewrite Hlog2, Hlog1, <- app_assoc.
    split; [reflexivity | by apply Forall_app].
  - by exists evs1.
Qed.

Lemma emits_only_on_fs (op : FS -> result A * FS) : emits_only P (on_fs op).
Proof.
  intros st. unfold on_fs. destruct (op (fs st)) as [r f]. cbn [snd log].
  exists []. by rewrite app_nil_r.
Qed.

End Emits.

Lemma emits_only_emit (P : event -> Prop) ev : P ev -> emits_only P (emit ev).
Proof. intros Hev st. exists [ev]. cbn [emit snd log]. by split; [|constructor]. Qed.

Lemma emits_only_path_exists P p : emits_only P (path_exists p).
Proof. intros st. exists []. cbn. by rewrite app_nil_r. Qed.

Lemma emits_only_getitem P d key : emits_only P (getitem d key).
Proof. unfold getitem. destruct (d !! key); [apply emits_only_ret | apply emits_only_raise]. Qed.

Lemma emits_only_requests_get (P : event -> Prop) env url params :
  P (EvGet url params) -> emits_only P (requests_get env url params).
Proof.
  intros Hev. unfold requests_get. apply emits_only_bind; [by apply emits_only_emit|].
  intros _. destruct (http env url params); [apply emits_only_raise | apply emits_only_ret].
Qed.

Lemma emits_only_raise_for_status P resp : emits_only P (raise_for_status resp).
Proof.
  unfold raise_for_status. destruct (_ && _); [apply emits_only_raise | apply emits_only_ret].
Qed.

Lemma emits_only_resp_json P resp : emits_only P (resp_json resp).
Proof.
  unfold resp_json. destruct (json resp); [apply emits_only_ret | apply emits_only_raise].
Qed.

Lemma emits_only_untar P env content root : emits_only P (untar env content root).
Proof.
  unfold untar. destruct (tarfile_open env content);
    [apply emits_only_raise | apply emits_only_on_fs].
Qed.

(** [download_engine] logs nothing but its requests and its messages. *)
Lemma download_engine_emits (P : event -> Prop) env channel version :
  (forall url params, P (EvGet url params)) ->
  (forall line, P (EvPrint line)) ->
  emits_only P (download_engine env channel version).
Proof.
  intros Hget Hprint. unfold download_engine.
  repeat first
    [ apply emits_only_requests_get; apply Hget
    | apply emits_only_raise_for_status
    | apply emits_only_resp_json
    | apply emits_only_getitem
    | apply emits_only_lift
    | apply emits_only_on_fs
    | apply emits_only_untar
    | apply emits_only_emit; apply Hprint
    | apply emits_only_ret
    | apply emits_only_bind; [| intros ?] ].
Qed.

Lemma keeps_lock_on_fs {A} (op : FS -> result A * FS) st :
  lock_held (snd (on_fs op st)) = lock_held st.
Proof. unfold on_fs. by destruct (op (fs st)). Qed.

(** Steps 5-7 of [download_engine] leave the lock alone. *)
Lemma install_steps_keeps_lock env version content st :
  lock_held (snd (install_steps env version content st)) = lock_held st.
Proof.
  unfold install_steps. rewrite run_bind.
  pose proof (keeps_lock_on_fs (Fs.mkdir (ORCHARD_HOME env)) st) as H1.
  destruct (on_fs (Fs.mkdir (ORCHARD_HOME env)) st) as [[[]|e] st1]; cbn [snd] in *; [|done].
  rewrite run_bind.
  assert (H2 : lock_held (snd (untar env content (ORCHARD_HOME env) st1)) = lock_held st1).
  { unfold untar. destruct (tarfile_open env content); [done | apply keeps_lock_on_fs]. }
  destruct (untar env content (ORCHARD_HOME env) st1) as [[[]|e] st2]; cbn [snd] in *;
    [|congruence].
  rewrite run_bind.
  pose proof (keeps_lock_on_fs (Fs.chmod (binary_path env) 493) st2) as H3.
  destruct (on_fs (Fs.chmod (binary_path env) 493) st2) as [[[]|e] st3]; cbn [snd] in *;
    [|congruence].
  rewrite run_bind.
  pose proof (keeps_lock_on_fs
                (Fs.write_text (umask env) (version_file env) (PyStr.or_ version "")) st3) as H4.
  destruct (on_fs _ st3) as [[[]|e] st4]; cbn [snd] in *; [|congruence].
  cbn. congruence.
Qed.

(** X5. [download_engine] itself never touches the install lock: whatever
    its outcome, the lock is held afterwards exactly if it was held before,
    and the events it logs are requests and messages only.  A caller that
    wants the install serialised has to take the lock itself, as
    [get_engine_path] does. *)
Theorem download_engine_ignores_lock env channel version st :
  lock_held (snd (download_engine env channel version st)) = lock_held st /\
  exists evs,
    log (snd (download_engine env channel version st)) = log st ++ evs /\
    Forall (fun ev => is_lock_event ev = false) evs.
Proof.
  split.
  - rewrite download_engine_phases, run_bind.
    pose proof (fetch_verified_keeps_files env channel version st) as [_ Hlock].
    destruct (fetch_verified env channel version st) as [[[V bytes]|e] st1];
      cbn [fst snd] in *; [|exact Hlock].
    rewrite install_steps_keeps_lock. exact Hlock.
  - apply (download_engine_emits (fun ev => is_lock_event ev = false)); reflexivity.
Qed.

Lemma critical_section_emits env :
  emits_only (fun ev => is_lock_event ev = false) (critical_section env).
Proof.
  unfold critical_section.
  apply emits_only_bind; [apply emits_only_path_exists | intros found].
  destruct found; [apply emits_only_ret|].
  apply emits_only_bind; [by apply emits_only_emit | intros _].
  apply emits_only_bind; [|intros _; apply emits_only_ret].
  apply download_engine_emits; reflexivity.
Qed.

(** X6. Everything [get_engine_path] logs it logs while it holds the lock:
    a call either logs nothing, or its events start with the acquisition of
    the install lock, end with its release, and hold no other lock event in
    between.  In particular no request is made and no message printed outside
    the critical section. *)
Theorem events_happen_under_lock env st :
  log (snd (get_engine_path env st)) = log st \/
  exists mid,
    log (snd (get_engine_path env st)) =
      log st ++ EvLockAcquire (Pathlib.path_str (lock_path env)) :: mid
             ++ [EvLockRelease (Pathlib.path_str (lock_path env))] /\
    Forall (fun ev => is_lock_event ev = false) mid.
Proof.
  destruct (PyStr.opt_truthy (environ env !! "PIE_LOCAL_BUILD")) eqn:Hov.
  - left. destruct (environ env !! "PIE_LOCAL_BUILD") as [dir|] eqn:Hvar; [|discriminate].
    rewrite (get_engine_path_override env dir st Hvar Hov).
    by destruct (Fs.exists_ _ _).
  - rewrite (get_engine_path_managed env st Hov).
    destruct (Fs.exists_ (fs st) (binary_path env)) eqn:Hhit.
    { left. by rewrite (managed_fast_path env st Hhit). }
    destruct (Fs.mkdir (ORCHARD_HOME env) (fs st)) as [[[]|e] f1] eqn:Hmk.
    2:{ left. by rewrite (managed_mkdir_fails env st e f1 Hhit Hmk). }
    destruct (lock_wait env 300 f1) as [f2|] eqn:Hlock.
    2:{ left. by rewrite (managed_lock_timeout env st f1 Hhit Hmk Hlock). }
    right. rewrite (managed_locked env st f1 f2 Hhit Hmk Hlock). cbv zeta.
    set (acquired := mkState f2 true _).
    destruct (critical_section_emits env acquired) as (mid & Hlog & Hmid).
    exists mid. split; [|exact Hmid].
    assert (Hout : forall r : result path, log (snd (r, mkState (fs (snd (critical_section env acquired)))
                          false (log (snd (critical_section env acquired))
                                 ++ [EvLockRelease (Pathlib.path_str (lock_path env))])))
              = log st ++ EvLockAcquire (Pathlib.path_str (lock_path env)) :: mid
                ++ [EvLockRelease (Pathlib.path_str (lock_path env))]).
    { intros r. cbn [snd log]. rewrite Hlog. subst acquired. cbn [log].
      by rewrite <- !app_assoc. }
    destruct (fst (critical_section env acquired)) as [[p|]|e].
    + apply (Hout (Ok p)).
    + match goal with |- context [if ?b then _ else _] => destruct b end;
        [apply (Hout (Ok (binary_path env))) | apply (Hout (Raise _))].
    + apply (Hout (Raise e)).
Qed.

(** ** Failures of [download_engine] before the download *)

(** X7. A manifest request that gets no response, an error status or a body
    that is not JSON aborts [download_engine] with [ConnectionError],
    [HTTPError] or [JSONDecodeError] respectively; in each case that one
    request is all that has happened: nothing is printed, downloaded or
    written. *)
Theorem manifest_request_failures env channel version st :
  let asked := mkState (fs st) (lock_held st)
                 (log st ++ [EvGet MANIFEST_URL [("channel", channel)]]) in
  (http env MANIFEST_URL [("channel", channel)] = NoResponse ->
   download_engine env channel version st = (Raise (ConnectionError MANIFEST_URL), asked)) /\
  (forall resp,
     http env MANIFEST_URL [("channel", channel)] = Responded resp ->
     bad_status resp = true ->
     download_engine env channel version st
       = (Raise (HTTPError (status_code resp) (resp_url resp)), asked)) /\
  (forall resp,
     http env MANIFEST_URL [("channel", channel)] = Responded resp ->
     bad_status resp = false ->
     json resp = None ->
     download_engine env channel version st = (Raise JSONDecodeError, asked)).
Proof.
  cbv zeta. repeat split.
  - intros Hhttp. rewrite download_engine_phases, run_bind. unfold fetch_verified.
    rewrite run_bind, requests_get_run, Hhttp. reflexivity.
  - intros resp Hhttp Hbad. rewrite download_engine_phases, run_bind. unfold fetch_verified.
    rewrite run_bind, requests_get_run, Hhttp.
    rewrite run_bind, raise_for_status_run, Hbad. reflexivity.
  - intros resp Hhttp Hok Hjson. rewrite download_engine_phases, run_bind.
    unfold fetch_verified.
    rewrite run_bind, requests_get_run, Hhttp.
    rewrite run_bind, raise_for_status_run, Hok.
    rewrite run_bind, resp_json_run, Hjson. reflexivity.
Qed.

Lemma manifest_request_failures_witness :
  download_engine Scenario.outage_env "stable" None Scenario.fresh
  = (Raise (HTTPError 500 Scenario.manifest_endpoint),
     mkState (fs Scenario.fresh) false [EvGet MANIFEST_URL [("channel", "stable")]]).
Proof.
  apply (proj1 (proj2 (manifest_request_failures Scenario.outage_env "stable" None
                         Scenario.fresh))
           (mkResponse 500 Scenario.manifest_endpoint [] None)).
  - reflexivity.
  - reflexivity.
Defined.

Section Resolved.

Context (env : Env) (channel : string) (version : option string) (st : State).
Context (resp : Response) (manifest : Manifest).
Hypothesis manifest_response :
  http env MANIFEST_URL [("channel", channel)] = Responded resp.
Hypothesis manifest_ok : bad_status resp = false.
Hypothesis manifest_json : json resp = Some manifest.

Let V : string := default (latest manifest) version.
Let asked : State :=
  mkState (fs st) (lock_held st) (log st ++ [EvGet MANIFEST_URL [("channel", channel)]]).

(** The run up to the lookup of the version. *)
Lemma download_engine_resolved :
  download_engine env channel version st =
    match versions manifest !! V with
    | None => (Raise (ValueError (version_not_found_msg V channel)), asked)
    | Some info =>
        (url <- getitem info "url" ;;
         expected_sha256 <- getitem info "sha256" ;;
         print ("Downloading Orchard engine " +:+ V +:+ "...") ;;
         resp <- requests_get env url [] ;;
         raise_for_status resp ;;
         lift (verify_sha256 (content resp) expected_sha256) ;;
         install_steps env V (content resp)) asked
    end.
Proof.
  rewrite download_engine_phases, run_bind.
  rewrite (fetch_verified_manifest env channel version st resp manifest
             manifest_response manifest_ok manifest_json).
  fold asked.
  rewrite run_bind, lift_run,
    (resolve_version_default channel version manifest).
  fold V. destruct (versions manifest !! V) as [info|]; [|reflexivity].
  cbn [fst snd]. rewrite !run_bind.
  destruct (getitem info "url" asked) as [[url|e] st1]; [|reflexivity].
  rewrite !run_bind.
  destruct (getitem info "sha256" st1) as [[expected|e] st2]; [|reflexivity].
  rewrite !run_bind.
  destruct (print _ st2) as [[[]|e] st3]; [|reflexivity].
  rewrite !run_bind.
  destruct (requests_get env url [] st3) as [[resp2|e] st4]; [|reflexivity].
  rewrite !run_bind.
  destruct (raise_for_status resp2 st4) as [[[]|e] st5]; [|reflexivity].
  rewrite !run_bind.
  destruct (lift (verify_sha256 (content resp2) expected) st5) as [[[]|e] st6];
    reflexivity.
Qed.

End Resolved.

(** X8. When the version to install (the requested one, or the manifest's
    latest when none is requested) is not a key of the manifest's versions,
    [download_engine] raises the version-not-found [ValueError] right after
    the manifest request: no download is attempted and nothing is written. *)
Theorem version_not_found_stops_before_download
    env channel version st resp manifest :
  http env MANIFEST_URL [("channel", channel)] = Responded resp ->
  bad_status resp = false ->
  json resp = Some manifest ->
  versions manifest !! default (latest manifest) version = None ->
  download_engine env channel version st =
    (Raise (ValueError
              (version_not_found_msg (default (latest manifest) version) channel)),
     mkState (fs st) (lock_held st)
       (log st ++ [EvGet MANIFEST_URL [("channel", channel)]])).
Proof.
  intros Hhttp Hok Hjson Hnone.
  rewrite (download_engine_resolved env channel version st resp manifest Hhttp Hok Hjson).
  rewrite Hnone. reflexivity.
Qed.

Lemma version_not_found_stops_before_download_witness :
  download_engine (Scenario.env (Scenario.manifest "") Scenario.members true)
    "stable" (Some "9.9.9") Scenario.fresh
  = (Raise (ValueError "Version 9.9.9 not found in stable channel"),
     mkState (fs Scenario.fresh) false [EvGet MANIFEST_URL [("channel", "stable")]]).
Proof.
  apply (version_not_found_stops_before_download
           (Scenario.env (Scenario.manifest "") Scenario.members true)
           "stable" (Some "9.9.9") Scenario.fresh
           (mkResponse 200 (MANIFEST_URL +:+ "?channel=stable") []
              (Some (Scenario.manifest "")))
           (Scenario.manifest "")); reflexivity.
Defined.

(** X9. A manifest entry without a ["url"] key, or with a url but without a
    ["sha256"] key, makes [download_engine] raise [KeyError] for that key
    right after the manifest request: no download is attempted and nothing is
    written. *)
Theorem missing_descriptor_key env channel version st resp manifest info :
  http env MANIFEST_URL [("channel", channel)] = Responded resp ->
  bad_status resp = false ->
  json resp = Some manifest ->
  versions manifest !! default (latest manifest) version = Some info ->
  let asked := mkState (fs st) (lock_held st)
                 (log st ++ [EvGet MANIFEST_URL [("channel", channel)]]) in
  (info !! "url" = None ->
   download_engine env channel version st = (Raise (KeyError "url"), asked)) /\
  (forall url, info !! "url" = Some url -> info !! "sha256" = None ->
   download_engine env channel version st = (Raise (KeyError "sha256"), asked)).
Proof.
  intros Hhttp Hok Hjson Hinfo asked.
  rewrite (download_engine_resolved env channel version st resp manifest Hhttp Hok Hjson).
  rewrite Hinfo. split.
  - intros Hurl. rewrite run_bind, getitem_run, Hurl. reflexivity.
  - intros url Hurl Hsha. rewrite run_bind, getitem_run, Hurl.
    rewrite run_bind, getitem_run, Hsha. reflexivity.
Qed.

Lemma missing_descriptor_key_witness :
  download_engine (Scenario.env Scenario.manifest_without_sha Scenario.members true)
    "stable" None Scenario.fresh
  = (Raise (KeyError "sha256"),
     mkState (fs Scenario.fresh) false [EvGet MANIFEST_URL [("channel", "stable")]]).
Proof.
  apply (proj2 (missing_descriptor_key
                  (Scenario.env Scenario.manifest_without_sha Scenario.members true)
                  "stable" None Scenario.fresh
                  (mkResponse 200 (MANIFEST_URL +:+ "?channel=stable") []
                     (Some Scenario.manifest_without_sha))
                  Scenario.manifest_without_sha Scenario.descriptor_without_sha
                  eq_refl eq_refl eq_refl eq_refl)
           Scenario.artifact_url); reflexivity.
Defined.

(** ** The download and the installation *)

(** Steps 5-7 of [download_engine], case by case. *)
Lemma install_steps_run env version bytes st :
  install_steps env version bytes st =
    let at_ f := mkState f (lock_held st) (log st) in
    match Fs.mkdir (ORCHARD_HOME env) (fs st) with
    | (Raise e, f1) => (Raise e, at_ f1)
    | (Ok _, f1) =>
        match tarfile_open env bytes with
        | TarUnreadable err => (Raise (open_exn err), at_ f1)
        | TarStream members ending =>
            match Fs.extractall (umask env) (ORCHARD_HOME env) members ending f1 with
            | (Raise e, f2) => (Raise e, at_ f2)
            | (Ok _, f2) =>
                match Fs.chmod (binary_path env) 493 f2 with
                | (Raise e, f3) => (Raise e, at_ f3)
                | (Ok _, f3) =>
                    match Fs.write_text (umask env) (version_file env)
                            (PyStr.or_ version "") f3 with
                    | (Raise e, f4) => (Raise e, at_ f4)
                    | (Ok _, f4) =>
                        (Ok tt,
                         mkState f4 (lock_held st)
                           (log st ++
                            [EvPrint ("Orchard engine " +:+ version +:+ " installed to "
                                      +:+ Pathlib.path_str (ORCHARD_HOME env))]))
                    end
                end
            end
        end
    end.
Proof.
  unfold install_steps. cbv zeta.
  rewrite run_bind. unfold on_fs at 1.
  destruct (Fs.mkdir (ORCHARD_HOME env) (fs st)) as [[[]|e] f1]; [|reflexivity].
  rewrite run_bind. unfold untar.
  destruct (tarfile_open env bytes) as [err|members ending]; [reflexivity|].
  unfold on_fs at 1. cbn [fs lock_held log].
  destruct (Fs.extractall (umask env) (ORCHARD_HOME env) members ending f1) as [[[]|e] f2];
    [|reflexivity].
  rewrite run_bind. unfold on_fs at 1. cbn [fs lock_held log].
  destruct (Fs.chmod (binary_path env) 493 f2) as [[[]|e] f3]; [|reflexivity].
  rewrite run_bind. unfold on_fs at 1. cbn [fs lock_held log].
  destruct (Fs.write_text _ _ _ f3) as [[[]|e] f4]; reflexivity.
Qed.

Section Downloading.

Context (env : Env) (channel : string) (version : option string) (st : State).
Context (resp : Response) (manifest : Manifest) (info : Descriptor).
Context (url expected : string).
Hypothesis manifest_response :
  http env MANIFEST_URL [("channel", channel)] = Responded resp.
Hypothesis manifest_ok : bad_status resp = false.
Hypothesis manifest_json : json resp = Some manifest.
Hypothesis version_found :
  versions manifest !! default (latest manifest) version = Some info.
Hypothesis info_url : info !! "url" = Some url.
Hypothesis info_sha256 : info !! "sha256" = Some expected.

Let V : string := default (latest manifest) version.

(** The state once the download has been requested. *)
Let requested : State :=
  mkState (fs st) (lock_held st)
    (log st ++ [EvGet MANIFEST_URL [("channel", channel)];
                EvPrint ("Downloading Orchard engine " +:+ V +:+ "...");
                EvGet url []]).

Lemma download_engine_requested :
  download_engine env channel version st =
    match http env url [] with
    | NoResponse => (Raise (ConnectionError url), requested)
    | Responded resp2 =>
        if bad_status resp2
        then (Raise (HTTPError (status_code resp2) (resp_url resp2)), requested)
        else
          match verify_sha256 (content resp2) expected with
          | Raise e => (Raise e, requested)
          | Ok _ => install_steps env V (content resp2) requested
          end
    end.
Proof.
  rewrite (download_engine_resolved env channel version st resp manifest
             manifest_response manifest_ok manifest_json).
  rewrite version_found.
  rewrite run_bind, getitem_run, info_url.
  rewrite run_bind, getitem_run, info_sha256.
  rewrite run_bind. cbn [print emit].
  rewrite run_bind, requests_get_run. cbn [fs lock_held log].
  rewrite <- !app_assoc. cbn [app]. fold V. fold requested.
  destruct (http env url []) as [|resp2]; [reflexivity|].
  rewrite run_bind, raise_for_status_run.
  destruct (bad_status resp2); [reflexivity|].
  rewrite run_bind, lift_run.
  destruct (verify_sha256 (content resp2) expected) as [[]|e]; reflexivity.
Qed.

End Downloading.

(** X10. Once the manifest has named the artifact, a download that gets no
    response, an error status, or a body whose digest differs from a
    non-empty expected hash aborts [download_engine] with [ConnectionError],
    [HTTPError] or the mismatch [RuntimeError]; the file system is untouched
    and the events are the two requests and the message between them. *)
Theorem download_request_failures
    env channel version st resp manifest info url expected :
  http env MANIFEST_URL [("channel", channel)] = Responded resp ->
  bad_status resp = false ->
  json resp = Some manifest ->
  versions manifest !! default (latest manifest) version = Some info ->
  info !! "url" = Some url ->
  info !! "sha256" = Some expected ->
  let requested :=
    mkState (fs st) (lock_held st)
      (log st ++ fetch_events channel (default (latest manifest) version) url) in
  (http env url [] = NoResponse ->
   download_engine env channel version st = (Raise (ConnectionError url), requested)) /\
  (forall resp2,
     http env url [] = Responded resp2 -> bad_status resp2 = true ->
     download_engine env channel version st
       = (Raise (HTTPError (status_code resp2) (resp_url resp2)), requested)) /\
  (forall resp2,
     http env url [] = Responded resp2 -> bad_status resp2 = false ->
     expected <> EmptyString -> expected <> SHA256.hexdigest (content resp2) ->
     download_engine env channel version st
       = (Raise (RuntimeError
                   (sha256_mismatch_msg expected (SHA256.hexdigest (content resp2)))),
          requested)).
Proof.
  intros Hhttp Hok Hjson Hinfo Hurl Hsha requested.
  rewrite (download_engine_requested env channel version st resp manifest info url expected
             Hhttp Hok Hjson Hinfo Hurl Hsha).
  fold (fetch_events channel (default (latest manifest) version) url). fold requested.
  repeat split.
  - by intros ->.
  - intros resp2 -> ->. reflexivity.
  - intros resp2 -> -> Hne Hdiff. unfold verify_sha256.
    apply PyStrFacts.truthy_true in Hne. rewrite Hne.
    assert (Hneq : String.eqb (SHA256.hexdigest (content resp2)) expected = false)
      by (apply String.eqb_neq; congruence).
    rewrite Hneq. reflexivity.
Qed.

Lemma download_request_failures_witness :
  download_engine (Scenario.env (Scenario.manifest "00") Scenario.members true)
    "stable" None Scenario.fresh
  = (Raise (RuntimeError (sha256_mismatch_msg "00" (SHA256.hexdigest Scenario.tarball))),
     mkState (fs Scenario.fresh) false
       (fetch_events "stable" "1.2.0" Scenario.artifact_url)).
Proof.
  apply (proj2 (proj2 (download_request_failures
                  (Scenario.env (Scenario.manifest "00") Scenario.members true)
                  "stable" None Scenario.fresh
                  (mkResponse 200 (MANIFEST_URL +:+ "?channel=stable") []
                     (Some (Scenario.manifest "00")))
                  (Scenario.manifest "00") (Scenario.descriptor "00")
                  Scenario.artifact_url "00"
                  eq_refl eq_refl eq_refl eq_refl eq_refl eq_refl))
           (mkResponse 200 Scenario.artifact_url Scenario.tarball None)).
  - reflexivity.
  - reflexivity.
  - discriminate.
  - vm_compute. discriminate.
Defined.

Lemma download_engine_fetches env channel version V url bytes st :
  fetches env channel version V url bytes ->
  download_engine env channel version st =
    install_steps env V bytes
      (mkState (fs st) (lock_held st) (log st ++ fetch_events channel V url)).
Proof.
  intros (resp & manifest & info & expected & resp2 & Hhttp & Hok & Hjson & -> & Hinfo
          & Hurl & Hsha & Hhttp2 & Hok2 & -> & Hverify).
  rewrite (download_engine_requested env channel version st resp manifest info url expected
             Hhttp Hok Hjson Hinfo Hurl Hsha).
  rewrite Hhttp2, Hok2, Hverify. reflexivity.
Qed.

(** X11. A downloaded body that [tarfile.open] cannot read makes
    [download_engine] raise the error of the decoder - [EOFError] for a gzip
    stream that is cut short, [ReadError] for a body that is not a gzip
    stream, not a tar archive or corrupt; the install root has been created
    by then, and nothing else has been written. *)
Theorem unreadable_archive_fails env channel version V url bytes st f1 err :
  fetches env channel version V url bytes ->
  tarfile_open env bytes = TarUnreadable err ->
  Fs.mkdir (ORCHARD_HOME env) (fs st) = (Ok tt, f1) ->
  download_engine env channel version st =
    (Raise (match err with
            | TarEOFError => EOFError
            | _ => ReadError
            end),
     mkState f1 (lock_held st) (log st ++ fetch_events channel V url)).
Proof.
  intros Hfetch Htar Hmk.
  rewrite (download_engine_fetches env channel version V url bytes st Hfetch).
  rewrite install_steps_run. cbv zeta. cbn [fs lock_held log].
  rewrite Hmk, Htar. by destruct err.
Qed.

Lemma unreadable_archive_fails_witness :
  download_engine Scenario.garbage_env "stable" None Scenario.fresh
  = (Raise ReadError,
     mkState (<[ Scenario.home_dir ++ [".orchard"] := Dir ]> (fs Scenario.fresh)) false
       (fetch_events "stable" "1.2.0" Scenario.artifact_url)) /\
  download_engine Scenario.cut_short_env "stable" None Scenario.fresh
  = (Raise EOFError,
     mkState (<[ Scenario.home_dir ++ [".orchard"] := Dir ]> (fs Scenario.fresh)) false
       (fetch_events "stable" "1.2.0" Scenario.artifact_url)).
Proof.
  split.
  - apply (unreadable_archive_fails Scenario.garbage_env "stable" None "1.2.0"
             Scenario.artifact_url Scenario.tarball Scenario.fresh _ TarReadError).
    + apply scenario_fetches.
    + reflexivity.
    + reflexivity.
  - apply (unreadable_archive_fails Scenario.cut_short_env "stable" None "1.2.0"
             Scenario.artifact_url Scenario.tarball Scenario.fresh _ TarEOFError).
    + apply scenario_fetches.
    + reflexivity.
    + reflexivity.
Defined.

(** X12. An archive that unpacks without error but leaves nothing at the
    canonical binary path makes [download_engine] fail at the chmod step:
    with [NotADirectoryError] when a regular file sits where the path needs a
    directory ([~/.orchard/bin], say), with [FileNotFoundError] otherwise;
    the unpacked files stay, and the version file is not written. *)
Theorem archive_without_binary_fails
    env channel version V url bytes st members ending f1 f2 :
  fetches env channel version V url bytes ->
  tarfile_open env bytes = TarStream members ending ->
  Fs.mkdir (ORCHARD_HOME env) (fs st) = (Ok tt, f1) ->
  Fs.extractall (umask env) (ORCHARD_HOME env) members ending f1 = (Ok tt, f2) ->
  f2 !! binary_path env = None ->
  download_engine env channel version st =
    (Raise (if Fs.file_above f2 (binary_path env)
            then NotADirectoryError (binary_path env)
            else FileNotFoundError
                   ("[Errno 2] No such file or directory: '"
                    +:+ Pathlib.path_str (binary_path env) +:+ "'")),
     mkState f2 (lock_held st) (log st ++ fetch_events channel V url)).
Proof.
  intros Hfetch Htar Hmk Hext Hnone.
  rewrite (download_engine_fetches env channel version V url bytes st Hfetch).
  rewrite install_steps_run. cbv zeta. cbn [fs lock_held log].
  rewrite Hmk, Htar, Hext. unfold Fs.chmod. rewrite Hnone. reflexivity.
Qed.

Lemma archive_without_binary_fails_witness :
  fst (download_engine (Scenario.env (Scenario.manifest "") [TarDir ["bin"] 493] true)
         "stable" None Scenario.fresh)
  = Raise (FileNotFoundError
      "[Errno 2] No such file or directory: '/home/dev/.orchard/bin/proxy_inference_engine'") /\
  fst (download_engine (Scenario.env (Scenario.manifest "") [TarDir ["bin"] 493] true)
         "stable" None Scenario.bin_is_file)
  = Raise (NotADirectoryError Scenario.managed_binary).
Proof.
  split.
  - rewrite (archive_without_binary_fails
               (Scenario.env (Scenario.manifest "") [TarDir ["bin"] 493] true)
               "stable" None "1.2.0" Scenario.artifact_url Scenario.tarball Scenario.fresh
               [TarDir ["bin"] 493] Intact
               (<[ Scenario.home_dir ++ [".orchard"] := Dir ]> (fs Scenario.fresh))
               (<[ Scenario.home_dir ++ [".orchard"; "bin"] := Dir ]>
                  (<[ Scenario.home_dir ++ [".orchard"] := Dir ]> (fs Scenario.fresh)))).
    + reflexivity.
    + apply scenario_fetches.
    + reflexivity.
    + reflexivity.
    + reflexivity.
    + reflexivity.
  - rewrite (archive_without_binary_fails
               (Scenario.env (Scenario.manifest "") [TarDir ["bin"] 493] true)
               "stable" None "1.2.0" Scenario.artifact_url Scenario.tarball
               Scenario.bin_is_file
               [TarDir ["bin"] 493] Intact
               (fs Scenario.bin_is_file)
               (<[ Scenario.home_dir ++ [".orchard"; "bin"] := File [] 493 ]>
                  (fs Scenario.bin_is_file))).
    + reflexivity.
    + apply scenario_fetches.
    + reflexivity.
    + reflexivity.
    + reflexivity.
    + reflexivity.
Defined.

(** X13. A successful [download_engine] logs exactly four events: the
    manifest request carrying the channel, the message announcing the
    download, the request for the artifact at the URL the manifest gives, and
    the message announcing the installation. *)
Theorem successful_install_events env channel version V url bytes st st' :
  fetches env channel version V url bytes ->
  download_engine env channel version st = (Ok tt, st') ->
  new_events st st' =
    [EvGet MANIFEST_URL [("channel", channel)];
     EvPrint ("Downloading Orchard engine " +:+ V +:+ "...");
     EvGet url [];
     EvPrint ("Orchard engine " +:+ V +:+ " installed to "
              +:+ Pathlib.path_str (ORCHARD_HOME env))].
Proof.
  intros Hfetch Hrun.
  rewrite (download_engine_fetches env channel version V url bytes st Hfetch) in Hrun.
  rewrite install_steps_run in Hrun. cbv zeta in Hrun. cbn [fs lock_held log] in Hrun.
  destruct (Fs.mkdir _ _) as [[[]|?] f1]; [|discriminate].
  destruct (tarfile_open env bytes) as [err|members ending]; [discriminate|].
  destruct (Fs.extractall _ _ _ _ f1) as [[[]|?] f2]; [|discriminate].
  destruct (Fs.chmod _ _ f2) as [[[]|?] f3]; [|discriminate].
  destruct (Fs.write_text _ _ _ f3) as [[[]|?] f4]; [|discriminate].
  injection Hrun as <-. unfold new_events. cbn [log].
  rewrite <- app_assoc, drop_app_length. reflexivity.
Qed.

Lemma successful_install_events_witness :
  new_events Scenario.fresh
    (snd (download_engine (Scenario.env (Scenario.manifest "") Scenario.members true)
            "stable" None Scenario.fresh))
  = [EvGet MANIFEST_URL [("channel", "stable")];
     EvPrint "Downloading Orchard engine 1.2.0...";
     EvGet "https://x/a.tgz" [];
     EvPrint "Orchard engine 1.2.0 installed to /home/dev/.orchard"].
Proof.
  apply (successful_install_events
           (Scenario.env (Scenario.manifest "") Scenario.members true)
           "stable" None "1.2.0" Scenario.artifact_url Scenario.tarball Scenario.fresh).
  - apply scenario_fetches.
  - apply run_result. vm_compute. reflexivity.
Defined.

Lemma version_file_is_not_binary env : version_file env <> binary_path env.
Proof.
  unfold version_file, binary_path, Pathlib.joinpath. intros H.
  apply (f_equal length) in H. rewrite !length_app in H. cbn in H. lia.
Qed.

(** X14. After a successful [download_engine], a regular file at the
    canonical binary path has mode 0o755 (493). *)
Theorem installed_binary_is_executable env channel version st st' data mode :
  download_engine env channel version st = (Ok tt, st') ->
  fs st' !! binary_path env = Some (File data mode) ->
  mode = 493.
Proof.
  intros Hrun Hbin. rewrite download_engine_phases in Hrun.
  apply bind_Ok_inv in Hrun as ([V bytes] & st0 & _ & Hinst). cbn [fst snd] in Hinst.
  rewrite install_steps_run in Hinst. cbv zeta in Hinst.
  destruct (Fs.mkdir _ _) as [[[]|?] f1]; [|discriminate].
  destruct (tarfile_open env bytes) as [err|members ending]; [discriminate|].
  destruct (Fs.extractall _ _ _ _ f1) as [[[]|?] f2]; [|discriminate].
  destruct (Fs.chmod _ _ f2) as [[[]|?] f3] eqn:Hchmod; [|discriminate].
  destruct (Fs.write_text _ _ _ f3) as [[[]|?] f4] eqn:Hwrite; [|discriminate].
  injection Hinst as <-. cbn [fs] in Hbin.
  apply FsFacts.write_text_Ok in Hwrite as (d & m & _ & ->).
  rewrite lookup_insert_ne in Hbin by apply version_file_is_not_binary.
  unfold Fs.chmod in Hchmod.
  destruct (f2 !! binary_path env) as [[d0 m0|]|] eqn:Hf2; try discriminate.
  - injection Hchmod as <-. rewrite lookup_insert_eq in Hbin. congruence.
  - injection Hchmod as <-. congruence.
Qed.

Lemma installed_binary_is_executable_witness :
  match fs (snd (download_engine (Scenario.env (Scenario.manifest "") Scenario.members true)
                   "stable" None Scenario.fresh)) !! Scenario.managed_binary with
  | Some (File _ mode) => mode = 493
  | _ => False
  end.
Proof.
  set (st' := snd (download_engine
                     (Scenario.env (Scenario.manifest "") Scenario.members true)
                     "stable" None Scenario.fresh)).
  destruct (fs st' !! Scenario.managed_binary) as [[data mode|]|] eqn:Hbin.
  - apply (installed_binary_is_executable
             (Scenario.env (Scenario.manifest "") Scenario.members true)
             "stable" None Scenario.fresh st' data mode).
    + apply (run_result
               (download_engine (Scenario.env (Scenario.manifest "") Scenario.members true)
                  "stable" None Scenario.fresh) (Ok tt)).
      vm_compute. reflexivity.
    + exact Hbin.
  - vm_compute in Hbin. discriminate Hbin.
  - vm_compute in Hbin. discriminate Hbin.
Defined.

(** ** The version queries *)

Lemma get_installed_version_state env st :
  snd (get_installed_version env st) = st.
Proof.
  unfold get_installed_version. rewrite run_bind, path_exists_run.
  destruct (Fs.exists_ (fs st) (version_file env)); [|reflexivity].
  rewrite run_bind. unfold on_fs, Fs.read_text.
  destruct (fs st !! version_file env) as [[data mode|]|]; cbn [snd ret];
    try apply State_eta.
  destruct (PyStr.decode data); apply State_eta.
Qed.

(** X16. The version queries are read-only.  [get_installed_version] leaves
    the state exactly as it was, whatever it returns or raises;
    [check_for_updates] never changes the file system or the lock, and logs
    either nothing or the one manifest request carrying its channel. *)
Theorem version_queries_are_read_only env channel st :
  snd (get_installed_version env st) = st /\
  (snd (check_for_updates env channel st) = st \/
   snd (check_for_updates env channel st) =
     mkState (fs st) (lock_held st)
       (log st ++ [EvGet MANIFEST_URL [("channel", channel)]])).
Proof.
  split; [apply get_installed_version_state|].
  unfold check_for_updates. rewrite run_bind.
  pose proof (get_installed_version_state env st) as Hst.
  destruct (get_installed_version env st) as [[installed|e] st0]; cbn [snd] in Hst;
    subst st0; [|by left].
  destruct (negb (PyStr.opt_truthy installed)); [by left|].
  right. rewrite run_bind, requests_get_run.
  destruct (http env MANIFEST_URL _) as [|resp]; [reflexivity|].
  rewrite run_bind, raise_for_status_run.
  destruct (bad_status resp); [reflexivity|].
  rewrite run_bind, resp_json_run.
  destruct (json resp) as [manifest|]; [|reflexivity].
  cbv zeta. by destruct (negb _).
Qed.

(** The update check once a non-empty version has been read. *)
Lemma check_for_updates_installed env channel st data mode text :
  fs st !! version_file env = Some (File data mode) ->
  PyStr.decode data = Some text ->
  let installed := PyStr.strip (PyStr.universal_newlines text) in
  installed <> EmptyString ->
  check_for_updates env channel st =
    (resp <- requests_get env MANIFEST_URL [("channel", channel)] ;;
     raise_for_status resp ;;
     manifest <- resp_json resp ;;
     if negb (String.eqb (latest manifest) installed) then ret (Some (latest manifest))
     else ret None) st.
Proof.
  intros Hfile Htext installed Hne. unfold check_for_updates.
  rewrite run_bind, (get_installed_version_file env st data mode text Hfile Htext).
  fold installed. cbn [PyStr.opt_truthy].
  apply PyStrFacts.truthy_true in Hne. rewrite Hne. reflexivity.
Qed.

(** X17. With a version file that holds UTF-8 text whose stripped form is
    not empty, [check_for_updates] against a manifest that is served compares
    that stripped text with the manifest's latest version as plain strings:
    it returns [None] when they are equal and the latest version when they
    differ.  It never returns the version that is installed. *)
Theorem update_check_compares_stripped_text env channel st data mode text resp manifest :
  fs st !! version_file env = Some (File data mode) ->
  PyStr.decode data = Some text ->
  PyStr.strip (PyStr.universal_newlines text) <> EmptyString ->
  http env MANIFEST_URL [("channel", channel)] = Responded resp ->
  bad_status resp = false ->
  json resp = Some manifest ->
  let installed := PyStr.strip (PyStr.universal_newlines text) in
  fst (check_for_updates env channel st) =
    Ok (if String.eqb (latest manifest) installed then None else Some (latest manifest)) /\
  fst (check_for_updates env channel st) <> Ok (Some installed).
Proof.
  intros Hfile Htext Hne Hhttp Hok Hjson installed.
  rewrite (check_for_updates_installed env channel st data mode text Hfile Htext Hne).
  fold installed.
  rewrite run_bind, requests_get_run, Hhttp.
  rewrite run_bind, raise_for_status_run, Hok.
  rewrite run_bind, resp_json_run, Hjson.
  destruct (String.eqb (latest manifest) installed) eqn:Heq; cbn [negb fst ret].
  - split; [reflexivity | discriminate].
  - split; [reflexivity|]. intros [= H]. apply String.eqb_neq in Heq. congruence.
Qed.

Lemma update_check_compares_stripped_text_witness :
  fst (check_for_updates (Scenario.env Scenario.later_manifest Scenario.members true)
         "stable" (Scenario.recorded ("1.2.0" +:+ nl)))
  = Ok (Some "1.3.0").
Proof.
  apply (proj1 (update_check_compares_stripped_text
                  (Scenario.env Scenario.later_manifest Scenario.members true)
                  "stable" (Scenario.recorded ("1.2.0" +:+ nl))
                  (PyStr.bytes_of ("1.2.0" +:+ nl)) 420 ("1.2.0" +:+ nl)
                  (Scenario.manifest_response Scenario.later_manifest)
                  Scenario.later_manifest
                  eq_refl eq_refl ltac:(discriminate) eq_refl eq_refl eq_refl)).
Defined.

(** X18. With a version file that holds UTF-8 text whose stripped form is
    not empty, [check_for_updates] does not hide a failed manifest request:
    no response raises [ConnectionError], an error status raises [HTTPError],
    a body that is not JSON raises [JSONDecodeError]. *)
Theorem update_check_propagates_errors env channel st data mode text :
  fs st !! version_file env = Some (File data mode) ->
  PyStr.decode data = Some text ->
  PyStr.strip (PyStr.universal_newlines text) <> EmptyString ->
  (http env MANIFEST_URL [("channel", channel)] = NoResponse ->
   fst (check_for_updates env channel st) = Raise (ConnectionError MANIFEST_URL)) /\
  (forall resp,
     http env MANIFEST_URL [("channel", channel)] = Responded resp ->
     bad_status resp = true ->
     fst (check_for_updates env channel st)
       = Raise (HTTPError (status_code resp) (resp_url resp))) /\
  (forall resp,
     http env MANIFEST_URL [("channel", channel)] = Responded resp ->
     bad_status resp = false -> json resp = None ->
     fst (check_for_updates env channel st) = Raise JSONDecodeError).
Proof.
  intros Hfile Htext Hne.
  rewrite (check_for_updates_installed env channel st data mode text Hfile Htext Hne).
  repeat split.
  - intros Hhttp. by rewrite run_bind, requests_get_run, Hhttp.
  - intros resp Hhttp Hbad. rewrite run_bind, requests_get_run, Hhttp.
    by rewrite run_bind, raise_for_status_run, Hbad.
  - intros resp Hhttp Hok Hjson. rewrite run_bind, requests_get_run, Hhttp.
    rewrite run_bind, raise_for_status_run, Hok.
    by rewrite run_bind, resp_json_run, Hjson.
Qed.

Lemma update_check_propagates_errors_witness :
  fst (check_for_updates Scenario.outage_env "stable" (Scenario.recorded "1.2.0"))
  = Raise (HTTPError 500 Scenario.manifest_endpoint).
Proof.
  apply (proj1 (proj2 (update_check_propagates_errors Scenario.outage_env "stable"
                         (Scenario.recorded "1.2.0") (PyStr.bytes_of "1.2.0") 420 "1.2.0"
                         eq_refl eq_refl ltac:(discriminate)))
           (mkResponse 500 Scenario.manifest_endpoint [] None)); reflexivity.
Defined.

(** X25. A version file that is not UTF-8 text is not passed over:
    [get_installed_version] raises [UnicodeDecodeError], and so does
    [check_for_updates], before any request; the state is untouched. *)
Theorem undecodable_version_file env channel st data mode :
  fs st !! version_file env = Some (File data mode) ->
  PyStr.decode data = None ->
  get_installed_version env st = (Raise UnicodeDecodeError, st) /\
  check_for_updates env channel st = (Raise UnicodeDecodeError, st).
Proof.
  intros Hfile Htext.
  pose proof (get_installed_version_undecodable env st data mode Hfile Htext) as Hget.
  split; [exact Hget|]. unfold check_for_updates. by rewrite run_bind, Hget.
Qed.

Lemma undecodable_version_file_witness :
  check_for_updates (Scenario.env (Scenario.manifest "") Scenario.members true) "stable"
    Scenario.latin1_version
  = (Raise UnicodeDecodeError, Scenario.latin1_version).
Proof.
  apply (proj2 (undecodable_version_file
                  (Scenario.env (Scenario.manifest "") Scenario.members true) "stable"
                  Scenario.latin1_version [Byte.xa0] 420 eq_refl eq_refl)).
Defined.

(** X19. A version returned by [get_installed_version] never starts or ends
    with white space, be it a character of one byte or of several: stripping
    it again changes nothing. *)
Theorem installed_version_is_stripped env st s st' :
  get_installed_version env st = (Ok (Some s), st') ->
  PyStr.strip s = s /\
  (forall c, PyStr.head s = Some c -> PyStr.isspace c = false) /\
  (forall c, PyStr.last s = Some c -> PyStr.isspace c = false) /\
  PyStr.starts_with_space s = false /\
  PyStr.ends_with_space s = false.
Proof.
  unfold get_installed_version. rewrite run_bind, path_exists_run.
  destruct (Fs.exists_ (fs st) (version_file env)); [|discriminate].
  rewrite run_bind. unfold on_fs, Fs.read_text.
  destruct (fs st !! version_file env) as [[data mode|]|]; try discriminate.
  destruct (PyStr.decode data) as [text|]; [|discriminate].
  intros [= <- _].
  split; [apply PyStrFacts.strip_idempotent|].
  split; [intros c; apply PyStrFacts.strip_head|].
  split; [intros c; apply PyStrFacts.strip_last|].
  apply PyStrFacts.strip_ends.
Qed.

Lemma installed_version_is_stripped_witness :
  PyStr.strip "1.2.0" = "1.2.0".
Proof.
  apply (proj1 (installed_version_is_stripped
                  (Scenario.env (Scenario.manifest "") Scenario.members true)
                  (Scenario.recorded "  1.2.0 ") "1.2.0" (Scenario.recorded "  1.2.0 ")
                  eq_refl)).
Defined.

(** X20. White space after the version id in [version.txt] - a final
    newline, say, LF or CR LF - does not matter: when the file holds the
    UTF-8 encoding of a version id without carriage return that neither
    starts nor ends with a white-space character, followed by white space
    only, [get_installed_version] returns that id. *)
Theorem trailing_white_space_is_ignored env st V blank data mode :
  fs st !! version_file env = Some (File data mode) ->
  PyStr.decode data = Some (V +:+ blank) ->
  PyStr.all_space blank = true ->
  PyStr.has_CR V = false ->
  PyStr.starts_with_space V = false ->
  PyStr.ends_with_space V = false ->
  get_installed_version env st = (Ok (Some V), st).
Proof.
  intros Hfile Htext Hblank Hcr Hstart Hend.
  rewrite (get_installed_version_file env st data mode _ Hfile Htext).
  rewrite (PyStrFacts.universal_newlines_append V blank Hcr).
  by rewrite (PyStrFacts.strip_append_blank V _ Hstart Hend
                (PyStrFacts.universal_newlines_all_space blank Hblank)).
Qed.

Lemma trailing_white_space_is_ignored_witness :
  get_installed_version (Scenario.env (Scenario.manifest "") Scenario.members true)
    (Scenario.recorded ("1.2.0" +:+ nl))
  = (Ok (Some "1.2.0"), Scenario.recorded ("1.2.0" +:+ nl)).
Proof.
  apply (trailing_white_space_is_ignored
           (Scenario.env (Scenario.manifest "") Scenario.members true)
           (Scenario.recorded ("1.2.0" +:+ nl)) "1.2.0" nl
           (PyStr.bytes_of ("1.2.0" +:+ nl)) 420);
    reflexivity.
Defined.

(** ** The shape of a digest *)

Module SHA256Facts.
Import SHA256.

Lemma round_length st kw : length (round st kw) = length st.
Proof.
  destruct st as [|a [|b [|c [|d [|e [|f [|g [|h [|i st]]]]]]]]]; reflexivity.
Qed.

Lemma rounds_length kws st : length (fold_left round kws st) = length st.
Proof.
  revert st. induction kws as [|kw kws IH]; intros st; [reflexivity|].
  cbn [fold_left]. by rewrite IH, round_length.
Qed.

Lemma compress_length h block : length (compress h block) = length h.
Proof.
  unfold compress, zip_with_Z.
  rewrite length_map, length_combine, rounds_length. lia.
Qed.

Lemma blocks_length fuel h bs : length (blocks fuel h bs) = length h.
Proof.
  revert h bs. induction fuel as [|fuel IH]; intros h bs; [reflexivity|].
  cbn [blocks]. destruct bs; [reflexivity|]. by rewrite IH, compress_length.
Qed.

Lemma be_bytes_length n x : length (be_bytes n x) = n.
Proof. unfold be_bytes. by rewrite length_map, length_rev, length_seq. Qed.

Lemma be_bytes_range n x b : In b (be_bytes n x) -> 0 <= b < 256.
Proof.
  unfold be_bytes. intros (i & <- & _)%in_map_iff.
  change 255 with (Z.ones 8). rewrite Z.land_ones by lia.
  apply Z.mod_pos_bound. lia.
Qed.

Lemma flat_map_be_bytes_length ws :
  length (flat_map (be_bytes 4) ws) = (4 * length ws)%nat.
Proof.
  induction ws as [|w ws IH]; [reflexivity|].
  cbn [flat_map]. rewrite length_app, be_bytes_length, IH. cbn [length]. lia.
Qed.

Lemma digest_length msg : length (digest msg) = 32%nat.
Proof.
  unfold digest. rewrite flat_map_be_bytes_length, blocks_length. reflexivity.
Qed.

Lemma digest_range msg b : In b (digest msg) -> 0 <= b < 256.
Proof.
  unfold digest. intros (w & _ & Hb)%in_flat_map. by apply be_bytes_range in Hb.
Qed.

Lemma hex_length bs : String.length (hex bs) = (2 * length bs)%nat.
Proof. induction bs as [|b bs IH]; [reflexivity|]. cbn [hex String.length length]. lia. Qed.

(** Both hex digits of every byte value are in [0-9a-f]. *)
Lemma hex_digits_of_bytes :
  forallb (fun n => is_lower_hex (hex_digit (Z.shiftr (Z.of_nat n) 4))
                    && is_lower_hex (hex_digit (Z.land (Z.of_nat n) 15)))
          (seq 0 256) = true.
Proof. vm_compute. reflexivity. Qed.

Lemma hex_digits_lower b :
  0 <= b < 256 ->
  is_lower_hex (hex_digit (Z.shiftr b 4)) = true /\
  is_lower_hex (hex_digit (Z.land b 15)) = true.
Proof.
  intros Hb. pose proof hex_digits_of_bytes as Hall.
  rewrite forallb_forall in Hall. specialize (Hall (Z.to_nat b)).
  rewrite Z2Nat.id in Hall by lia. apply andb_prop. apply Hall.
  apply in_seq. lia.
Qed.

Lemma hex_lower bs :
  (forall b, In b bs -> 0 <= b < 256) -> all_lower_hex (hex bs) = true.
Proof.
  induction bs as [|b bs IH]; intros Hbs; [reflexivity|].
  cbn [hex all_lower_hex].
  destruct (hex_digits_lower b) as [H1 H2]; [apply Hbs; by left|].
  rewrite H1, H2, IH; [reflexivity|]. intros b' Hb'. apply Hbs. by right.
Qed.

(** A hex digest is 64 characters out of [0-9a-f]. *)
Lemma hexdigest_shape content :
  String.length (hexdigest content) = 64%nat /\ all_lower_hex (hexdigest content) = true.
Proof.
  unfold hexdigest. split.
  - by rewrite hex_length, digest_length.
  - apply hex_lower. apply digest_range.
Qed.

End SHA256Facts.

(** X21. The digest check accepts an expected hash only if it is empty or
    consists of exactly 64 characters out of [0-9a-f]: a non-empty expected
    hash of another length, or with an upper-case or non-hex character, is
    rejected whatever the content. *)
Theorem accepted_hash_is_empty_or_lower_hex (content : list Byte.byte) (expected : string) :
  verify_sha256 content expected = Ok tt ->
  expected = EmptyString \/
  (String.length expected = 64%nat /\ all_lower_hex expected = true).
Proof.
  unfold verify_sha256. destruct expected as [|c rest]; [by left|].
  cbn [PyStr.truthy andb].
  destruct (String.eqb (SHA256.hexdigest content) (String c rest)) eqn:Heq;
    [|discriminate].
  intros _. right. apply String.eqb_eq in Heq. rewrite <- Heq.
  apply SHA256Facts.hexdigest_shape.
Qed.

Lemma accepted_hash_is_empty_or_lower_hex_witness :
  String.length "e3b0c44298fc1c149afbf4c8996fb92427ae41e4649b934ca495991b7852b855" = 64%nat.
Proof.
  destruct (accepted_hash_is_empty_or_lower_hex []
              "e3b0c44298fc1c149afbf4c8996fb92427ae41e4649b934ca495991b7852b855")
    as [Hempty | [Hlen _]].
  - vm_compute. reflexivity.
  - discriminate Hempty.
  - exact Hlen.
Defined.

(** ** The install as [get_engine_path] runs it *)

(** X22. When the install root cannot be created because a regular file is
    in the way - at [~/.orchard] itself or at one of its parents -
    [get_engine_path] raises [FileExistsError] or [NotADirectoryError] for the
    install root before it tries to take the lock: nothing is logged and the
    lock is untouched. *)
Theorem install_root_in_the_way env st e f1 :
  PyStr.opt_truthy (environ env !! "PIE_LOCAL_BUILD") = false ->
  Fs.exists_ (fs st) (binary_path env) = false ->
  Fs.mkdir (ORCHARD_HOME env) (fs st) = (Raise e, f1) ->
  get_engine_path env st = (Raise e, mkState f1 (lock_held st) (log st)) /\
  (e = FileExistsError (ORCHARD_HOME env) \/ e = NotADirectoryError (ORCHARD_HOME env)).
Proof.
  intros Hno Hmiss Hmk. split.
  - rewrite (get_engine_path_managed env st Hno).
    exact (managed_mkdir_fails env st e f1 Hmiss Hmk).
  - assert (H : fst (Fs.mkdir (ORCHARD_HOME env) (fs st)) = Raise e) by (by rewrite Hmk).
    unfold Fs.mkdir in H. apply FsFacts.makedirs_raises in H as [-> | [q ->]]; auto.
Qed.

Lemma install_root_in_the_way_witness :
  get_engine_path (Scenario.env (Scenario.manifest "") Scenario.members true)
    Scenario.blocked
  = (Raise (FileExistsError ["/"; "home"; "dev"; ".orchard"]), Scenario.blocked).
Proof.
  apply (proj1 (install_root_in_the_way
                  (Scenario.env (Scenario.manifest "") Scenario.members true)
                  Scenario.blocked (FileExistsError ["/"; "home"; "dev"; ".orchard"])
                  (fs Scenario.blocked) eq_refl eq_refl eq_refl)).
Defined.

(** X23. An exception raised by [download_engine] inside the critical
    section leaves [get_engine_path] unchanged: the caller gets that very
    exception, the file system is as the failed install left it, and the lock
    has been released. *)
Theorem install_errors_pass_through env st f1 f2 e st1 :
  PyStr.opt_truthy (environ env !! "PIE_LOCAL_BUILD") = false ->
  Fs.exists_ (fs st) (binary_path env) = false ->
  Fs.mkdir (ORCHARD_HOME env) (fs st) = (Ok tt, f1) ->
  lock_wait env 300 f1 = Some f2 ->
  Fs.exists_ f2 (binary_path env) = false ->
  download_engine env DEFAULT_CHANNEL None
    (mkState f2 true
       (log st ++ [EvLockAcquire (Pathlib.path_str (lock_path env));
                   EvPrint "Orchard engine not found. Downloading..."]))
    = (Raise e, st1) ->
  get_engine_path env st =
    (Raise e,
     mkState (fs st1) false
       (log st1 ++ [EvLockRelease (Pathlib.path_str (lock_path env))])).
Proof.
  intros Hno Hmiss Hmk Hlock Hmiss2 Hdl.
  rewrite (get_engine_path_managed env st Hno).
  rewrite (managed_locked env st f1 f2 Hmiss Hmk Hlock). cbv zeta.
  rewrite (critical_section_miss env
             (mkState f2 true (log st ++ [EvLockAcquire (Pathlib.path_str (lock_path env))]))
             Hmiss2).
  cbn [fs lock_held log].
  rewrite <- app_assoc. cbn [app]. rewrite Hdl. reflexivity.
Qed.

Lemma install_errors_pass_through_witness :
  fst (get_engine_path (Scenario.env (Scenario.manifest_without_sha) Scenario.members true)
         Scenario.fresh)
  = Raise (KeyError "sha256").
Proof.
  pose proof (install_errors_pass_through
                (Scenario.env (Scenario.manifest_without_sha) Scenario.members true)
                Scenario.fresh
                (<[ Scenario.home_dir ++ [".orchard"] := Dir ]> (fs Scenario.fresh))
                (<[ Scenario.home_dir ++ [".orchard"] := Dir ]> (fs Scenario.fresh))
                (KeyError "sha256")
                (snd (download_engine
                        (Scenario.env (Scenario.manifest_without_sha) Scenario.members true)
                        DEFAULT_CHANNEL None
                        (mkState (<[ Scenario.home_dir ++ [".orchard"] := Dir ]>
                                    (fs Scenario.fresh)) true
                           [EvLockAcquire "/home/dev/.orchard/install.lock";
                            EvPrint "Orchard engine not found. Downloading..."])))
                eq_refl eq_refl) as H.
  rewrite H; [reflexivity | reflexivity | reflexivity | reflexivity
             | apply run_result; vm_compute; reflexivity].
Defined.

(** X24. A first install through [get_engine_path] always asks for the
    latest version of the ["stable"] channel: when the lock is granted, the
    binary is still missing and the install succeeds, the call returns the
    managed binary path with the lock released, and its events are the lock
    acquisition, the not-found message, the manifest request for channel
    ["stable"], the download message, the artifact request, the installed
    message and the lock release, in that order. *)
Theorem first_install_events env st f1 f2 V url bytes p st' :
  PyStr.opt_truthy (environ env !! "PIE_LOCAL_BUILD") = false ->
  Fs.exists_ (fs st) (binary_path env) = false ->
  Fs.mkdir (ORCHARD_HOME env) (fs st) = (Ok tt, f1) ->
  lock_wait env 300 f1 = Some f2 ->
  Fs.exists_ f2 (binary_path env) = false ->
  fetches env DEFAULT_CHANNEL None V url bytes ->
  get_engine_path env st = (Ok p, st') ->
  p = binary_path env /\
  lock_held st' = false /\
  new_events st st' =
    [EvLockAcquire (Pathlib.path_str (lock_path env));
     EvPrint "Orchard engine not found. Downloading...";
     EvGet MANIFEST_URL [("channel", "stable")];
     EvPrint ("Downloading Orchard engine " +:+ V +:+ "...");
     EvGet url [];
     EvPrint ("Orchard engine " +:+ V +:+ " installed to "
              +:+ Pathlib.path_str (ORCHARD_HOME env));
     EvLockRelease (Pathlib.path_str (lock_path env))].
Proof.
  intros Hno Hmiss Hmk Hlock Hmiss2 Hfetch Hrun.
  rewrite (get_engine_path_managed env st Hno) in Hrun.
  rewrite (managed_locked env st f1 f2 Hmiss Hmk Hlock) in Hrun. cbv zeta in Hrun.
  rewrite (critical_section_miss env
             (mkState f2 true (log st ++ [EvLockAcquire (Pathlib.path_str (lock_path env))]))
             Hmiss2) in Hrun.
  cbn [fs lock_held log] in Hrun.
  rewrite (download_engine_fetches env DEFAULT_CHANNEL None V url bytes _ Hfetch) in Hrun.
  rewrite install_steps_run in Hrun. cbv zeta in Hrun. cbn [fs lock_held log] in Hrun.
  destruct (Fs.mkdir _ f2) as [[[]|?] g1]; [|discriminate].
  destruct (tarfile_open env bytes) as [err|members ending]; [discriminate|].
  destruct (Fs.extractall _ _ _ _ g1) as [[[]|?] g2]; [|discriminate].
  destruct (Fs.chmod _ _ g2) as [[[]|?] g3]; [|discriminate].
  destruct (Fs.write_text _ _ _ g3) as [[[]|?] g4]; [|discriminate].
  cbn [fst snd fs log] in Hrun.
  destruct (Fs.exists_ g4 (binary_path env)); [|discriminate].
  injection Hrun as <- <-. repeat split.
  unfold new_events. cbn [log]. rewrite <- !app_assoc, drop_app_length. reflexivity.
Qed.

Lemma first_install_events_witness :
  new_events Scenario.fresh
    (snd (get_engine_path (Scenario.env (Scenario.manifest "") Scenario.members true)
            Scenario.fresh))
  = [EvLockAcquire "/home/dev/.orchard/install.lock";
     EvPrint "Orchard engine not found. Downloading...";
     EvGet MANIFEST_URL [("channel", "stable")];
     EvPrint "Downloading Orchard engine 1.2.0...";
     EvGet "https://x/a.tgz" [];
     EvPrint "Orchard engine 1.2.0 installed to /home/dev/.orchard";
     EvLockRelease "/home/dev/.orchard/install.lock"].
Proof.
  apply (first_install_events
           (Scenario.env (Scenario.manifest "") Scenario.members true) Scenario.fresh
           (<[ Scenario.home_dir ++ [".orchard"] := Dir ]> (fs Scenario.fresh))
           (<[ Scenario.home_dir ++ [".orchard"] := Dir ]> (fs Scenario.fresh))
           "1.2.0" Scenario.artifact_url Scenario.tarball Scenario.managed_binary).
  - reflexivity.
  - reflexivity.
  - reflexivity.
  - reflexivity.
  - reflexivity.
  - apply scenario_fetches.
  - apply run_result. vm_compute. reflexivity.
Defined.

